(** * python-gitlab: the generic object / manager layer of [gitlab/objects.py]

    A shallow embedding of the dispatch layer of [gitlab/objects.py]
    ([BaseManager], [GitlabObject] and the bespoke methods of [User],
    [ProjectBranch] and [Project]) together with the properties its
    specification states about it.

    Conventions of the embedding.
    - Python 3 semantics are followed ([str] is text, [dict] keeps insertion
      order, [bool] is a subclass of [int]).  Floating point numbers are not
      modelled.
    - A Python [dict] with string keys is an association list without
      repeated keys, in insertion order.
    - Exceptions are explicit: a call returns [Ok v] or raises, [Raise e].
      A third outcome, [Stop], marks the places where the embedding stops
      following the program.
    - Keyword arguments are a dictionary; their names are taken not to
      clash with the positional parameters of the function called.
    - The transport object ([gitlab.Gitlab], defined outside this module)
      is a record of oracles; every call made on it is appended to a trace,
      so that "no network call" reads "the trace is unchanged".
    - Instances that are shared and mutated (the [self] of a method, the
      parent of a manager) live in a heap and are named by their address;
      instances stored as attribute values, and objects a call has just
      built, are kept by content. *)

From Stdlib Require Import List String Ascii ZArith Bool Lia Arith DecimalString.
Import ListNotations.

Set Warnings "-register-all".
Set Implicit Arguments.

Local Open Scope string_scope.
Local Open Scope list_scope.

(** ** Resource descriptors: the class attributes of [GitlabObject] *)

(** [canGet] takes the values [True], [False] and ['from_list']. *)
Inductive can_get : Type := CanGetFalse | CanGetTrue | CanGetFromList.

(** A descriptor carries the class attributes read by the modelled code.
    [managers] holds manager classes (Python class objects), each of which
    names the class it wraps in [obj_cls]; [_constructorTypes] names classes
    by a string looked up in the module globals.  [cls_members] lists the
    remaining names defined at class level (methods, constants): [getattr]
    on an instance falls back on them. *)
Inductive descriptor : Type :=
  Descriptor
    (cls_name : string)
    (_url : option string)
    (canGet : can_get)
    (canList canCreate canUpdate canDelete : bool)
    (requiredCreateAttrs optionalCreateAttrs : list string)
    (requiredUpdateAttrs optionalUpdateAttrs : list string)
    (managers : list (string * manager_class * list (string * string)))
    (idAttr : string)
    (_constructorTypes : list (string * string))
    (cls_members : list string)
with manager_class : Type :=
  ManagerClass (mgr_name : string) (obj_cls : option descriptor).

Definition cls_name (c : descriptor) : string :=
  let 'Descriptor n _ _ _ _ _ _ _ _ _ _ _ _ _ _ := c in n.
Definition _url (c : descriptor) : option string :=
  let 'Descriptor _ u _ _ _ _ _ _ _ _ _ _ _ _ _ := c in u.
Definition canGet (c : descriptor) : can_get :=
  let 'Descriptor _ _ g _ _ _ _ _ _ _ _ _ _ _ _ := c in g.
Definition canList (c : descriptor) : bool :=
  let 'Descriptor _ _ _ l _ _ _ _ _ _ _ _ _ _ _ := c in l.
Definition canCreate (c : descriptor) : bool :=
  let 'Descriptor _ _ _ _ x _ _ _ _ _ _ _ _ _ _ := c in x.
Definition canUpdate (c : descriptor) : bool :=
  let 'Descriptor _ _ _ _ _ x _ _ _ _ _ _ _ _ _ := c in x.
Definition canDelete (c : descriptor) : bool :=
  let 'Descriptor _ _ _ _ _ _ x _ _ _ _ _ _ _ _ := c in x.
Definition requiredCreateAttrs (c : descriptor) : list string :=
  let 'Descriptor _ _ _ _ _ _ _ x _ _ _ _ _ _ _ := c in x.
Definition optionalCreateAttrs (c : descriptor) : list string :=
  let 'Descriptor _ _ _ _ _ _ _ _ x _ _ _ _ _ _ := c in x.
Definition requiredUpdateAttrs (c : descriptor) : list string :=
  let 'Descriptor _ _ _ _ _ _ _ _ _ x _ _ _ _ _ := c in x.
Definition optionalUpdateAttrs (c : descriptor) : list string :=
  let 'Descriptor _ _ _ _ _ _ _ _ _ _ x _ _ _ _ := c in x.
Definition managers (c : descriptor)
  : list (string * manager_class * list (string * string)) :=
  let 'Descriptor _ _ _ _ _ _ _ _ _ _ _ x _ _ _ := c in x.
Definition idAttr (c : descriptor) : string :=
  let 'Descriptor _ _ _ _ _ _ _ _ _ _ _ _ x _ _ := c in x.
Definition _constructorTypes (c : descriptor) : list (string * string) :=
  let 'Descriptor _ _ _ _ _ _ _ _ _ _ _ _ _ x _ := c in x.
Definition cls_members (c : descriptor) : list string :=
  let 'Descriptor _ _ _ _ _ _ _ _ _ _ _ _ _ _ x := c in x.

Definition mgr_name (m : manager_class) : string :=
  let 'ManagerClass n _ := m in n.
Definition obj_cls (m : manager_class) : option descriptor :=
  let 'ManagerClass _ o := m in o.

(** [type(other) is type(self)]: classes of the module are told apart by
    their name. *)
Definition same_type (c1 c2 : descriptor) : bool :=
  String.eqb (cls_name c1) (cls_name c2).

(** ** The classes of the module *)

(** Attributes every Python object has. *)
Definition object_members : list string :=
  ["__class__"; "__dict__"; "__doc__"; "__module__"; "__weakref__";
   "__hash__"; "__repr__"; "__getattribute__"; "__setattr__"; "__delattr__";
   "__new__"; "__reduce__"; "__reduce_ex__"; "__sizeof__"; "__format__";
   "__dir__"; "__subclasshook__"; "__lt__"; "__le__"; "__gt__"; "__ge__"].

(** The names defined in the body of [GitlabObject], followed by the
    attributes every object has. *)
Definition GitlabObject_members : list string :=
  ["_url"; "_urlPlural"; "_id_in_delete_url"; "_id_in_update_url";
    "_constructorTypes"; "getListWhenNoId"; "canGet"; "canList";
    "canCreate"; "canUpdate"; "canDelete"; "requiredUrlAttrs";
    "requiredListAttrs"; "optionalListAttrs"; "optionalGetAttrs";
    "requiredGetAttrs"; "requiredDeleteAttrs"; "requiredCreateAttrs";
    "optionalCreateAttrs"; "requiredUpdateAttrs"; "optionalUpdateAttrs";
    "getRequiresId"; "managers"; "idAttr"; "shortPrintAttr";
    "_data_for_gitlab"; "list"; "get"; "_get_list_or_object"; "_get_object";
    "_set_from_dict"; "_create"; "_update"; "save"; "delete"; "create";
    "__init__"; "_set_managers"; "__str__"; "display"; "short_print";
    "_get_display_encoding"; "_obj_to_str"; "pretty_print"; "json";
    "as_dict"; "__eq__"; "__ne__"] ++ object_members.

Definition BaseManager : manager_class := ManagerClass "BaseManager" None.

Definition GitlabObject : descriptor :=
  Descriptor
    "GitlabObject" None CanGetTrue true true true true [] [] [] [] [] "id"
      [] GitlabObject_members.

Definition UserKey : descriptor :=
  Descriptor
    "UserKey" (Some "/users/%(user_id)s/keys") CanGetFromList true true
      false true ["title"; "key"] [] [] [] [] "id" [] GitlabObject_members.

Definition UserKeyManager : manager_class :=
  ManagerClass "UserKeyManager" (Some UserKey).

Definition User : descriptor :=
  Descriptor
    "User" (Some "/users") CanGetTrue true true true true ["email";
      "username"; "name"; "password"] ["skype"; "linkedin"; "twitter";
      "projects_limit"; "extern_uid"; "provider"; "bio"; "admin";
      "can_create_group"; "website_url"; "confirm"; "external"] ["email";
      "username"; "name"] ["password"; "skype"; "linkedin"; "twitter";
      "projects_limit"; "extern_uid"; "provider"; "bio"; "admin";
      "can_create_group"; "website_url"; "confirm"; "external"] [("keys",
      UserKeyManager, [("user_id", "id")])] "id" [] (["Key"; "block";
      "unblock"] ++ GitlabObject_members).

Definition UserManager : manager_class :=
  ManagerClass "UserManager" (Some User).

Definition CurrentUserKey : descriptor :=
  Descriptor
    "CurrentUserKey" (Some "/user/keys") CanGetTrue true true false true
      ["title"; "key"] [] [] [] [] "id" [] GitlabObject_members.

Definition CurrentUserKeyManager : manager_class :=
  ManagerClass "CurrentUserKeyManager" (Some CurrentUserKey).

Definition CurrentUser : descriptor :=
  Descriptor
    "CurrentUser" (Some "/user") CanGetTrue false false false false [] [] []
      [] [("keys", CurrentUserKeyManager, [("user_id", "id")])] "id" []
      (["Key"] ++ GitlabObject_members).

Definition ApplicationSettings : descriptor :=
  Descriptor
    "ApplicationSettings" (Some "/application/settings") CanGetTrue false
      false true false [] [] [] ["after_sign_out_path";
      "default_branch_protection"; "default_project_visibility";
      "default_projects_limit"; "default_snippet_visibility";
      "gravatar_enabled"; "home_page_url"; "restricted_signup_domains";
      "restricted_visibility_levels"; "session_expire_delay";
      "sign_in_text"; "signin_enabled"; "signup_enabled";
      "twitter_sharing_enabled"; "user_oauth_applications"] [] "id" []
      GitlabObject_members.

Definition ApplicationSettingsManager : manager_class :=
  ManagerClass "ApplicationSettingsManager" (Some ApplicationSettings).

Definition GroupMember : descriptor :=
  Descriptor
    "GroupMember" (Some "/groups/%(group_id)s/members") CanGetFromList true
      true true true ["access_level"; "user_id"] [] ["access_level"] [] []
      "id" [] GitlabObject_members.

Definition GroupMemberManager : manager_class :=
  ManagerClass "GroupMemberManager" (Some GroupMember).

Definition Group : descriptor :=
  Descriptor
    "Group" (Some "/groups") CanGetTrue true true false true ["name";
      "path"] ["description"; "visibility_level"] [] [] [("members",
      GroupMemberManager, [("group_id", "id")])] "id" [("projects",
      "Project")] (["GUEST_ACCESS"; "REPORTER_ACCESS"; "DEVELOPER_ACCESS";
      "MASTER_ACCESS"; "OWNER_ACCESS"; "VISIBILITY_PRIVATE";
      "VISIBILITY_INTERNAL"; "VISIBILITY_PUBLIC"; "Member";
      "transfer_project"] ++ GitlabObject_members).

Definition GroupManager : manager_class :=
  ManagerClass "GroupManager" (Some Group).

Definition Hook : descriptor :=
  Descriptor
    "Hook" (Some "/hooks") CanGetTrue true true false true ["url"] [] [] []
      [] "id" [] GitlabObject_members.

Definition HookManager : manager_class :=
  ManagerClass "HookManager" (Some Hook).

Definition Issue : descriptor :=
  Descriptor
    "Issue" (Some "/issues") CanGetFromList true false false false [] [] []
      [] [] "id" [("author", "User"); ("assignee", "User"); ("milestone",
      "ProjectMilestone")] GitlabObject_members.

Definition IssueManager : manager_class :=
  ManagerClass "IssueManager" (Some Issue).

Definition License : descriptor :=
  Descriptor
    "License" (Some "/licenses") CanGetTrue true false false false [] [] []
      [] [] "key" [] GitlabObject_members.

Definition LicenseManager : manager_class :=
  ManagerClass "LicenseManager" (Some License).

Definition ProjectBranch : descriptor :=
  Descriptor
    "ProjectBranch" (Some "/projects/%(project_id)s/repository/branches")
      CanGetTrue true true false true ["branch_name"; "ref"] [] [] [] []
      "name" [("author", "User"); ("committer", "User")] (["protect";
      "unprotect"] ++ GitlabObject_members).

Definition ProjectBranchManager : manager_class :=
  ManagerClass "ProjectBranchManager" (Some ProjectBranch).

Definition ProjectBuild : descriptor :=
  Descriptor
    "ProjectBuild" (Some "/projects/%(project_id)s/builds") CanGetTrue true
      false false false [] [] [] [] [] "id" [("user", "User"); ("commit",
      "ProjectCommit")] (["cancel"; "retry"] ++ GitlabObject_members).

Definition ProjectBuildManager : manager_class :=
  ManagerClass "ProjectBuildManager" (Some ProjectBuild).

Definition ProjectCommit : descriptor :=
  Descriptor
    "ProjectCommit" (Some "/projects/%(project_id)s/repository/commits")
      CanGetTrue true false false false [] [] [] [] [] "id" [] (["diff";
      "blob"; "builds"] ++ GitlabObject_members).

Definition ProjectCommitManager : manager_class :=
  ManagerClass "ProjectCommitManager" (Some ProjectCommit).

Definition ProjectCommitStatus : descriptor :=
  Descriptor
    "ProjectCommitStatus" (Some
      "/projects/%(project_id)s/statuses/%(commit_id)s") CanGetTrue true
      true false false ["state"] ["description"; "name"; "ref";
      "target_url"] [] [] [] "id" [] GitlabObject_members.

Definition ProjectCommitStatusManager : manager_class :=
  ManagerClass "ProjectCommitStatusManager" (Some ProjectCommitStatus).

Definition ProjectKey : descriptor :=
  Descriptor
    "ProjectKey" (Some "/projects/%(project_id)s/keys") CanGetTrue true true
      false true ["title"; "key"] [] [] [] [] "id" [] GitlabObject_members.

Definition ProjectKeyManager : manager_class :=
  ManagerClass "ProjectKeyManager" (Some ProjectKey).

Definition ProjectEvent : descriptor :=
  Descriptor
    "ProjectEvent" (Some "/projects/%(project_id)s/events") CanGetFromList
      true false false false [] [] [] [] [] "id" [] GitlabObject_members.

Definition ProjectEventManager : manager_class :=
  ManagerClass "ProjectEventManager" (Some ProjectEvent).

Definition ProjectFork : descriptor :=
  Descriptor
    "ProjectFork" (Some "/projects/fork/%(project_id)s") CanGetFalse false
      true false false [] [] [] [] [] "id" [] GitlabObject_members.

Definition ProjectForkManager : manager_class :=
  ManagerClass "ProjectForkManager" (Some ProjectFork).

Definition ProjectHook : descriptor :=
  Descriptor
    "ProjectHook" (Some "/projects/%(project_id)s/hooks") CanGetTrue true
      true true true ["url"] ["push_events"; "issues_events";
      "merge_requests_events"; "tag_push_events"; "build_events";
      "enable_ssl_verification"] [] [] [] "id" [] GitlabObject_members.

Definition ProjectHookManager : manager_class :=
  ManagerClass "ProjectHookManager" (Some ProjectHook).

Definition ProjectIssueNote : descriptor :=
  Descriptor
    "ProjectIssueNote" (Some
      "/projects/%(project_id)s/issues/%(issue_id)s/notes") CanGetTrue true
      true true false ["body"] [] [] [] [] "id" [("author", "User")]
      GitlabObject_members.

Definition ProjectIssueNoteManager : manager_class :=
  ManagerClass "ProjectIssueNoteManager" (Some ProjectIssueNote).

Definition ProjectIssue : descriptor :=
  Descriptor
    "ProjectIssue" (Some "/projects/%(project_id)s/issues/") CanGetTrue true
      true true true ["title"] ["description"; "assignee_id";
      "milestone_id"; "labels"; "state_event"] [] [] [("notes",
      ProjectIssueNoteManager, [("project_id", "project_id"); ("issue_id",
      "id")])] "id" [("author", "User"); ("assignee", "User"); ("milestone",
      "ProjectMilestone")] (["Note"; "subscribe"; "unsubscribe"] ++
      GitlabObject_members).

Definition ProjectIssueManager : manager_class :=
  ManagerClass "ProjectIssueManager" (Some ProjectIssue).

Definition ProjectMember : descriptor :=
  Descriptor
    "ProjectMember" (Some "/projects/%(project_id)s/members") CanGetTrue
      true true true true ["access_level"; "user_id"] [] [] [] [] "id" []
      GitlabObject_members.

Definition ProjectMemberManager : manager_class :=
  ManagerClass "ProjectMemberManager" (Some ProjectMember).

Definition ProjectNote : descriptor :=
  Descriptor
    "ProjectNote" (Some "/projects/%(project_id)s/notes") CanGetTrue true
      true false false ["body"] [] [] [] [] "id" [("author", "User")]
      GitlabObject_members.

Definition ProjectNoteManager : manager_class :=
  ManagerClass "ProjectNoteManager" (Some ProjectNote).

Definition ProjectTagRelease : descriptor :=
  Descriptor
    "ProjectTagRelease" (Some
      "/projects/%(project_id)s/repository/tags/%(tag_name)/release")
      CanGetTrue false true true false ["description"] [] [] [] [] "id" []
      GitlabObject_members.

Definition ProjectTagReleaseManager : manager_class :=
  ManagerClass "ProjectTagReleaseManager" (Some ProjectTagRelease).

Definition ProjectTag : descriptor :=
  Descriptor
    "ProjectTag" (Some "/projects/%(project_id)s/repository/tags")
      CanGetFromList true true false true ["tag_name"; "ref"] ["message"] []
      [] [] "name" [("release", "ProjectTagRelease"); ("commit",
      "ProjectCommit")] (["set_release_description"] ++
      GitlabObject_members).

Definition ProjectTagManager : manager_class :=
  ManagerClass "ProjectTagManager" (Some ProjectTag).

Definition ProjectMergeRequestNote : descriptor :=
  Descriptor
    "ProjectMergeRequestNote" (Some
      "/projects/%(project_id)s/merge_requests/%(merge_request_id)s/notes")
      CanGetTrue true true true false ["body"] [] [] [] [] "id" [("author",
      "User")] GitlabObject_members.

Definition ProjectMergeRequestNoteManager : manager_class :=
  ManagerClass "ProjectMergeRequestNoteManager" (Some ProjectMergeRequestNote).

Definition ProjectMergeRequest : descriptor :=
  Descriptor
    "ProjectMergeRequest" (Some "/projects/%(project_id)s/merge_request")
      CanGetTrue true true true true ["source_branch"; "target_branch";
      "title"] ["assignee_id"; "description"; "target_project_id"; "labels";
      "milestone_id"] [] [] [("notes", ProjectMergeRequestNoteManager,
      [("project_id", "project_id"); ("merge_request_id", "id")])] "id"
      [("author", "User"); ("assignee", "User")] (["Note";
      "cancel_merge_when_build_succeeds"; "closes_issues"; "merge"] ++
      GitlabObject_members).

Definition ProjectMergeRequestManager : manager_class :=
  ManagerClass "ProjectMergeRequestManager" (Some ProjectMergeRequest).

Definition ProjectMilestone : descriptor :=
  Descriptor
    "ProjectMilestone" (Some "/projects/%(project_id)s/milestones")
      CanGetTrue true true true false ["title"] ["description"; "due_date";
      "state_event"] [] ["title"; "description"; "due_date"; "state_event"]
      [] "id" [] (["issues"] ++ GitlabObject_members).

Definition ProjectMilestoneManager : manager_class :=
  ManagerClass "ProjectMilestoneManager" (Some ProjectMilestone).

Definition ProjectLabel : descriptor :=
  Descriptor
    "ProjectLabel" (Some "/projects/%(project_id)s/labels") CanGetFromList
      true true true true ["name"; "color"] ["new_name"] [] [] [] "name" []
      GitlabObject_members.

Definition ProjectLabelManager : manager_class :=
  ManagerClass "ProjectLabelManager" (Some ProjectLabel).

Definition ProjectFile : descriptor :=
  Descriptor
    "ProjectFile" (Some "/projects/%(project_id)s/repository/files")
      CanGetTrue false true true true ["file_path"; "branch_name";
      "content"; "commit_message"] ["encoding"] [] [] [] "id" [] (["decode"]
      ++ GitlabObject_members).

Definition ProjectFileManager : manager_class :=
  ManagerClass "ProjectFileManager" (Some ProjectFile).

Definition ProjectSnippetNote : descriptor :=
  Descriptor
    "ProjectSnippetNote" (Some
      "/projects/%(project_id)s/snippets/%(snippet_id)s/notes") CanGetTrue
      true true false false ["body"] [] [] [] [] "id" [("author", "User")]
      GitlabObject_members.

Definition ProjectSnippetNoteManager : manager_class :=
  ManagerClass "ProjectSnippetNoteManager" (Some ProjectSnippetNote).

Definition ProjectSnippet : descriptor :=
  Descriptor
    "ProjectSnippet" (Some "/projects/%(project_id)s/snippets") CanGetTrue
      true true true true ["title"; "file_name"; "code"] ["lifetime"] [] []
      [("notes", ProjectSnippetNoteManager, [("project_id", "project_id");
      ("snippet_id", "id")])] "id" [("author", "User")] (["Content"; "Note"]
      ++ GitlabObject_members).

Definition ProjectSnippetManager : manager_class :=
  ManagerClass "ProjectSnippetManager" (Some ProjectSnippet).

Definition ProjectTrigger : descriptor :=
  Descriptor
    "ProjectTrigger" (Some "/projects/%(project_id)s/triggers") CanGetTrue
      true true false true [] [] [] [] [] "token" [] GitlabObject_members.

Definition ProjectTriggerManager : manager_class :=
  ManagerClass "ProjectTriggerManager" (Some ProjectTrigger).

Definition ProjectVariable : descriptor :=
  Descriptor
    "ProjectVariable" (Some "/projects/%(project_id)s/variables") CanGetTrue
      true true true true ["key"; "value"] [] [] [] [] "key" []
      GitlabObject_members.

Definition ProjectVariableManager : manager_class :=
  ManagerClass "ProjectVariableManager" (Some ProjectVariable).

Definition Project : descriptor :=
  Descriptor
    "Project" (Some "/projects") CanGetTrue true true true true ["name"]
      ["default_branch"; "issues_enabled"; "wall_enabled";
      "merge_requests_enabled"; "wiki_enabled"; "snippets_enabled";
      "public"; "visibility_level"; "namespace_id"; "description"; "path";
      "import_url"; "builds_enabled"; "public_builds"] [] ["name";
      "default_branch"; "issues_enabled"; "wall_enabled";
      "merge_requests_enabled"; "wiki_enabled"; "snippets_enabled";
      "public"; "visibility_level"; "namespace_id"; "description"; "path";
      "import_url"; "builds_enabled"; "public_builds"] [("branches",
      ProjectBranchManager, [("project_id", "id")]); ("builds",
      ProjectBuildManager, [("project_id", "id")]); ("commits",
      ProjectCommitManager, [("project_id", "id")]); ("commitstatuses",
      ProjectCommitStatusManager, [("project_id", "id")]); ("events",
      ProjectEventManager, [("project_id", "id")]); ("files",
      ProjectFileManager, [("project_id", "id")]); ("forks",
      ProjectForkManager, [("project_id", "id")]); ("hooks",
      ProjectHookManager, [("project_id", "id")]); ("keys",
      ProjectKeyManager, [("project_id", "id")]); ("issues",
      ProjectIssueManager, [("project_id", "id")]); ("labels",
      ProjectLabelManager, [("project_id", "id")]); ("members",
      ProjectMemberManager, [("project_id", "id")]); ("mergerequests",
      ProjectMergeRequestManager, [("project_id", "id")]); ("milestones",
      ProjectMilestoneManager, [("project_id", "id")]); ("notes",
      ProjectNoteManager, [("project_id", "id")]); ("snippets",
      ProjectSnippetManager, [("project_id", "id")]); ("tags",
      ProjectTagManager, [("project_id", "id")]); ("triggers",
      ProjectTriggerManager, [("project_id", "id")]); ("variables",
      ProjectVariableManager, [("project_id", "id")])] "id" [("owner",
      "User"); ("namespace", "Group")] (["Branch"; "Commit"; "Event";
      "File"; "Hook"; "Key"; "Issue"; "Label"; "Member"; "MergeRequest";
      "Milestone"; "Note"; "Snippet"; "Tag"; "tree"; "repository_tree";
      "blob"; "repository_blob"; "repository_raw_blob";
      "repository_compare"; "repository_contributors"; "archive";
      "repository_archive"; "create_file"; "update_file"; "delete_file";
      "create_fork_relation"; "delete_fork_relation"; "star"; "unstar"] ++
      GitlabObject_members).

Definition TeamMember : descriptor :=
  Descriptor
    "TeamMember" (Some "/user_teams/%(team_id)s/members") CanGetTrue true
      true false true ["access_level"] [] [] [] [] "id" []
      GitlabObject_members.

Definition UserProject : descriptor :=
  Descriptor
    "UserProject" (Some "/projects/user/%(user_id)s") CanGetFalse false true
      false false ["name"] ["default_branch"; "issues_enabled";
      "wall_enabled"; "merge_requests_enabled"; "wiki_enabled";
      "snippets_enabled"; "public"; "visibility_level"; "description";
      "builds_enabled"; "public_builds"; "import_url"] [] [] [] "id"
      [("owner", "User"); ("namespace", "Group")] GitlabObject_members.

Definition ProjectManager : manager_class :=
  ManagerClass "ProjectManager" (Some Project).

Definition UserProjectManager : manager_class :=
  ManagerClass "UserProjectManager" (Some UserProject).

Definition TeamMemberManager : manager_class :=
  ManagerClass "TeamMemberManager" (Some TeamMember).

Definition TeamProject : descriptor :=
  Descriptor
    "TeamProject" (Some "/user_teams/%(team_id)s/projects") CanGetTrue true
      true false true ["greatest_access_level"] [] [] [] [] "id" [("owner",
      "User"); ("namespace", "Group")] GitlabObject_members.

Definition TeamProjectManager : manager_class :=
  ManagerClass "TeamProjectManager" (Some TeamProject).

Definition Team : descriptor :=
  Descriptor
    "Team" (Some "/user_teams") CanGetTrue true true false true ["name";
      "path"] [] [] [] [("members", TeamMemberManager, [("team_id", "id")]);
      ("projects", TeamProjectManager, [("team_id", "id")])] "id" []
      (["Member"; "Project"] ++ GitlabObject_members).

Definition TeamManager : manager_class :=
  ManagerClass "TeamManager" (Some Team).

(** [globals()] restricted to the resource classes of the module. *)
Definition module_classes : list (string * descriptor) :=
  [("GitlabObject", GitlabObject); ("UserKey", UserKey); ("User", User);
    ("CurrentUserKey", CurrentUserKey); ("CurrentUser", CurrentUser);
    ("ApplicationSettings", ApplicationSettings); ("GroupMember",
    GroupMember); ("Group", Group); ("Hook", Hook); ("Issue", Issue);
    ("License", License); ("ProjectBranch", ProjectBranch); ("ProjectBuild",
    ProjectBuild); ("ProjectCommit", ProjectCommit); ("ProjectCommitStatus",
    ProjectCommitStatus); ("ProjectKey", ProjectKey); ("ProjectEvent",
    ProjectEvent); ("ProjectFork", ProjectFork); ("ProjectHook",
    ProjectHook); ("ProjectIssueNote", ProjectIssueNote); ("ProjectIssue",
    ProjectIssue); ("ProjectMember", ProjectMember); ("ProjectNote",
    ProjectNote); ("ProjectTagRelease", ProjectTagRelease); ("ProjectTag",
    ProjectTag); ("ProjectMergeRequestNote", ProjectMergeRequestNote);
    ("ProjectMergeRequest", ProjectMergeRequest); ("ProjectMilestone",
    ProjectMilestone); ("ProjectLabel", ProjectLabel); ("ProjectFile",
    ProjectFile); ("ProjectSnippetNote", ProjectSnippetNote);
    ("ProjectSnippet", ProjectSnippet); ("ProjectTrigger", ProjectTrigger);
    ("ProjectVariable", ProjectVariable); ("Project", Project);
    ("TeamMember", TeamMember); ("UserProject", UserProject);
    ("TeamProject", TeamProject); ("Team", Team)].

(** ** Python values *)

(** The values an attribute can hold.  [VObj c d] is an instance of class
    [c] with [__dict__] equal to [d]; [VManager m gl args] is the manager
    that [_set_managers] builds for the instance holding it (its parent);
    [VGitlab] is the connection; [VOpaque] stands for any other object
    (bound methods, class-level constants). *)
Inductive value : Type :=
| VNone
| VBool (b : bool)
| VInt (n : Z)
| VStr (s : string)
| VList (l : list value)
| VDict (d : list (string * value))
| VObj (c : descriptor) (d : list (string * value))
| VManager (m : manager_class) (gl : value) (args : list (string * string))
| VGitlab
| VOpaque (tag : string).

Definition dict : Type := list (string * value).

Record instance : Type := Instance {
  inst_cls : descriptor;
  inst_dict : dict
}.

Definition VInst (o : instance) : value := VObj (inst_cls o) (inst_dict o).

(** *** Dictionaries *)

Section Dict.
Variable A : Type.

Fixpoint dict_get (k : string) (d : list (string * A)) : option A :=
  match d with
  | [] => None
  | (k', v) :: r => if String.eqb k k' then Some v else dict_get k r
  end.

Definition dict_mem (k : string) (d : list (string * A)) : bool :=
  match dict_get k d with Some _ => true | None => false end.

(** [d[k] = v]: an existing key keeps its position, a new one goes last. *)
Fixpoint dict_set (k : string) (v : A) (d : list (string * A))
  : list (string * A) :=
  match d with
  | [] => [(k, v)]
  | (k', v') :: r =>
      if String.eqb k k' then (k', v) :: r else (k', v') :: dict_set k v r
  end.

(** [d.pop(k, None)] as far as the dictionary is concerned. *)
Fixpoint dict_del (k : string) (d : list (string * A)) : list (string * A) :=
  match d with
  | [] => []
  | (k', v') :: r =>
      if String.eqb k k' then dict_del k r else (k', v') :: dict_del k r
  end.

(** [d.setdefault(k, v)]. *)
Definition dict_setdefault (k : string) (v : A) (d : list (string * A))
  : list (string * A) :=
  if dict_mem k d then d else dict_set k v d.

(** [d.update(e)]. *)
Definition dict_update (d e : list (string * A)) : list (string * A) :=
  fold_left (fun acc kv => dict_set (fst kv) (snd kv) acc) e d.

Definition keys (d : list (string * A)) : list string := map fst d.
End Dict.

(** *** Truth value, [str], attribute access *)

(** [bool(v)]; instances, managers and the connection define neither
    [__bool__] nor [__len__]. *)
Definition truthy (v : value) : bool :=
  match v with
  | VNone => false
  | VBool b => b
  | VInt n => negb (Z.eqb n 0)
  | VStr s => negb (String.eqb s EmptyString)
  | VList l => match l with [] => false | _ => true end
  | VDict d => match d with [] => false | _ => true end
  | _ => true
  end.

Definition str_of_Z (n : Z) : string := NilZero.string_of_int (Z.to_int n).

(** Attribute lookup on the class: the metadata of the descriptor by value,
    any other class-level member as an opaque object. *)
Definition class_getattr (c : descriptor) (name : string) : option value :=
  if String.eqb name "canGet" then
    Some (match canGet c with
          | CanGetFalse => VBool false
          | CanGetTrue => VBool true
          | CanGetFromList => VStr "from_list"
          end)
  else if String.eqb name "canList" then Some (VBool (canList c))
  else if String.eqb name "canCreate" then Some (VBool (canCreate c))
  else if String.eqb name "canUpdate" then Some (VBool (canUpdate c))
  else if String.eqb name "canDelete" then Some (VBool (canDelete c))
  else if String.eqb name "idAttr" then Some (VStr (idAttr c))
  else if String.eqb name "_url" then
    Some (match _url c with Some u => VStr u | None => VNone end)
  else if String.eqb name "requiredCreateAttrs" then
    Some (VList (map VStr (requiredCreateAttrs c)))
  else if String.eqb name "optionalCreateAttrs" then
    Some (VList (map VStr (optionalCreateAttrs c)))
  else if String.eqb name "requiredUpdateAttrs" then
    Some (VList (map VStr (requiredUpdateAttrs c)))
  else if String.eqb name "optionalUpdateAttrs" then
    Some (VList (map VStr (optionalUpdateAttrs c)))
  else if existsb (String.eqb name) (cls_members c) then Some (VOpaque name)
  else None.

(** [getattr(self, name)]: the instance [__dict__] first, then the class. *)
Definition getattr (self : instance) (name : string) : option value :=
  match dict_get name (inst_dict self) with
  | Some v => Some v
  | None => class_getattr (inst_cls self) name
  end.

Definition hasattr (self : instance) (name : string) : bool :=
  match getattr self name with Some _ => true | None => false end.

(** [setattr(self, name, v)] and [self.__dict__[name] = v]. *)
Definition setattr (self : instance) (name : string) (v : value) : instance :=
  Instance (inst_cls self) (dict_set name v (inst_dict self)).

(** [del self.name], on an instance that has the attribute in its
    [__dict__]. *)
Definition delattr (self : instance) (name : string) : instance :=
  Instance (inst_cls self) (dict_del name (inst_dict self)).

(** A boolean class attribute read through [self]: an instance attribute
    of that name takes precedence and is tested for truth. *)
Definition flag (self : instance) (name : string) (class_value : bool) : bool :=
  match dict_get name (inst_dict self) with
  | Some v => truthy v
  | None => class_value
  end.

(** ** Exceptions and results *)

Inductive gitlab_error : Type :=
| GitlabGetError | GitlabListError | GitlabCreateError | GitlabUpdateError
| GitlabDeleteError | GitlabProtectError | GitlabAuthenticationError
| GitlabConnectionError | GitlabOperationError.

Inductive exn : Type :=
| NotImplementedError
| AttributeError
| TypeError
| KeyError
| IndexError
| ValueError
| GitlabError (kind : gitlab_error) (msg : string)
| ResponseError (error : gitlab_error) (status : Z) (body : option value)
    (content : string).

(** Where the embedding stops following the program: the recursion bound
    of the constructor is exhausted, or the program leaves the fragment
    that is modelled (an instance attribute shadows class metadata, a
    format string uses conversions other than [%(name)s], ...). *)
Inductive limit : Type := OutOfFuel | Unmodelled.

Inductive outcome (A : Type) : Type :=
| Ok (a : A)
| Raise (e : exn)
| Stop (why : limit).
Arguments Ok {A} a.
Arguments Raise {A} e.
Arguments Stop {A} why.

Definition bind {A B} (m : outcome A) (f : A -> outcome B) : outcome B :=
  match m with
  | Ok a => f a
  | Raise e => Raise e
  | Stop l => Stop l
  end.

Declare Scope outcome_scope.
Delimit Scope outcome_scope with outcome.
Notation "x <- m ;; k" := (bind m (fun x => k))
  (at level 61, m at next level, right associativity) : outcome_scope.
Local Open Scope outcome_scope.

(** ** Serialisation of the request body: [GitlabObject._data_for_gitlab] *)

(** The JSON document [json.dumps] writes, as a tree. *)
Inductive json : Type :=
| JNull
| JBool (b : bool)
| JNumber (n : Z)
| JString (s : string)
| JArray (l : list json)
| JObject (m : list (string * json)).

(** [json.dumps(v)] with the default encoder: data values are written,
    any other object raises [TypeError]. *)
Fixpoint dumps (v : value) : outcome json :=
  match v with
  | VNone => Ok JNull
  | VBool b => Ok (JBool b)
  | VInt n => Ok (JNumber n)
  | VStr s => Ok (JString s)
  | VList l =>
      js <- (fix items (l : list value) : outcome (list json) :=
               match l with
               | [] => Ok []
               | x :: r => j <- dumps x ;; js <- items r ;; Ok (j :: js)
               end) l ;;
      Ok (JArray js)
  | VDict d =>
      m <- (fix members (d : list (string * value))
              : outcome (list (string * json)) :=
              match d with
              | [] => Ok []
              | (k, x) :: r => j <- dumps x ;; m <- members r ;; Ok ((k, j) :: m)
              end) d ;;
      Ok (JObject m)
  | _ => Raise TypeError
  end.

(** The members loop of [dumps], named for the proofs. *)
Fixpoint dumps_members (d : dict) : outcome (list (string * json)) :=
  match d with
  | [] => Ok []
  | (k, x) :: r => j <- dumps x ;; m <- dumps_members r ;; Ok ((k, j) :: m)
  end.

(** [sep.join(l)]: every item has to be a string. *)
Fixpoint str_items (l : list value) : outcome (list string) :=
  match l with
  | [] => Ok []
  | VStr s :: r => ss <- str_items r ;; Ok (s :: ss)
  | _ :: _ => Raise TypeError
  end.

Definition join (sep : string) (l : list value) : outcome string :=
  ss <- str_items l ;; Ok (String.concat sep ss).

Definition generic_parameters : list string := ["sudo"; "page"; "per_page"].

Definition nonempty {A} (l : list A) : bool :=
  match l with [] => false | _ => true end.

(** The attribute names considered by [_data_for_gitlab]. *)
Definition data_attributes (c : descriptor) (update : bool) : list string :=
  (if update && (nonempty (requiredUpdateAttrs c) || nonempty (optionalUpdateAttrs c))
   then requiredUpdateAttrs c ++ optionalUpdateAttrs c
   else requiredCreateAttrs c ++ optionalCreateAttrs c)
  ++ generic_parameters.

(** The value stored for an attribute: a list is joined with commas. *)
Definition flatten (v : value) : outcome value :=
  match v with
  | VList l => s <- join "," l ;; Ok (VStr s)
  | _ => Ok v
  end.

(** The loop [for attribute in attributes] over the dictionary [data]. *)
Fixpoint data_loop (self : instance) (attributes : list string) (data : dict)
  : outcome dict :=
  match attributes with
  | [] => Ok data
  | attribute :: rest =>
      match getattr self attribute with
      | Some v =>
          v' <- flatten v ;;
          data_loop self rest (dict_set attribute v' data)
      | None => data_loop self rest data
      end
  end.

(** The attribute lists are read through [self]; an instance attribute
    bearing the name of one of them would be read instead. *)
Definition shadows_attribute_lists (self : instance) (update : bool) : bool :=
  dict_mem "requiredCreateAttrs" (inst_dict self)
  || dict_mem "optionalCreateAttrs" (inst_dict self)
  || (update && (dict_mem "requiredUpdateAttrs" (inst_dict self)
                 || dict_mem "optionalUpdateAttrs" (inst_dict self))).

Definition _data_for_gitlab (self : instance) (extra_parameters : dict)
    (update : bool) : outcome json :=
  if shadows_attribute_lists self update then Stop Unmodelled else
  data <- data_loop self (data_attributes (inst_cls self) update) [] ;;
  dumps (VDict (dict_update data extra_parameters)).

(** ** Equality: [as_dict], [GitlabObject.__eq__], [User.__eq__], [__ne__] *)

(** [k[0] == '_']; indexing the empty string raises [IndexError]. *)
Definition starts_with_underscore (k : string) : outcome bool :=
  match k with
  | EmptyString => Raise IndexError
  | String c _ => Ok (Ascii.eqb c "_")
  end.

Definition is_manager (v : value) : bool :=
  match v with VManager _ _ _ => true | _ => false end.

(** The filter of the comprehension in [as_dict]:
    [not isinstance(v, BaseManager) and not k[0] == '_']. *)
Definition as_dict_keeps (k : string) (v : value) : outcome bool :=
  if is_manager v then Ok false
  else b <- starts_with_underscore k ;; Ok (negb b).

Fixpoint as_dict_items (d : dict) : outcome dict :=
  match d with
  | [] => Ok []
  | (k, v) :: r =>
      b <- as_dict_keeps k v ;;
      r' <- as_dict_items r ;;
      Ok (if b then (k, v) :: r' else r')
  end.

Definition as_dict (self : instance) : outcome dict :=
  as_dict_items (inst_dict self).

(** [self.name()] for a method [name] of the class, on the instance with
    [__dict__] equal to [d]: an attribute of the instance of that name is
    found before the method, and calling a value that is no function
    raises [TypeError]. *)
Definition through_instance {A} (d : dict) (name : string) (method : outcome A)
  : outcome A :=
  match dict_get name d with
  | None => method
  | Some (VGitlab | VOpaque _) => Stop Unmodelled
  | Some _ => Raise TypeError
  end.

(** The class [User] is the one that overrides [__eq__]. *)
Definition is_User (c : descriptor) : bool := String.eqb (cls_name c) "User".

(** Comparison of two dictionaries of equal size, as the interpreter does
    it: every item of the first one is looked up in the second one and the
    two values are compared; the first difference (or exception) decides.
    Items of [da] for which [keep] is false are passed over. *)
Fixpoint dict_items_eq (eqv : value -> value -> outcome bool)
    (keep : string -> value -> bool) (da db : dict) : outcome bool :=
  match da with
  | [] => Ok true
  | (k, v) :: r =>
      if keep k v then
        match dict_get k db with
        | None => Ok false
        | Some w =>
            b <- eqv v w ;;
            if b then dict_items_eq eqv keep r db else Ok false
        end
      else dict_items_eq eqv keep r db
  end.

(** Comparison of two lists of equal length. *)
Fixpoint list_items_eq (eqv : value -> value -> outcome bool)
    (la lb : list value) : outcome bool :=
  match la, lb with
  | [], [] => Ok true
  | x :: xs, y :: ys =>
      b <- eqv x y ;;
      if b then list_items_eq eqv xs ys else Ok false
  | _, _ => Ok false
  end.

Definition keep_all (k : string) (v : value) : bool := true.

(** What [__eq__] of class [c] compares of a [__dict__] entry: the entries
    [as_dict] keeps, less ['password'] for [User]. *)
Definition eq_keeps (c : descriptor) (k : string) (v : value) : bool :=
  match as_dict_keeps k v with
  | Ok true => if is_User c then negb (String.eqb "password" k) else true
  | _ => false
  end.

Definition eq_drop (c : descriptor) (d : dict) : dict :=
  if is_User c then dict_del "password" d else d.

(** [a == b].  Numbers and booleans compare by value, strings, lists and
    dictionaries by content, instances through the [__eq__] of their
    class, which calls [as_dict] through each instance; the
    remaining objects are compared by identity: there is one connection,
    an opaque object is named by its tag, and two managers met while
    comparing the contents of two instances are distinct objects.  (The
    interpreter also takes two references to one object for equal without
    calling [__eq__]; values kept by content have no such identity.) *)
Fixpoint py_eq (a b : value) {struct a} : outcome bool :=
  match a, b with
  | VNone, VNone => Ok true
  | VBool x, VBool y => Ok (Bool.eqb x y)
  | VBool x, VInt n => Ok (Z.eqb (Z.b2z x) n)
  | VInt n, VBool x => Ok (Z.eqb n (Z.b2z x))
  | VInt n, VInt m => Ok (Z.eqb n m)
  | VStr s, VStr t => Ok (String.eqb s t)
  | VList la, VList lb =>
      if Nat.eqb (List.length la) (List.length lb)
      then list_items_eq py_eq la lb else Ok false
  | VDict da, VDict db =>
      if Nat.eqb (List.length da) (List.length db)
      then dict_items_eq py_eq keep_all da db else Ok false
  | VObj ca da, VObj cb db =>
      if same_type cb ca then
        fa <- through_instance da "as_dict" (as_dict_items da) ;;
        fb <- through_instance db "as_dict" (as_dict_items db) ;;
        if Nat.eqb (List.length (eq_drop ca fa)) (List.length (eq_drop ca fb))
        then dict_items_eq py_eq (eq_keeps ca) da (eq_drop ca fb)
        else Ok false
      else Ok false
  | VGitlab, VGitlab => Ok true
  | VOpaque s, VOpaque t => Ok (String.eqb s t)
  | _, _ => Ok false
  end.

(** [da == db] on dictionaries. *)
Definition dict_eq (da db : dict) : outcome bool :=
  if Nat.eqb (List.length da) (List.length db)
  then dict_items_eq py_eq keep_all da db else Ok false.

Definition GitlabObject___eq__ (self : instance) (other : value) : outcome bool :=
  match other with
  | VObj c d =>
      if same_type c (inst_cls self) then
        a <- through_instance (inst_dict self) "as_dict" (as_dict self) ;;
        b <- through_instance d "as_dict" (as_dict (Instance c d)) ;;
        dict_eq a b
      else Ok false
  | _ => Ok false
  end.

Definition User___eq__ (self : instance) (other : value) : outcome bool :=
  match other with
  | VObj c d =>
      if same_type c (inst_cls self) then
        selfdict <- through_instance (inst_dict self) "as_dict" (as_dict self) ;;
        otherdict <- through_instance d "as_dict" (as_dict (Instance c d)) ;;
        let selfdict := dict_del "password" selfdict in
        let otherdict := dict_del "password" otherdict in
        dict_eq selfdict otherdict
      else Ok false
  | _ => Ok false
  end.

(** The [__eq__] of the class of [self]. *)
Definition __eq__ (self : instance) (other : value) : outcome bool :=
  if is_User (inst_cls self) then User___eq__ self other
  else GitlabObject___eq__ self other.

(** [not self.__eq__(other)]. *)
Definition __ne__ (self : instance) (other : value) : outcome bool :=
  b <- through_instance (inst_dict self) "__eq__" (__eq__ self other) ;;
  Ok (negb b).

(** *** The attribute mapping that equality is stated on

    The mapping of an instance restricted to its non-manager attributes
    whose name does not start with an underscore, and, for the user
    resource, less the password. *)

Definition underscore (k : string) : bool :=
  match k with
  | String c _ => Ascii.eqb c "_"
  | EmptyString => false
  end.

Definition is_public (k : string) (v : value) : bool :=
  negb (is_manager v) && negb (underscore k).

Definition public_attribute (self : instance) (k : string) : option value :=
  match dict_get k (inst_dict self) with
  | Some v => if is_public k v then Some v else None
  | None => None
  end.

Definition compared_attribute (self : instance) (k : string) : option value :=
  if is_User (inst_cls self) && String.eqb "password" k then None
  else public_attribute self k.

(** What is compared of an instance of class [c]: its entries that are
    not managers and whose name does not start with an underscore, less
    [password] for the user resource. *)
Definition compares (c : descriptor) (k : string) (v : value) : bool :=
  is_public k v && negb (is_User c && String.eqb "password" k).

Definition compared_items (c : descriptor) (d : dict) : dict :=
  filter (fun kv => compares c (fst kv) (snd kv)) d.

(** [as_dict()] can be called on the instance with [__dict__] equal to
    [d] and returns: no attribute of the instance is itself called
    [as_dict], and the empty name, where the instance has it, is the name
    of a manager. *)
Definition answers_as_dict (d : dict) : Prop :=
  dict_get "as_dict" d = None /\
  forall v, In (EmptyString, v) d -> is_manager v = true.

(** Equality of two values.  [None] equals itself; numbers are equal when
    they are the same number, [True] and [False] counting as 1 and 0;
    strings when they are the same text; lists when they have the same
    length and equal items at each position; dictionaries when they have
    as many entries and each entry of the one is found in the other with
    an equal value; instances when they are of the same type, answer
    [as_dict()], and have as many compared attributes, each of the one
    found in the other with an equal value.  The connection equals
    itself, an opaque object the object of the same tag; a manager equals
    nothing. *)
Inductive equal_values : value -> value -> Prop :=
| equal_none : equal_values VNone VNone
| equal_bools (b : bool) : equal_values (VBool b) (VBool b)
| equal_ints (n : Z) : equal_values (VInt n) (VInt n)
| equal_bool_int (b : bool) : equal_values (VBool b) (VInt (Z.b2z b))
| equal_int_bool (b : bool) : equal_values (VInt (Z.b2z b)) (VBool b)
| equal_strings (s : string) : equal_values (VStr s) (VStr s)
| equal_lists (la lb : list value) :
    Forall2 equal_values la lb -> equal_values (VList la) (VList lb)
| equal_dicts (da db : dict) :
    List.length da = List.length db ->
    (forall k v, In (k, v) da ->
       exists w, dict_get k db = Some w /\ equal_values v w) ->
    equal_values (VDict da) (VDict db)
| equal_instances (ca cb : descriptor) (da db : dict) :
    same_type cb ca = true ->
    answers_as_dict da -> answers_as_dict db ->
    List.length (compared_items ca da) = List.length (compared_items ca db) ->
    (forall k v, In (k, v) (compared_items ca da) ->
       exists w, dict_get k (compared_items ca db) = Some w /\
                 equal_values v w) ->
    equal_values (VObj ca da) (VObj cb db)
| equal_connection : equal_values VGitlab VGitlab
| equal_opaque (tag : string) : equal_values (VOpaque tag) (VOpaque tag).

(** Both absent, or both present and equal. *)
Definition equal_attributes (x y : option value) : Prop :=
  match x, y with
  | None, None => True
  | Some v, Some w => equal_values v w
  | _, _ => False
  end.

(** ** The transport and the state of the world *)

Inductive verb : Type := GET | POST | PUT | DELETE.

(** The response object of the raw verbs: [status_code], [json()] (which
    raises [ValueError] when the body is not JSON) and [content]. *)
Record response : Type := Response {
  status_code : Z;
  json_body : option value;
  content : string
}.

Inductive delete_target : Type :=
| DeleteClass (c : descriptor)
| DeleteObject (o : instance).

(** The calls made on the connection, with their arguments as passed;
    an optional argument that is left out reads [None]. *)
Inductive request : Type :=
| Req_get (c : descriptor) (id : value) (kwargs : dict)
| Req_list (c : descriptor) (kwargs : dict)
| Req_create (obj : instance) (kwargs : dict)
| Req_update (obj : instance) (kwargs : dict)
| Req_delete (target : delete_target) (id : option value) (kwargs : dict)
| Req_raw (v : verb) (url : string) (data content_type : option value)
    (kwargs : dict).

(** The connection answers a call knowing the calls made before it:
    [get], [create], [update] and [delete] return data, [list] returns
    objects, the raw verbs return a response; each may raise. *)
Record connection : Type := Connection {
  reply_data : list request -> request -> outcome value;
  reply_list : list request -> request -> outcome (list instance);
  reply_raw : list request -> request -> outcome response
}.

Record world : Type := World {
  heap : list instance;
  trace : list request
}.

(** Computations that read and change the world and may raise. *)
Definition M (A : Type) : Type := world -> outcome A * world.

Definition ret {A} (a : A) : M A := fun w => (Ok a, w).
Definition raise {A} (e : exn) : M A := fun w => (Raise e, w).
Definition stop {A} (l : limit) : M A := fun w => (Stop l, w).
Definition lift {A} (o : outcome A) : M A := fun w => (o, w).

Definition bindM {A B} (m : M A) (f : A -> M B) : M B :=
  fun w =>
    match m w with
    | (Ok a, w') => f a w'
    | (Raise e, w') => (Raise e, w')
    | (Stop l, w') => (Stop l, w')
    end.

Notation "x <~ m ;; k" := (bindM m (fun x => k))
  (at level 61, m at next level, right associativity) : outcome_scope.

(** A call on the connection: answered from the history, then recorded. *)
Definition send {A} (answer : list request -> request -> outcome A)
    (req : request) : M A :=
  fun w => (answer (trace w) req, World (heap w) (trace w ++ [req])).

(** A transport method looked up on the object held as [gl]: the
    connection has it; [None], numbers, strings and lists have no method
    of these names; other objects, a dictionary with its own [get] and
    [update] among them, are not followed. *)
Definition on_connection {A} (gl : value) (m : M A) : M A :=
  match gl with
  | VGitlab => m
  | VNone | VBool _ | VInt _ | VStr _ | VList _ => raise AttributeError
  | _ => stop Unmodelled
  end.

Definition deref (a : nat) : M instance :=
  fun w => match nth_error (heap w) a with
           | Some o => (Ok o, w)
           | None => (Stop Unmodelled, w)
           end.

Fixpoint list_set {A} (l : list A) (n : nat) (x : A) : list A :=
  match l, n with
  | [], _ => []
  | _ :: r, O => x :: r
  | y :: r, S n => y :: list_set r n x
  end.

Definition store (a : nat) (o : instance) : M unit :=
  fun w => (Ok tt, World (list_set (heap w) a o) (trace w)).

Definition alloc (o : instance) : M nat :=
  fun w => (Ok (List.length (heap w)), World (heap w ++ [o]) (trace w)).

(** [self.name], raising [AttributeError] when there is none. *)
Definition attr (self : instance) (name : string) : M value :=
  match getattr self name with
  | Some v => ret v
  | None => raise AttributeError
  end.

(** [r.json()]. *)
Definition response_json (r : response) : outcome value :=
  match json_body r with
  | Some v => Ok v
  | None => Raise ValueError
  end.

(** Modelled from the spec: [raise_error_from_response] is defined in
    [gitlab.exceptions], which is not among the sources at hand.  Following
    section 4.4 and the call sites, nothing happens when the status code
    of the response is one of the expected ones (200 when none is given),
    and an error condition is raised otherwise.  Which condition that is
    (the one supplied by the caller, or the one the helper assigns to the
    status) and which message it carries is decided in the helper: the
    condition is kept as [ResponseError], with what the helper was
    given. *)
Definition raise_error_from_response (r : response) (error : gitlab_error)
    (expected_code : list Z) : outcome unit :=
  if existsb (Z.eqb (status_code r)) expected_code then Ok tt
  else Raise (ResponseError error (status_code r) (json_body r) (content r)).

Section Objects.

(** The connection of the session, and [str] on the values for which it
    is not spelled out below (lists, dictionaries, objects). *)
Variable net : connection.
Variable py_repr : value -> string.

(** [str(v)], also ['%s' % v]. *)
Definition py_str (v : value) : string :=
  match v with
  | VNone => "None"
  | VBool true => "True"
  | VBool false => "False"
  | VInt n => str_of_Z n
  | VStr s => s
  | _ => py_repr v
  end.

(** *** [template % mapping], for templates made of text and [%(name)s] *)

Inductive format_state : Type :=
| InText
| AfterPercent
| InName (name : string)
| AfterName (v : value).

Fixpoint format_from (st : format_state) (template : string) (mapping : dict)
  : outcome string :=
  match template with
  | EmptyString =>
      match st with InText => Ok EmptyString | _ => Raise ValueError end
  | String ch rest =>
      match st with
      | InText =>
          if Ascii.eqb ch "%" then format_from AfterPercent rest mapping
          else s <- format_from InText rest mapping ;; Ok (String ch s)
      | AfterPercent =>
          if Ascii.eqb ch "(" then format_from (InName EmptyString) rest mapping
          else Stop Unmodelled
      | InName name =>
          if Ascii.eqb ch ")" then
            match dict_get name mapping with
            | Some v => format_from (AfterName v) rest mapping
            | None => Raise KeyError
            end
          else if Ascii.eqb ch "(" then Stop Unmodelled
          else format_from (InName (String.append name (String ch EmptyString))) rest mapping
      | AfterName v =>
          if Ascii.eqb ch "s" then
            s <- format_from InText rest mapping ;; Ok (String.append (py_str v) s)
          else Stop Unmodelled
      end
  end.

Definition format_mapping (template : string) (mapping : dict) : outcome string :=
  format_from InText template mapping.

(** *** [GitlabObject.list] *)

(** [not cls._url] is false for a non-empty string only. *)
Definition url_defined (c : descriptor) : bool :=
  match _url c with
  | Some u => negb (String.eqb u EmptyString)
  | None => false
  end.

Definition GitlabObject_list (c : descriptor) (gl : value) (kwargs : dict)
  : M (list instance) :=
  if negb (canList c) then raise NotImplementedError
  else if negb (url_defined c) then raise NotImplementedError
  else on_connection gl (send (reply_list net) (Req_list c kwargs)).

(** *** The constructor: [_get_object], [_set_from_dict], [_set_managers],
    [__init__] *)

Section Constructor.

(** The constructor call [cls(gl, data)] made for a nested object. *)
Variable construct : descriptor -> value -> value -> dict -> M instance.

(** [self] is the [__dict__] of the instance under construction. *)
Definition _get_object (c : descriptor) (self : dict) (k : string) (v : value)
  : M value :=
  if dict_mem "_constructorTypes" self then stop Unmodelled else
  match dict_get k (_constructorTypes c) with
  | Some name =>
      match dict_get name module_classes with
      | Some c' =>
          gl <~ attr (Instance c self) "gitlab" ;;
          o <~ construct c' gl v [] ;;
          ret (VInst o)
      | None => raise KeyError
      end
  | None => ret v
  end.

(** [for i in v: self.__dict__[k].append(self._get_object(k, i))], the
    list under [k] holding [done] so far. *)
Fixpoint append_objects (c : descriptor) (self : dict) (k : string)
    (done : list value) (v : list value) : M dict :=
  match v with
  | [] => ret self
  | i :: rest =>
      o <~ _get_object c self k i ;;
      let done := done ++ [o] in
      append_objects c (dict_set k (VList done) self) k done rest
  end.

(** [for k, v in data.items()]. *)
Fixpoint set_items (c : descriptor) (self : dict) (items : dict) : M dict :=
  match items with
  | [] => ret self
  | (k, v) :: rest =>
      self <~ match v with
              | VList l => append_objects c (dict_set k (VList []) self) k [] l
              | VNone => ret (dict_set k VNone self)
              | _ => o <~ _get_object c self k v ;; ret (dict_set k o self)
              end ;;
      set_items c self rest
  end.

(** [data.items()] exists on a dictionary; a list has none, other objects
    are not followed. *)
Definition _set_from_dict (c : descriptor) (self : dict) (data : value) : M dict :=
  match data with
  | VDict items => set_items c self items
  | VList _ => raise AttributeError
  | _ => stop Unmodelled
  end.

(** [manager = cls(self.gitlab, self, attrs)], which raises
    [AttributeError] for a manager class without [obj_cls], then
    [setattr(self, var, manager)]. *)
Fixpoint set_managers_loop (c : descriptor) (self : dict)
    (l : list (string * manager_class * list (string * string))) : M dict :=
  match l with
  | [] => ret self
  | (var, cls, attrs) :: rest =>
      gl <~ attr (Instance c self) "gitlab" ;;
      match obj_cls cls with
      | None => raise AttributeError
      | Some _ =>
          set_managers_loop c (dict_set var (VManager cls gl attrs) self) rest
      end
  end.

Definition _set_managers (c : descriptor) (self : dict) : M dict :=
  if dict_mem "managers" self then stop Unmodelled
  else set_managers_loop c self (managers c).

(** [data is None or isinstance(data, six.integer_types) or
    isinstance(data, six.string_types)]; [bool] is an integer type. *)
Definition is_id (data : value) : bool :=
  match data with
  | VNone | VBool _ | VInt _ | VStr _ => true
  | _ => false
  end.

Definition init_body (c : descriptor) (gl : value) (data : value) (kwargs : dict)
  : M instance :=
  let self := [("_from_api", VBool false); ("gitlab", gl)] in
  fetched <~ (if is_id data then
                match canGet c with
                | CanGetFalse => raise NotImplementedError
                | _ =>
                    data <~ on_connection gl
                              (send (reply_data net) (Req_get c data kwargs)) ;;
                    ret (data, dict_set "_from_api" (VBool true) self)
                end
              else ret (data, self)) ;;
  let '(data, self) := fetched in
  self <~ _set_from_dict c self data ;;
  let self := dict_update self kwargs in
  let self := if hasattr (Instance c self) "id" then self
              else dict_set "id" VNone self in
  self <~ _set_managers c self ;;
  ret (Instance c self).

End Constructor.

(** [cls(gl, data, **kwargs)]; [fuel] bounds the depth of nested
    constructor calls. *)
Fixpoint __init__ (fuel : nat) (c : descriptor) (gl : value) (data : value)
    (kwargs : dict) : M instance :=
  match fuel with
  | O => stop OutOfFuel
  | S fuel => init_body (__init__ fuel) c gl data kwargs
  end.

(** *** [_create], [_update], [save] and the class method [create]

    These run on an object that [create] has just built and that nothing
    else refers to yet: the object is passed and returned by content. *)

Definition _create (fuel : nat) (self : instance) (kwargs : dict) : M instance :=
  if negb (flag self "canCreate" (canCreate (inst_cls self)))
  then raise NotImplementedError else
  gl <~ attr self "gitlab" ;;
  json <~ on_connection gl (send (reply_data net) (Req_create self kwargs)) ;;
  d <~ _set_from_dict (__init__ fuel) (inst_cls self) (inst_dict self) json ;;
  ret (Instance (inst_cls self) (dict_set "_from_api" (VBool true) d)).

Definition _update (fuel : nat) (self : instance) (kwargs : dict) : M instance :=
  if negb (flag self "canUpdate" (canUpdate (inst_cls self)))
  then raise NotImplementedError else
  gl <~ attr self "gitlab" ;;
  json <~ on_connection gl (send (reply_data net) (Req_update self kwargs)) ;;
  d <~ _set_from_dict (__init__ fuel) (inst_cls self) (inst_dict self) json ;;
  ret (Instance (inst_cls self) d).

Definition save (fuel : nat) (self : instance) (kwargs : dict) : M instance :=
  from_api <~ attr self "_from_api" ;;
  if truthy from_api then _update fuel self kwargs
  else _create fuel self kwargs.

Definition GitlabObject_create (fuel : nat) (c : descriptor) (gl : value)
    (data : value) (kwargs : dict) : M instance :=
  if negb (canCreate c) then raise NotImplementedError else
  obj <~ __init__ fuel c gl data kwargs ;;
  save fuel obj [].

(** *** The class method [get] *)

(** [obj.idAttr], read through the instance. *)
Definition id_attr_of (obj : instance) : outcome string :=
  match dict_get "idAttr" (inst_dict obj) with
  | Some (VStr name) => Ok name
  | Some _ => Raise TypeError
  | None => Ok (idAttr (inst_cls obj))
  end.

(** [str(obj_id) == str(id)] for [obj_id = getattr(obj, obj.idAttr)]. *)
Definition id_matches (id : value) (obj : instance) : outcome bool :=
  name <- id_attr_of obj ;;
  match getattr obj name with
  | Some obj_id => Ok (String.eqb (py_str obj_id) (py_str id))
  | None => Raise AttributeError
  end.

(** The loop of the ['from_list'] branch and the [raise] that follows it. *)
Fixpoint scan (id : value) (objs : list instance) : outcome instance :=
  match objs with
  | [] => Raise (GitlabError GitlabGetError "Object not found")
  | obj :: rest =>
      found <- id_matches id obj ;;
      if found then Ok obj else scan id rest
  end.

Definition GitlabObject_get (fuel : nat) (c : descriptor) (gl : value)
    (id : value) (kwargs : dict) : M instance :=
  match canGet c with
  | CanGetFalse => raise NotImplementedError
  | CanGetTrue => __init__ fuel c gl id kwargs
  | CanGetFromList =>
      objs <~ GitlabObject_list c gl kwargs ;;
      lift (scan id objs)
  end.

(** *** The instance method [delete], on the object at address [self] *)

Definition GitlabObject_delete (self : nat) (kwargs : dict) : M value :=
  o <~ deref self ;;
  if negb (flag o "canDelete" (canDelete (inst_cls o)))
  then raise NotImplementedError else
  from_api <~ attr o "_from_api" ;;
  if negb (truthy from_api)
  then raise (GitlabError GitlabDeleteError "Object not yet created") else
  gl <~ attr o "gitlab" ;;
  on_connection gl (send (reply_data net) (Req_delete (DeleteObject o) None kwargs)).

(** *** [BaseManager] *)

(** A manager object: its class, the connection, the address of the
    parent object if any, and the links [(attr, parent_attr)]. *)
Record manager : Type := Manager {
  mgr_class : manager_class;
  mgr_gitlab : value;
  mgr_parent : option nat;
  mgr_args : list (string * string)
}.

Definition BaseManager___init__ (cls : manager_class) (gl : value)
    (parent : option nat) (args : list (string * string)) : outcome manager :=
  match obj_cls cls with
  | None => Raise AttributeError
  | Some _ => Ok (Manager cls gl parent args)
  end.

(** The manager found under [var] on the object at address [a]: the one
    [_set_managers] bound to that object. *)
Definition manager_of (a : nat) (var : string) : M manager :=
  o <~ deref a ;;
  v <~ attr o var ;;
  match v with
  | VManager cls gl args => ret (Manager cls gl (Some a) args)
  | _ => stop Unmodelled
  end.

(** [for attr, parent_attr in self.args:
       args.setdefault(attr, getattr(self.parent, parent_attr))]. *)
Fixpoint parent_args_loop (parent : instance) (links : list (string * string))
    (args : dict) : outcome dict :=
  match links with
  | [] => Ok args
  | (attr, parent_attr) :: rest =>
      match getattr parent parent_attr with
      | Some v => parent_args_loop parent rest (dict_setdefault attr v args)
      | None => Raise AttributeError
      end
  end.

Definition _set_parent_args (self : manager) (kwargs : dict) : M dict :=
  match mgr_parent self with
  | None => ret kwargs
  | Some p =>
      parent <~ deref p ;;
      lift (parent_args_loop parent (mgr_args self) kwargs)
  end.

(** [self.obj_cls], on which the attributes of the class are read. *)
Definition manager_obj_cls (self : manager) : M descriptor :=
  match obj_cls (mgr_class self) with
  | Some c => ret c
  | None => raise AttributeError
  end.

Definition BaseManager_get (fuel : nat) (self : manager) (id : value)
    (kwargs : dict) : M instance :=
  args <~ _set_parent_args self kwargs ;;
  c <~ manager_obj_cls self ;;
  match canGet c with
  | CanGetFalse => raise NotImplementedError
  | _ => GitlabObject_get fuel c (mgr_gitlab self) id args
  end.

Definition BaseManager_list (self : manager) (kwargs : dict) : M (list instance) :=
  args <~ _set_parent_args self kwargs ;;
  c <~ manager_obj_cls self ;;
  if negb (canList c) then raise NotImplementedError
  else GitlabObject_list c (mgr_gitlab self) args.

Definition BaseManager_create (fuel : nat) (self : manager) (data : value)
    (kwargs : dict) : M instance :=
  args <~ _set_parent_args self kwargs ;;
  c <~ manager_obj_cls self ;;
  if negb (canCreate c) then raise NotImplementedError
  else GitlabObject_create fuel c (mgr_gitlab self) data args.

Definition BaseManager_delete (self : manager) (id : value) (kwargs : dict)
  : M unit :=
  args <~ _set_parent_args self kwargs ;;
  c <~ manager_obj_cls self ;;
  if negb (canDelete c) then raise NotImplementedError else
  _ <~ on_connection (mgr_gitlab self)
         (send (reply_data net) (Req_delete (DeleteClass c) (Some id) args)) ;;
  ret tt.

(** *** [ProjectBranch.protect] and [unprotect], on the branch at [self] *)

Definition ProjectBranch_protect (self : nat) (protect : value) (kwargs : dict)
  : M unit :=
  o <~ deref self ;;
  if dict_mem "_url" (inst_dict o) then stop Unmodelled else
  project_id <~ attr o "project_id" ;;
  url <~ lift (match _url (inst_cls o) with
               | Some template =>
                   format_mapping template [("project_id", project_id)]
               | None => Raise TypeError
               end) ;;
  let action := if truthy protect then "protect" else "unprotect" in
  name <~ attr o "name" ;;
  let url := String.concat "/" [url; py_str name; action] in
  gl <~ attr o "gitlab" ;;
  r <~ on_connection gl
         (send (reply_raw net) (Req_raw PUT url (Some VNone) (Some VNone) kwargs)) ;;
  _ <~ lift (raise_error_from_response r GitlabProtectError [200%Z]) ;;
  if truthy protect then store self (setattr o "protected" protect)
  else if dict_mem "protected" (inst_dict o)
       then store self (delattr o "protected")
       else raise AttributeError.

Definition ProjectBranch_unprotect (self : nat) (kwargs : dict) : M unit :=
  ProjectBranch_protect self (VBool false) kwargs.

(** *** [Project.star], on the project at [self]; the result is the
    address of the object returned *)

Definition Project_star (fuel : nat) (self : nat) : M nat :=
  o <~ deref self ;;
  id <~ attr o "id" ;;
  let url := String.append "/projects/" (String.append (py_str id) "/star") in
  gl <~ attr o "gitlab" ;;
  r <~ on_connection gl (send (reply_raw net) (Req_raw POST url None None [])) ;;
  _ <~ lift (raise_error_from_response r GitlabGetError [201%Z; 304%Z]) ;;
  if Z.eqb (status_code r) 201 then
    gl <~ attr o "gitlab" ;;
    body <~ lift (response_json r) ;;
    new <~ __init__ fuel Project gl body [] ;;
    alloc new
  else ret self.

End Objects.

(** ** Notions used in the statements *)

(** *** The scan of a ['from_list'] type, in the words of the claim

    An object as [list] returns them for the type [c] is an instance of
    [c] whose identifier attribute is the one the type declares. *)
Definition listed_as (c : descriptor) (obj : instance) : Prop :=
  inst_cls obj = c /\ dict_get "idAttr" (inst_dict obj) = None.

(** The identifier attribute of [obj], converted to a string, is the
    string of [id]; or it is there and its string is another one. *)
Definition identifier_is (py_repr : value -> string) (c : descriptor)
    (id : value) (obj : instance) : Prop :=
  exists v, getattr obj (idAttr c) = Some v /\
            py_str py_repr v = py_str py_repr id.

Definition identifier_differs (py_repr : value -> string) (c : descriptor)
    (id : value) (obj : instance) : Prop :=
  exists v, getattr obj (idAttr c) = Some v /\
            py_str py_repr v <> py_str py_repr id.

(** The names under which [_set_managers] installs a manager. *)
Definition manager_names (c : descriptor) : list string :=
  map (fun m => fst (fst m)) (managers c).

(** The mapping an instance is hydrated from: the reply to the [get] call
    when the constructor is given an id, the data it is given otherwise. *)
Definition hydrated_from (net : connection) (c : descriptor) (data : value)
    (kwargs : dict) (w : world) : outcome value :=
  if is_id data then reply_data net (trace w) (Req_get c data kwargs)
  else Ok data.

(** A computation that neither allocates nor stores. *)
Definition keeps_heap {A} (m : M A) : Prop :=
  forall w, heap (snd (m w)) = heap w.

(** ** Example data *)

(** [str] of compound values, for the examples. *)
Definition example_repr (v : value) : string := "<object>".

(** A resource type with required creation attributes [a], [b] and the
    optional one [c]. *)
Definition Abc : descriptor :=
  Descriptor "Abc" (Some "/abc") CanGetTrue true true true true
    ["a"; "b"] ["c"] [] [] [] "id" [] GitlabObject_members.

Definition abc_instance : instance :=
  Instance Abc
    [("_from_api", VBool false); ("gitlab", VGitlab);
     ("a", VInt 1); ("b", VList [VStr "x"; VStr "y"]); ("c", VStr "z");
     ("d", VInt 4); ("page", VInt 2); ("id", VNone)].

Definition user_keys_manager : value :=
  VManager UserKeyManager VGitlab [("user_id", "id")].

(** A user as fetched, and the same user built locally with a password. *)
Definition user_fetched : instance :=
  Instance User
    [("_from_api", VBool true); ("gitlab", VGitlab); ("id", VInt 7);
     ("username", VStr "ann"); ("keys", user_keys_manager)].

Definition user_local : instance :=
  Instance User
    [("_from_api", VBool false); ("gitlab", VGitlab); ("username", VStr "ann");
     ("password", VStr "secret"); ("id", VInt 7); ("keys", user_keys_manager)].

(** A connection that cannot reach any server. *)
Definition unreachable {A} (history : list request) (req : request) : outcome A :=
  Raise (GitlabError GitlabConnectionError "unreachable").

Definition offline : connection :=
  Connection unreachable unreachable unreachable.

Definition empty_world : world := World [] [].

(** An issue built locally from its title, before it is saved. *)
Definition local_issue_data : value := VDict [("title", VStr "t")].

Definition local_issue : instance :=
  Instance ProjectIssue
    [("_from_api", VBool false); ("gitlab", VGitlab); ("title", VStr "t");
     ("id", VNone);
     ("notes", VManager ProjectIssueNoteManager VGitlab
                 [("project_id", "project_id"); ("issue_id", "id")])].

(** [ProjectFileManager(gl, parent=issue, args=[('project_id', 'project_id')])]
    for the issue stored at address 0. *)
Definition files_of_issue : manager :=
  Manager ProjectFileManager VGitlab (Some 0) [("project_id", "project_id")].

(** A note built locally from its body: notes cannot be deleted. *)
Definition local_note : instance :=
  Instance ProjectNote
    [("_from_api", VBool false); ("gitlab", VGitlab); ("body", VStr "hi");
     ("id", VNone)].

(** Two labels as a server lists them, and a connection that lists them. *)
Definition label_bug : instance :=
  Instance ProjectLabel
    [("_from_api", VBool true); ("gitlab", VGitlab); ("name", VStr "bug");
     ("color", VStr "#f00"); ("project_id", VInt 1); ("id", VNone)].

Definition label_doc : instance :=
  Instance ProjectLabel
    [("_from_api", VBool true); ("gitlab", VGitlab); ("name", VStr "doc");
     ("color", VStr "#0f0"); ("project_id", VInt 1); ("id", VNone)].

Definition labels_server : connection :=
  Connection unreachable (fun _ _ => Ok [label_bug; label_doc]) unreachable.

(** A label that came without its name, listed before [label_doc]. *)
Definition label_unnamed : instance :=
  Instance ProjectLabel
    [("_from_api", VBool true); ("gitlab", VGitlab);
     ("color", VStr "#00f"); ("project_id", VInt 1); ("id", VNone)].

Definition unnamed_server : connection :=
  Connection unreachable (fun _ _ => Ok [label_unnamed; label_doc]) unreachable.

(** Two keys of a user, named after each other's numbers, as a server
    lists them. *)
Definition key_eight : instance :=
  Instance UserKey
    [("_from_api", VBool true); ("gitlab", VGitlab); ("id", VInt 8);
     ("name", VStr "7"); ("title", VStr "laptop"); ("user_id", VInt 1)].

Definition key_seven : instance :=
  Instance UserKey
    [("_from_api", VBool true); ("gitlab", VGitlab); ("id", VInt 7);
     ("name", VStr "8"); ("title", VStr "desktop"); ("user_id", VInt 1)].

Definition user_keys_server : connection :=
  Connection unreachable (fun _ _ => Ok [key_eight; key_seven]) unreachable.

(** An instance one of whose attributes has the empty name, as a payload
    with an empty key produces. *)
Definition nameless_field : instance :=
  Instance Abc
    [("_from_api", VBool true); ("gitlab", VGitlab); ("id", VInt 1);
     (EmptyString, VInt 0)].

(** An instance one of whose fields came under the name [as_dict]. *)
Definition abc_shadowed : instance :=
  Instance Abc
    [("_from_api", VBool true); ("gitlab", VGitlab); ("a", VInt 1);
     ("as_dict", VInt 0); ("id", VInt 3)].

(** A project (its managers other than [branches] left out), the manager
    found under [branches] when the project is stored at address 0, and a
    connection that lists no branch. *)
Definition project_one : instance :=
  Instance Project
    [("_from_api", VBool true); ("gitlab", VGitlab); ("id", VInt 1);
     ("name", VStr "demo");
     ("branches", VManager ProjectBranchManager VGitlab [("project_id", "id")])].

Definition branches_of_project : manager :=
  Manager ProjectBranchManager VGitlab (Some 0) [("project_id", "id")].

Definition no_branches : connection :=
  Connection unreachable (fun _ _ => Ok []) unreachable.

(** The world after [project.id = 2] on the project at address 0. *)
Definition renumbered_world : world :=
  World [setattr project_one "id" (VInt 2)] [].

(** A branch about to be created: [ProjectBranch(gl, {'branch_name':
    'feature', 'ref': 'master'}, project_id=1)]. *)
Definition new_branch_data : value :=
  VDict [("branch_name", VStr "feature"); ("ref", VStr "master")].

Definition new_branch : instance :=
  Instance ProjectBranch
    [("_from_api", VBool false); ("gitlab", VGitlab);
     ("branch_name", VStr "feature"); ("ref", VStr "master");
     ("project_id", VInt 1); ("id", VNone)].

(** A server whose answer to [get] on a hook names project 99, and one
    whose answer on a user has a field called [keys]. *)
Definition hook_server : connection :=
  Connection
    (fun _ _ => Ok (VDict [("id", VInt 3); ("project_id", VInt 99);
                           ("url", VStr "u")]))
    unreachable unreachable.

Definition hook_fetched : instance :=
  Instance ProjectHook
    [("_from_api", VBool true); ("gitlab", VGitlab); ("id", VInt 3);
     ("project_id", VInt 7); ("url", VStr "u")].

Definition keys_server : connection :=
  Connection
    (fun _ _ => Ok (VDict [("id", VInt 1); ("keys", VStr "srv")]))
    unreachable unreachable.

Definition user_with_keys : instance :=
  Instance User
    [("_from_api", VBool true); ("gitlab", VGitlab); ("id", VInt 1);
     ("keys", user_keys_manager)].

(** A server on which the project is already starred, and one on which it
    is not yet. *)
Definition already_starred : connection :=
  Connection unreachable unreachable (fun _ _ => Ok (Response 304 None EmptyString)).

Definition starred_body : value :=
  VDict [("id", VInt 1); ("name", VStr "demo"); ("star_count", VInt 1)].

Definition not_yet_starred : connection :=
  Connection unreachable unreachable
    (fun _ _ => Ok (Response 201 (Some starred_body) EmptyString)).

Definition star_request : request :=
  Req_raw POST "/projects/1/star" None None [].

(** A branch as fetched, stored at address 0, and a server that accepts
    what it is asked. *)
Definition branch_master : instance :=
  Instance ProjectBranch
    [("_from_api", VBool true); ("gitlab", VGitlab); ("name", VStr "master");
     ("protected", VBool false); ("project_id", VInt 1); ("id", VNone)].

Definition accepting : connection :=
  Connection unreachable unreachable (fun _ _ => Ok (Response 200 None EmptyString)).

Definition protect_request (action : string) : request :=
  Req_raw PUT
    (String.append "/projects/1/repository/branches/master/" action)
    (Some VNone) (Some VNone) [].

(** * Further operations of the module *)

(** ** Notions used in the statements about the trace *)

Definition is_get (r : request) : bool :=
  match r with Req_get _ _ _ => true | _ => false end.

(** A computation that leaves the heap alone and whose network calls, if
    any, are [get] calls added at the end of the trace. *)
Definition only_gets {A} (m : M A) : Prop :=
  forall w, exists added,
    heap (snd (m w)) = heap w /\
    trace (snd (m w)) = trace w ++ added /\
    forallb is_get added = true.

(** ** Notions used in the statements about hydration *)

(** What [_get_object] makes of a value found under the key [k]: the
    value itself, or an instance of the class that [_constructorTypes]
    names for [k]. *)
Definition hydrates_to (c : descriptor) (k : string) (v o : value) : Prop :=
  match dict_get k (_constructorTypes c) with
  | None => o = v
  | Some name =>
      exists c' d, dict_get name module_classes = Some c' /\ o = VObj c' d
  end.

(** What [_set_from_dict] stores for a field [k] of value [v]: [None] for
    [None], item by item for a list. *)
Definition field_hydrates_to (c : descriptor) (k : string) (v o : value) : Prop :=
  match v with
  | VNone => o = VNone
  | VList l => exists objs, o = VList objs /\ Forall2 (hydrates_to c k) l objs
  | _ => hydrates_to c k v o
  end.

(** Every manager class declared by [c] names the class it wraps. *)
Definition managers_wrap_classes (c : descriptor) : bool :=
  forallb (fun m => match obj_cls (snd (fst m)) with Some _ => true | None => false end)
          (managers c).

(** ** Example data for the further properties *)

(** A project as a server describes it, with its owner nested. *)
Definition project_payload : dict :=
  [("id", VInt 42); ("name", VStr "demo"); ("archived", VNone);
   ("owner", VDict [("id", VInt 9); ("username", VStr "bob")])].

(** The instance built from it, without any call to a server. *)
Definition demo_project : instance :=
  match fst (__init__ offline 2 Project VGitlab (VDict project_payload) []
               empty_world) with
  | Ok inst => inst
  | _ => Instance Project []
  end.

Definition hook_data : dict := [("url", VStr "http://ci"); ("build_events", VBool true)].

(** A server that stores what it is sent and answers with the stored
    project. *)
Definition create_server : connection :=
  Connection
    (fun _ _ => Ok (VDict [("id", VInt 42); ("name", VStr "demo");
                           ("path", VStr "demo")]))
    unreachable unreachable.

Definition demo_local : instance :=
  Instance Abc
    [("_from_api", VBool false); ("gitlab", VGitlab); ("name", VStr "demo");
     ("id", VNone)].

(** A user as fetched, stored at address 0. *)
Definition fetched_world : world := World [user_fetched] [].

(** A system hook as fetched: hooks cannot be updated. *)
Definition system_hook : instance :=
  Instance Hook
    [("_from_api", VBool true); ("gitlab", VGitlab); ("id", VInt 2);
     ("url", VStr "http://ci")].

(** A server that refuses everything with one error. *)
Definition refusing (e : exn) : connection :=
  Connection (fun _ _ => Raise e) (fun _ _ => Raise e) (fun _ _ => Raise e).

Definition forbidden : exn := GitlabError GitlabGetError "403 Forbidden".

(** A server that accepts deletions. *)
Definition deleting : connection :=
  Connection (fun _ _ => Ok VNone) unreachable unreachable.

(** An instance whose [b] is a list of numbers. *)
Definition abc_numbers : instance :=
  Instance Abc
    [("_from_api", VBool false); ("gitlab", VGitlab);
     ("a", VInt 1); ("b", VList [VInt 10; VInt 20]); ("id", VNone)].

(** [save], [_create] and [_update] reach [_create], [_update],
    [_set_from_dict] and [_get_object] through [self].  These are the
    methods of [GitlabObject] unless an attribute of the instance has one
    of these names, or the class is [GroupMember], which defines its own
    [_update]. *)
Definition uses_base_methods (self : instance) : bool :=
  negb (String.eqb (cls_name (inst_cls self)) "GroupMember") &&
  forallb (fun k => negb (dict_mem k (inst_dict self)))
    ["_create"; "_update"; "_set_from_dict"; "_get_object"].

(** ** Methods of the subclasses *)

(** *** [ProjectIssue._data_for_gitlab]

    [", ".join(self.labels)]: the labels are iterated, a dictionary giving
    its keys; a string or [None] is left to the generic code. *)
Definition joined_labels (labels : value) : outcome (option string) :=
  match labels with
  | VNone | VStr _ => Ok None
  | VList l => s <- join ", " l ;; Ok (Some s)
  | VDict d => Ok (Some (String.concat ", " (keys d)))
  | VBool _ | VInt _ | VObj _ _ | VManager _ _ _ => Raise TypeError
  | _ => Stop Unmodelled
  end.

(** The method writes into the dictionary it receives as
    [extra_parameters]; its default value [{}] is one dictionary, made
    when the method is defined and received by every call that leaves the
    argument out.  [extra_parameters] is that dictionary as it is when the
    call starts, and the second component of the result is the
    dictionary as the call leaves it.  [update] is not passed on. *)
Definition ProjectIssue__data_for_gitlab (self : instance)
    (extra_parameters : dict) (update : bool) : outcome json * dict :=
  match (if hasattr self "labels" then
           match getattr self "labels" with
           | Some labels => joined_labels labels
           | None => Ok None
           end
         else Ok None) with
  | Ok (Some labels) =>
      let extra_parameters := dict_set "labels" (VStr labels) extra_parameters in
      (_data_for_gitlab self extra_parameters false, extra_parameters)
  | Ok None => (_data_for_gitlab self extra_parameters false, extra_parameters)
  | Raise e => (Raise e, extra_parameters)
  | Stop l => (Stop l, extra_parameters)
  end.

(** *** [ProjectMergeRequest._data_for_gitlab]

    The body is kept as a document, so [json.loads] of it gives back its
    members; [d.pop('source_branch', None)] removes one of them. *)
Definition ProjectMergeRequest__data_for_gitlab (self : instance)
    (extra_parameters : dict) (update : bool) : outcome json :=
  data <- _data_for_gitlab self extra_parameters false ;;
  if update then
    match data with
    | JObject d => Ok (JObject (dict_del "source_branch" d))
    | _ => Stop Unmodelled
    end
  else Ok data.

(** [for j in v]: the items of a list, the keys of a dictionary, the
    characters of a string. *)
Definition py_iter (v : value) : outcome (list value) :=
  match v with
  | VList l => Ok l
  | VDict d => Ok (map VStr (keys d))
  | VStr s =>
      Ok (map (fun ch => VStr (String ch EmptyString)) (list_ascii_of_string s))
  | VNone | VBool _ | VInt _ | VObj _ _ | VManager _ _ _ => Raise TypeError
  | _ => Stop Unmodelled
  end.

Section Subclasses.

Variable net : connection.
Variable py_repr : value -> string.

(** *** [Project.unstar], on the project at [self]; the result is the
    address of the object returned *)

Definition Project_unstar (fuel : nat) (self : nat) : M nat :=
  o <~ deref self ;;
  id <~ attr o "id" ;;
  let url := String.append "/projects/" (String.append (py_str py_repr id) "/star") in
  gl <~ attr o "gitlab" ;;
  r <~ on_connection gl (send (reply_raw net) (Req_raw DELETE url None None [])) ;;
  _ <~ lift (raise_error_from_response r GitlabDeleteError [200%Z; 304%Z]) ;;
  if Z.eqb (status_code r) 200 then
    gl <~ attr o "gitlab" ;;
    body <~ lift (response_json r) ;;
    new <~ __init__ net fuel Project gl body [] ;;
    alloc new
  else ret self.

(** *** [ProjectCommit.builds] and [ProjectMilestone.issues]

    The loop common to both: [o = cls(self, j); o._from_api = True;
    l.append(o)] for each [j].  The objects built are given the calling
    object, not the connection, as their [gitlab]. *)
Fixpoint construct_each (fuel : nat) (c : descriptor) (parent : value)
    (items : list value) : M (list instance) :=
  match items with
  | [] => ret []
  | j :: rest =>
      o <~ __init__ net fuel c parent j [] ;;
      let o := setattr o "_from_api" (VBool true) in
      l <~ construct_each fuel c parent rest ;;
      ret (o :: l)
  end.

Definition ProjectCommit_builds (fuel : nat) (self : nat) (kwargs : dict)
  : M (list instance) :=
  o <~ deref self ;;
  project_id <~ attr o "project_id" ;;
  id <~ attr o "id" ;;
  let url :=
    String.concat EmptyString
      ["/projects/"; py_str py_repr project_id; "/repository/commits/";
       py_str py_repr id; "/builds"] in
  gl <~ attr o "gitlab" ;;
  r <~ on_connection gl (send (reply_raw net) (Req_raw GET url None None kwargs)) ;;
  _ <~ lift (raise_error_from_response r GitlabListError [200%Z]) ;;
  body <~ lift (response_json r) ;;
  items <~ lift (py_iter body) ;;
  construct_each fuel ProjectBuild (VInst o) items.

Definition ProjectMilestone_issues (fuel : nat) (self : nat)
  : M (list instance) :=
  o <~ deref self ;;
  project_id <~ attr o "project_id" ;;
  id <~ attr o "id" ;;
  let url :=
    String.concat EmptyString
      ["/projects/"; py_str py_repr project_id; "/milestones/";
       py_str py_repr id; "/issues"] in
  gl <~ attr o "gitlab" ;;
  r <~ on_connection gl (send (reply_raw net) (Req_raw GET url None None [])) ;;
  _ <~ lift (raise_error_from_response r GitlabDeleteError [200%Z]) ;;
  body <~ lift (response_json r) ;;
  items <~ lift (py_iter body) ;;
  construct_each fuel ProjectIssue (VInst o) items.

End Subclasses.

(** A merge request as fetched, and two issues: one with two labels, one
    built locally from its title only. *)
Definition merge_request : instance :=
  Instance ProjectMergeRequest
    [("_from_api", VBool true); ("gitlab", VGitlab); ("project_id", VInt 1);
     ("id", VInt 5); ("source_branch", VStr "dev");
     ("target_branch", VStr "master"); ("title", VStr "t")].

Definition labelled_issue : instance :=
  Instance ProjectIssue
    [("_from_api", VBool true); ("gitlab", VGitlab); ("project_id", VInt 1);
     ("id", VInt 7); ("title", VStr "first");
     ("labels", VList [VStr "bug"; VStr "doc"])].

Definition unlabelled_issue : instance :=
  Instance ProjectIssue
    [("_from_api", VBool false); ("gitlab", VGitlab); ("project_id", VInt 1);
     ("title", VStr "second"); ("id", VNone)].

(** A server that answers 200 with the project to every raw call. *)
Definition unstarred_body : value :=
  VDict [("id", VInt 1); ("name", VStr "demo"); ("star_count", VInt 0)].

Definition unstarring : connection :=
  Connection unreachable unreachable
    (fun _ _ => Ok (Response 200 (Some unstarred_body) EmptyString)).

Definition unstar_request : request :=
  Req_raw DELETE "/projects/1/star" None None [].

(** ** Notions used in the statements about [builds] and [issues] *)

(** [o] is what the loop of [builds] and [issues] makes of the item [j]:
    an instance of [c] marked as coming from the server whose [gitlab] is
    [parent], unless the item itself has a field of that name. *)
Definition built_on (c : descriptor) (parent : value) (j : value) (o : instance)
  : Prop :=
  inst_cls o = c /\
  getattr o "_from_api" = Some (VBool true) /\
  forall fields, j = VDict fields -> ~ In "gitlab" (keys fields) ->
                 getattr o "gitlab" = Some parent.

(** A commit as fetched, and a server that lists one build for it. *)
Definition commit_one : instance :=
  Instance ProjectCommit
    [("_from_api", VBool true); ("gitlab", VGitlab); ("project_id", VInt 1);
     ("id", VStr "abc123")].

Definition one_build : value :=
  VList [VDict [("id", VInt 9); ("status", VStr "success")]].

Definition with_builds : connection :=
  Connection unreachable unreachable
    (fun _ _ => Ok (Response 200 (Some one_build) EmptyString)).

Definition builds_request : request :=
  Req_raw GET "/projects/1/repository/commits/abc123/builds" None None [].

Definition listed_build : instance :=
  Instance ProjectBuild
    [("_from_api", VBool true); ("gitlab", VInst commit_one);
     ("id", VInt 9); ("status", VStr "success")].

(** *** [User._data_for_gitlab]

    [str.lower()], on the letters A to Z; text outside ASCII is not
    followed. *)
Definition lower_ascii (ch : ascii) : ascii :=
  let n := nat_of_ascii ch in
  if Nat.leb 65 n && Nat.leb n 90 then ascii_of_nat (n + 32) else ch.

Fixpoint lower (s : string) : outcome string :=
  match s with
  | EmptyString => Ok EmptyString
  | String ch rest =>
      if Nat.leb 128 (nat_of_ascii ch) then Stop Unmodelled
      else r <- lower rest ;; Ok (String (lower_ascii ch) r)
  end.

Section Overrides.

Variable net : connection.
Variable py_repr : value -> string.

(** [self.confirm = str(self.confirm).lower()] when there is such an
    attribute, then the generic method, to which [update] is not passed
    on.  The second component is the instance as the call leaves it. *)
Definition User__data_for_gitlab (self : instance) (extra_parameters : dict)
    (update : bool) : outcome json * instance :=
  match getattr self "confirm" with
  | Some confirm =>
      match lower (py_str py_repr confirm) with
      | Ok s =>
          let self := setattr self "confirm" (VStr s) in
          (_data_for_gitlab self extra_parameters false, self)
      | Raise e => (Raise e, self)
      | Stop l => (Stop l, self)
      end
  | None => (_data_for_gitlab self extra_parameters false, self)
  end.

(** *** [GroupMember._update]: [self.user_id = self.id], then the
    [_update] of [GitlabObject] *)
Definition GroupMember__update (fuel : nat) (self : instance) (kwargs : dict)
  : M instance :=
  id <~ attr self "id" ;;
  _update net fuel (setattr self "user_id" id) kwargs.

End Overrides.

(** ** The declarations of the module *)

(** The entry of a class in the table of the module is under its own
    name, each of its manager classes wraps a class, and each nested type
    it declares is the name of a class of the module. *)
Definition declarations_resolve (entry : string * descriptor) : bool :=
  let '(name, c) := entry in
  String.eqb (cls_name c) name &&
  managers_wrap_classes c &&
  forallb (fun kt =>
             match dict_get (snd kt) module_classes with
             | Some c' => String.eqb (cls_name c') (snd kt)
             | None => false
             end)
          (_constructorTypes c).

(** A user created with [confirm=False], and a group member as fetched
    with a server that answers an update with the new access level. *)
Definition unconfirmed_user : instance :=
  Instance User
    [("_from_api", VBool false); ("gitlab", VGitlab);
     ("email", VStr "a@b.c"); ("username", VStr "ab"); ("name", VStr "A B");
     ("password", VStr "secret"); ("confirm", VBool false); ("id", VNone)].

Definition group_member : instance :=
  Instance GroupMember
    [("_from_api", VBool true); ("gitlab", VGitlab); ("group_id", VInt 1);
     ("id", VInt 5); ("access_level", VInt 40)].

Definition member_server : connection :=
  Connection
    (fun _ _ => Ok (VDict [("id", VInt 5); ("access_level", VInt 40)]))
    unreachable unreachable.

(** * Properties *)

#[local] Arguments String.eqb : simpl never.
#[local] Arguments Ascii.eqb : simpl never.

(** ** Dictionaries *)

Section DictFacts.
Variable A : Type.
Implicit Types (d : list (string * A)) (k : string) (v : A).

Lemma dict_get_set_eq d k v : dict_get k (dict_set k v d) = Some v.
Proof.
  induction d as [|[k' v'] r IH]; simpl.
  - now rewrite String.eqb_refl.
  - destruct (String.eqb k k') eqn:E; simpl; rewrite E; auto.
Qed.

Lemma dict_get_set_ne d k k' v :
  k' <> k -> dict_get k' (dict_set k v d) = dict_get k' d.
Proof.
  intros Hne. induction d as [|[k0 v0] r IH]; simpl.
  - apply String.eqb_neq in Hne. now rewrite Hne.
  - destruct (String.eqb k k0) eqn:E; simpl.
    + apply String.eqb_eq in E. subst k0.
      apply String.eqb_neq in Hne. now rewrite Hne.
    + now rewrite IH.
Qed.

Lemma dict_get_Some_In d k v : dict_get k d = Some v -> In (k, v) d.
Proof.
  induction d as [|[k' v'] r IH]; simpl; [discriminate|].
  destruct (String.eqb k k') eqn:E.
  - apply String.eqb_eq in E. intros [= ->]. subst. now left.
  - intros H. right. auto.
Qed.

Lemma dict_get_In_keys d k : dict_get k d <> None <-> In k (keys d).
Proof.
  induction d as [|[k' v'] r IH]; simpl.
  - split; [congruence | tauto].
  - destruct (String.eqb k k') eqn:E.
    + apply String.eqb_eq in E. subst. split; [auto | congruence].
    + apply String.eqb_neq in E. rewrite IH. split; [auto|].
      intros [H|H]; [congruence | exact H].
Qed.

Lemma dict_get_None_keys d k : dict_get k d = None <-> ~ In k (keys d).
Proof.
  rewrite <- dict_get_In_keys. destruct (dict_get k d); split; intros H;
    try congruence; try tauto. exfalso. apply H. discriminate.
Qed.

Lemma dict_mem_In_keys d k : dict_mem k d = true <-> In k (keys d).
Proof.
  rewrite <- dict_get_In_keys. unfold dict_mem.
  destruct (dict_get k d); split; congruence.
Qed.

Lemma NoDup_keys_get d k v :
  NoDup (keys d) -> In (k, v) d -> dict_get k d = Some v.
Proof.
  induction d as [|[k' v'] r IH]; simpl; [tauto|].
  intros Hnd [H|H].
  - injection H as -> ->. now rewrite String.eqb_refl.
  - inversion Hnd as [|? ? Hnot Hnd']; subst.
    destruct (String.eqb k k') eqn:E.
    + apply String.eqb_eq in E. subst k'. exfalso. apply Hnot.
      change k with (fst (k, v)). now apply in_map.
    + auto.
Qed.

Lemma keys_dict_set d k v k' :
  In k' (keys (dict_set k v d)) <-> k' = k \/ In k' (keys d).
Proof.
  induction d as [|[k0 v0] r IH]; simpl.
  - intuition.
  - destruct (String.eqb k k0) eqn:E; simpl.
    + apply String.eqb_eq in E. subst k0. intuition.
    + rewrite IH. intuition.
Qed.

Lemma NoDup_keys_dict_set d k v :
  NoDup (keys d) -> NoDup (keys (dict_set k v d)).
Proof.
  induction d as [|[k0 v0] r IH]; simpl; intros Hnd.
  - constructor; [simpl; tauto | constructor].
  - inversion Hnd as [|? ? Hnot Hnd']; subst.
    destruct (String.eqb k k0) eqn:E; simpl.
    + constructor; assumption.
    + constructor; [|now apply IH].
      intros Hin. apply keys_dict_set in Hin. destruct Hin as [->|Hin].
      * now rewrite String.eqb_refl in E.
      * now apply Hnot.
Qed.

Lemma keys_dict_del d k k' :
  In k' (keys (dict_del k d)) <-> k' <> k /\ In k' (keys d).
Proof.
  induction d as [|[k0 v0] r IH]; simpl.
  - tauto.
  - destruct (String.eqb k k0) eqn:E; simpl.
    + apply String.eqb_eq in E. subst k0. rewrite IH. intuition congruence.
    + apply String.eqb_neq in E. rewrite IH. intuition congruence.
Qed.

Lemma dict_get_del_eq d k : dict_get k (dict_del k d) = None.
Proof.
  apply dict_get_None_keys. rewrite keys_dict_del. tauto.
Qed.

Lemma dict_get_del_ne d k k' :
  k' <> k -> dict_get k' (dict_del k d) = dict_get k' d.
Proof.
  intros Hne. induction d as [|[k0 v0] r IH]; simpl; [reflexivity|].
  destruct (String.eqb k k0) eqn:E; simpl.
  - apply String.eqb_eq in E. subst k0.
    apply String.eqb_neq in Hne. now rewrite Hne.
  - now rewrite IH.
Qed.

Lemma NoDup_keys_dict_del d k :
  NoDup (keys d) -> NoDup (keys (dict_del k d)).
Proof.
  induction d as [|[k0 v0] r IH]; simpl; intros Hnd; [constructor|].
  inversion Hnd as [|? ? Hnot Hnd']; subst.
  destruct (String.eqb k k0); simpl; [now apply IH|].
  constructor; [|now apply IH].
  rewrite keys_dict_del. tauto.
Qed.

Lemma dict_get_setdefault_old d k v k' w :
  dict_get k' d = Some w -> dict_get k' (dict_setdefault k v d) = Some w.
Proof.
  intros H. unfold dict_setdefault, dict_mem.
  destruct (dict_get k d) eqn:E; [exact H|].
  rewrite dict_get_set_ne; [exact H|]. congruence.
Qed.

Lemma dict_get_setdefault_new d k v :
  dict_get k d = None -> dict_get k (dict_setdefault k v d) = Some v.
Proof.
  intros H. unfold dict_setdefault, dict_mem. rewrite H.
  apply dict_get_set_eq.
Qed.

Lemma dict_get_setdefault_ne d k v k' :
  k' <> k -> dict_get k' (dict_setdefault k v d) = dict_get k' d.
Proof.
  intros H. unfold dict_setdefault. destruct (dict_mem k d); [reflexivity|].
  now apply dict_get_set_ne.
Qed.

Lemma dict_get_update d e k :
  dict_get k (dict_update d e) =
  match dict_get k (rev e) with Some v => Some v | None => dict_get k d end.
Proof.
  unfold dict_update. revert d.
  induction e as [|[k0 v0] r IH] using rev_ind; intros d; simpl; [reflexivity|].
  rewrite fold_left_app, rev_app_distr. simpl.
  destruct (String.eqb k k0) eqn:E.
  - apply String.eqb_eq in E. subst k0. apply dict_get_set_eq.
  - apply String.eqb_neq in E. rewrite dict_get_set_ne by exact E. apply IH.
Qed.
End DictFacts.

(** ** Serialisation *)

Lemma dumps_VDict (d : dict) :
  dumps (VDict d) = (m <- dumps_members d ;; Ok (JObject m)).
Proof.
  simpl. f_equal.
Qed.

Lemma dumps_members_spec (d : dict) (m : list (string * json)) :
  dumps_members d = Ok m ->
  keys m = keys d /\
  forall k v, dict_get k d = Some v ->
              exists j, dumps v = Ok j /\ dict_get k m = Some j.
Proof.
  revert m. induction d as [|[k0 v0] r IH]; simpl; intros m H.
  - injection H as <-. split; [reflexivity | discriminate].
  - destruct (dumps v0) as [j0| |] eqn:E0; simpl in H; try discriminate.
    destruct (dumps_members r) as [m0| |] eqn:E1; simpl in H; try discriminate.
    injection H as <-. destruct (IH m0 eq_refl) as [Hk Hv].
    split; [simpl; now rewrite Hk|].
    intros k v Hget. simpl. destruct (String.eqb k k0).
    + injection Hget as <-. eauto.
    + now apply Hv.
Qed.

Lemma str_items_spec (l : list value) (ss : list string) :
  str_items l = Ok ss -> l = map VStr ss.
Proof.
  revert ss. induction l as [|x r IH]; simpl; intros ss H.
  - now injection H as <-.
  - destruct x; try discriminate.
    destruct (str_items r) as [ss0| |]; simpl in H; try discriminate.
    injection H as <-. simpl. f_equal. now apply IH.
Qed.

Lemma flatten_list (l : list value) (v : value) :
  flatten (VList l) = Ok v ->
  exists ss, l = map VStr ss /\ v = VStr (String.concat "," ss).
Proof.
  unfold flatten, join. destruct (str_items l) as [ss| |] eqn:E; simpl;
    try discriminate.
  intros [= <-]. exists ss. split; [now apply str_items_spec | reflexivity].
Qed.

Lemma data_loop_spec (self : instance) (attributes : list string) :
  forall data data',
    data_loop self attributes data = Ok data' ->
    NoDup (keys data) ->
    NoDup (keys data') /\
    (forall k, In k (keys data') <->
               In k (keys data) \/ (In k attributes /\ hasattr self k = true)) /\
    (forall k v, In k attributes -> getattr self k = Some v ->
                 exists v', flatten v = Ok v' /\ dict_get k data' = Some v') /\
    (forall k, ~ In k attributes -> dict_get k data' = dict_get k data).
Proof.
  induction attributes as [|a rest IH]; simpl; intros data data' H Hnd.
  - injection H as <-. repeat split; auto; try tauto.
  - unfold hasattr in *. destruct (getattr self a) as [v|] eqn:Ea.
    + destruct (flatten v) as [v'| |] eqn:Ef; simpl in H; try discriminate.
      apply IH in H; [|now apply NoDup_keys_dict_set].
      destruct H as (Hnd' & Hkeys & Hval & Hout).
      split; [exact Hnd'|]. split; [|split].
      * intros k. rewrite Hkeys, keys_dict_set. split.
        -- intros [[->|Hin]|[Hin Hhas]]; auto.
           right. split; [now left|]. now rewrite Ea.
        -- intros [Hin|[[<-|Hin] Hhas]]; auto.
      * intros k w [<-|Hin] Hget.
        -- destruct (in_dec string_dec a rest) as [Hin|Hnin].
           ++ now apply Hval.
           ++ rewrite Hout by exact Hnin. rewrite dict_get_set_eq.
              rewrite Ea in Hget. injection Hget as <-. eauto.
        -- now apply Hval.
      * intros k Hnin. rewrite Hout by tauto.
        apply dict_get_set_ne. intros ->. tauto.
    + apply IH in H; [|exact Hnd].
      destruct H as (Hnd' & Hkeys & Hval & Hout).
      split; [exact Hnd'|]. split; [|split].
      * intros k. rewrite Hkeys. split.
        -- intros [Hin|[Hin Hhas]]; auto.
        -- intros [Hin|[[<-|Hin] Hhas]]; auto.
           rewrite Ea in Hhas. discriminate.
      * intros k w [<-|Hin] Hget; [congruence|]. now apply Hval.
      * intros k Hnin. apply Hout. tauto.
Qed.

Lemma data_loop_total (self : instance) (attributes : list string) :
  (forall k v, In k attributes -> getattr self k = Some v ->
               exists v', flatten v = Ok v') ->
  forall data, exists data', data_loop self attributes data = Ok data'.
Proof.
  induction attributes as [|a rest IH]; simpl; intros Hall data; [eauto|].
  destruct (getattr self a) as [v|] eqn:Ea.
  - destruct (Hall a v (or_introl eq_refl) Ea) as (v' & ->). simpl.
    apply IH. intros k w Hin. apply Hall. now right.
  - apply IH. intros k w Hin. apply Hall. now right.
Qed.

Lemma dumps_members_total (d : dict) :
  (forall k v, In (k, v) d -> exists j, dumps v = Ok j) ->
  exists m, dumps_members d = Ok m.
Proof.
  induction d as [|[k v] r IH]; simpl; intros Hall; [eauto|].
  destruct (Hall k v (or_introl eq_refl)) as (j & ->). simpl.
  destruct IH as (m & ->); [|simpl; eauto].
  intros k' v' Hin. apply (Hall k' v'). now right.
Qed.

(** The body of a creation request is produced whenever the values of the
    attributes considered can be written: lists of strings, and data that
    [json.dumps] accepts. *)
Lemma data_for_gitlab_succeeds (self : instance) :
  shadows_attribute_lists self false = false ->
  (forall k v, In k (data_attributes (inst_cls self) false) ->
               getattr self k = Some v ->
               exists v' j, flatten v = Ok v' /\ dumps v' = Ok j) ->
  exists payload, _data_for_gitlab self [] false = Ok (JObject payload).
Proof.
  intros Hs Hall. unfold _data_for_gitlab. rewrite Hs.
  destruct (data_loop_total self (data_attributes (inst_cls self) false))
    with (data := @nil (string * value)) as (data & Hloop).
  { intros k v Hin Hget. destruct (Hall k v Hin Hget) as (v' & _ & Hf & _). eauto. }
  rewrite Hloop. cbn [bind]. change (dict_update data []) with data.
  rewrite dumps_VDict.
  destruct (dumps_members_total data) as (m & ->); [|simpl; eauto].
  intros k v' Hin.
  destruct (data_loop_spec self _ _ Hloop (NoDup_nil _)) as (Hnd & Hkeys & Hval & _).
  assert (Hk : In k (keys data)).
  { change k with (fst (k, v')). now apply in_map. }
  apply Hkeys in Hk. destruct Hk as [[]|[Hattr Hhas]].
  unfold hasattr in Hhas. destruct (getattr self k) as [v|] eqn:Eg; [|discriminate].
  destruct (Hval k v Hattr Eg) as (v1 & Hf1 & Hg1).
  destruct (Hall k v Hattr Eg) as (v2 & j & Hf2 & Hj).
  rewrite (NoDup_keys_get _ _ _ Hnd Hin) in Hg1. injection Hg1 as <-.
  rewrite Hf1 in Hf2. injection Hf2 as <-. eauto.
Qed.

(** C2.  An instance of a resource type whose creation attributes, the
    required and the optional ones, are all set, and which also has an
    attribute [d] that is neither declared nor a generic parameter: the
    request body written for a creation is a JSON object whose keys are
    exactly the declared attributes plus those of [sudo], [page] and
    [per_page] that the instance has; [d] is not among them, and an
    attribute holding a list is written as the string joining its items
    with commas. *)
Theorem data_for_gitlab_payload (self : instance) (d : string) (j : json) :
  let declared := requiredCreateAttrs (inst_cls self)
                  ++ optionalCreateAttrs (inst_cls self) in
  (forall k, In k declared -> dict_get k (inst_dict self) <> None) ->
  dict_get d (inst_dict self) <> None ->
  ~ In d (declared ++ generic_parameters) ->
  _data_for_gitlab self [] false = Ok j ->
  exists payload,
    j = JObject payload /\
    NoDup (keys payload) /\
    (forall k, In k (keys payload) <->
               In k declared \/ (In k generic_parameters /\ hasattr self k = true)) /\
    ~ In d (keys payload) /\
    (forall k l, In k (keys payload) -> getattr self k = Some (VList l) ->
       exists items, l = map VStr items /\
                     dict_get k payload = Some (JString (String.concat "," items))).
Proof.
  intros declared Hset Hd Hnot H.
  unfold _data_for_gitlab in H.
  destruct (shadows_attribute_lists self false); [discriminate|].
  unfold data_attributes in H. simpl andb in H. cbv iota in H.
  fold declared in H.
  destruct (data_loop self (declared ++ generic_parameters) []) as [data| |] eqn:El;
    cbn [bind] in H; try discriminate.
  change (dict_update data []) with data in H.
  rewrite dumps_VDict in H.
  destruct (dumps_members data) as [m| |] eqn:Em; simpl in H; try discriminate.
  injection H as <-. exists m.
  apply data_loop_spec in El; [|constructor].
  destruct El as (Hnd & Hkeys & Hval & _).
  apply dumps_members_spec in Em. destruct Em as [Hk Hv].
  assert (Hiff : forall k, In k (keys m) <->
            In k declared \/ (In k generic_parameters /\ hasattr self k = true)).
  { intros k. rewrite Hk, Hkeys. simpl. rewrite in_app_iff. split.
    - intros [[]|[[Hin|Hin] Hhas]]; auto.
    - intros [Hin|[Hin Hhas]]; right; split; auto.
      unfold hasattr, getattr. specialize (Hset k Hin).
      destruct (dict_get k (inst_dict self)); congruence. }
  split; [reflexivity|]. split; [now rewrite Hk|]. split; [exact Hiff|].
  split.
  - rewrite Hiff. rewrite in_app_iff in Hnot. tauto.
  - intros k l Hin Hget. rewrite Hk, Hkeys in Hin.
    destruct Hin as [[]|[Hin _]].
    destruct (Hval k _ Hin Hget) as (v' & Hf & Hg).
    apply flatten_list in Hf. destruct Hf as (ss & -> & ->).
    exists ss. split; [reflexivity|].
    destruct (Hv k _ Hg) as (j & Hj & Hm). simpl in Hj. now injection Hj as <-.
Qed.

Lemma data_for_gitlab_payload_witness :
  exists payload,
    JObject [("a", JNumber 1); ("b", JString "x,y"); ("c", JString "z");
             ("page", JNumber 2)] = JObject payload /\
    NoDup (keys payload) /\
    (forall k, In k (keys payload) <->
               In k ["a"; "b"; "c"] \/
               (In k generic_parameters /\ hasattr abc_instance k = true)) /\
    ~ In "d" (keys payload) /\
    (forall k l, In k (keys payload) ->
       getattr abc_instance k = Some (VList l) ->
       exists items, l = map VStr items /\
                     dict_get k payload = Some (JString (String.concat "," items))).
Proof.
  apply (data_for_gitlab_payload abc_instance "d").
  - intros k [<-|[<-|[<-|[]]]]; discriminate.
  - discriminate.
  - intros [H|[H|[H|[H|[H|[H|[]]]]]]]; discriminate.
  - reflexivity.
Defined.

(** ** Equality *)

Lemma dict_items_eq_filter (eqv : value -> value -> outcome bool)
    (keep : string -> value -> bool) (da db : dict) :
  dict_items_eq eqv keep da db =
  dict_items_eq eqv keep_all (filter (fun kv => keep (fst kv) (snd kv)) da) db.
Proof.
  induction da as [|[k v] r IH]; simpl; [reflexivity|].
  destruct (keep k v); simpl; [|exact IH].
  destruct (dict_get k db); [|reflexivity].
  destruct (eqv v v0) as [[|]| |]; simpl; auto.
Qed.

Lemma dict_del_filter (k0 : string) (d : dict) :
  dict_del k0 d = filter (fun kv => negb (String.eqb k0 (fst kv))) d.
Proof.
  induction d as [|[k v] r IH]; simpl; [reflexivity|].
  destruct (String.eqb k0 k); simpl; now rewrite IH.
Qed.

Lemma keys_filter_In (p : string * value -> bool) (d : dict) (k : string) :
  In k (keys (filter p d)) -> In k (keys d).
Proof.
  unfold keys. rewrite !in_map_iff. intros ([k' v] & <- & Hin).
  apply filter_In in Hin. exists (k', v). tauto.
Qed.

Lemma NoDup_keys_filter (p : string * value -> bool) (d : dict) :
  NoDup (keys d) -> NoDup (keys (filter p d)).
Proof.
  induction d as [|[k v] r IH]; simpl; intros Hnd; [constructor|].
  inversion Hnd as [|? ? Hnot Hnd']; subst.
  destruct (p (k, v)); simpl; [|now apply IH].
  constructor; [|now apply IH].
  intros Hin. apply Hnot. eapply keys_filter_In. exact Hin.
Qed.

Lemma dict_get_filter (p : string * value -> bool) (d : dict) (k : string) :
  NoDup (keys d) ->
  dict_get k (filter p d) =
  match dict_get k d with
  | Some v => if p (k, v) then Some v else None
  | None => None
  end.
Proof.
  induction d as [|[k' v'] r IH]; simpl; intros Hnd; [reflexivity|].
  inversion Hnd as [|? ? Hnot Hnd']; subst.
  destruct (String.eqb k k') eqn:E.
  - apply String.eqb_eq in E. subst k'.
    destruct (p (k, v')) eqn:Ep; simpl.
    + now rewrite String.eqb_refl.
    + apply dict_get_None_keys. intros Hin. apply Hnot.
      eapply keys_filter_In. exact Hin.
  - destruct (p (k', v')); simpl; [rewrite E|]; now apply IH.
Qed.

Lemma as_dict_keeps_public (k : string) (v : value) :
  k <> EmptyString -> as_dict_keeps k v = Ok (is_public k v).
Proof.
  intros Hk. unfold as_dict_keeps, is_public.
  destruct (is_manager v); [reflexivity|].
  destruct k as [|c k]; [congruence|]. reflexivity.
Qed.

Lemma as_dict_items_public (d : dict) :
  ~ In EmptyString (keys d) ->
  as_dict_items d = Ok (filter (fun kv => is_public (fst kv) (snd kv)) d).
Proof.
  induction d as [|[k v] r IH]; simpl; intros Hne; [reflexivity|].
  rewrite as_dict_keeps_public by (intros ->; tauto).
  rewrite IH by tauto. simpl. now destruct (is_public k v).
Qed.

Lemma as_dict_items_eq_keeps (c : descriptor) (da fa : dict) :
  as_dict_items da = Ok fa ->
  filter (fun kv => eq_keeps c (fst kv) (snd kv)) da = eq_drop c fa.
Proof.
  revert fa. induction da as [|[k v] r IH]; simpl; intros fa H.
  - injection H as <-. unfold eq_drop. now destruct (is_User c).
  - destruct (as_dict_keeps k v) as [b| |] eqn:Ek; simpl in H; try discriminate.
    destruct (as_dict_items r) as [r'| |] eqn:Er; simpl in H; try discriminate.
    injection H as <-. specialize (IH r' eq_refl).
    unfold eq_keeps at 1. simpl. rewrite Ek.
    unfold eq_drop in *. destruct b; destruct (is_User c); simpl; auto.
    + destruct (String.eqb "password" k); simpl; now rewrite IH.
    + now rewrite IH.
Qed.

Lemma through_instance_Ok {A} (d : dict) (name : string) (m : outcome A) (x : A) :
  through_instance d name m = Ok x -> dict_get name d = None /\ m = Ok x.
Proof.
  unfold through_instance.
  destruct (dict_get name d) as [[]|]; try discriminate; auto.
Qed.

Lemma as_dict_items_outcome (d : dict) :
  match as_dict_items d with
  | Ok _ => forall v, In (EmptyString, v) d -> is_manager v = true
  | Raise e => e = IndexError /\
               exists v, In (EmptyString, v) d /\ is_manager v = false
  | Stop _ => False
  end.
Proof.
  induction d as [|[k v] r IH]; simpl; [tauto|].
  unfold as_dict_keeps. destruct (is_manager v) eqn:Em; simpl.
  - destruct (as_dict_items r) as [r'|e|l]; simpl.
    + intros v' [[= -> ->]|Hin]; auto.
    + destruct IH as (-> & v' & Hin & Hm). eauto.
    + exact IH.
  - destruct k as [|ch k]; simpl.
    + split; [reflexivity|]. eauto.
    + destruct (as_dict_items r) as [r'|e|l]; simpl.
      * intros v' [H|Hin]; [discriminate | auto].
      * destruct IH as (-> & v' & Hin & Hm). eauto.
      * exact IH.
Qed.

Lemma as_dict_items_filter (d fa : dict) :
  as_dict_items d = Ok fa ->
  fa = filter (fun kv => is_public (fst kv) (snd kv)) d.
Proof.
  revert fa. induction d as [|[k v] r IH]; simpl; intros fa H.
  - now injection H as <-.
  - destruct (as_dict_keeps k v) as [b| |] eqn:Ek; simpl in H; try discriminate.
    destruct (as_dict_items r) as [r'| |]; simpl in H; try discriminate.
    injection H as <-. rewrite (IH r' eq_refl).
    assert (Hb : b = is_public k v).
    { unfold as_dict_keeps, is_public in *. destruct (is_manager v).
      - now injection Ek as <-.
      - destruct k as [|ch k]; simpl in Ek; [discriminate|].
        now injection Ek as <-. }
    now rewrite Hb.
Qed.

Lemma answers_as_dict_Ok (d : dict) :
  answers_as_dict d ->
  through_instance d "as_dict" (as_dict_items d)
  = Ok (filter (fun kv => is_public (fst kv) (snd kv)) d).
Proof.
  intros [Hn Hm]. unfold through_instance. rewrite Hn.
  pose proof (as_dict_items_outcome d) as Ho.
  destruct (as_dict_items d) as [fa|e|l] eqn:E.
  - now rewrite (as_dict_items_filter d E).
  - destruct Ho as (_ & v & Hin & Hv). rewrite (Hm v Hin) in Hv. discriminate.
  - contradiction.
Qed.

Lemma answers_as_dict_of_Ok (d fa : dict) :
  through_instance d "as_dict" (as_dict_items d) = Ok fa ->
  answers_as_dict d /\
  as_dict_items d = Ok fa /\
  fa = filter (fun kv => is_public (fst kv) (snd kv)) d.
Proof.
  intros H. apply through_instance_Ok in H. destruct H as [Hn H].
  pose proof (as_dict_items_outcome d) as Ho. rewrite H in Ho.
  repeat split; auto. now apply as_dict_items_filter.
Qed.

Lemma filter_filter {A} (p q : A -> bool) (l : list A) :
  filter p (filter q l) = filter (fun x => q x && p x) l.
Proof.
  induction l as [|x r IH]; simpl; [reflexivity|].
  destruct (q x); simpl; [destruct (p x)|]; now rewrite IH.
Qed.

Lemma eq_drop_compared (c : descriptor) (d : dict) :
  eq_drop c (filter (fun kv => is_public (fst kv) (snd kv)) d)
  = compared_items c d.
Proof.
  unfold eq_drop, compared_items, compares. destruct (is_User c); simpl.
  - rewrite dict_del_filter, filter_filter. reflexivity.
  - apply filter_ext. intros [k v]. simpl. now rewrite andb_true_r.
Qed.

(** Comparing two instance values with [==] runs the [__eq__] of the class
    of the left one. *)
Lemma py_eq_VInst (a : instance) (other : value) :
  py_eq (VInst a) other = __eq__ a other.
Proof.
  destruct a as [ca da]. unfold VInst, __eq__, User___eq__, GitlabObject___eq__.
  simpl inst_cls. simpl inst_dict.
  destruct other; try (simpl; now destruct (is_User ca)).
  simpl py_eq. unfold as_dict. simpl inst_dict.
  assert (Hcore :
    (if same_type c ca
     then fa <- through_instance da "as_dict" (as_dict_items da) ;;
          fb <- through_instance d "as_dict" (as_dict_items d) ;;
          (if Nat.eqb (List.length (eq_drop ca fa)) (List.length (eq_drop ca fb))
           then dict_items_eq py_eq (eq_keeps ca) da (eq_drop ca fb)
           else Ok false)
     else Ok false) =
    (if same_type c ca
     then fa <- through_instance da "as_dict" (as_dict_items da) ;;
          fb <- through_instance d "as_dict" (as_dict_items d) ;;
          dict_eq (eq_drop ca fa) (eq_drop ca fb)
     else Ok false)).
  { destruct (same_type c ca); [|reflexivity].
    destruct (through_instance da "as_dict" (as_dict_items da))
      as [fa| |] eqn:Ea; simpl; try reflexivity.
    destruct (through_instance d "as_dict" (as_dict_items d))
      as [fb| |] eqn:Eb; simpl; try reflexivity.
    apply through_instance_Ok in Ea. destruct Ea as [_ Ea].
    unfold dict_eq. rewrite dict_items_eq_filter.
    now rewrite (as_dict_items_eq_keeps ca da Ea). }
  rewrite Hcore. unfold eq_drop. now destruct (is_User ca).
Qed.

Lemma dict_items_eq_true (da db : dict) :
  dict_items_eq py_eq keep_all da db = Ok true <->
  forall k v, In (k, v) da ->
              exists w, dict_get k db = Some w /\ py_eq v w = Ok true.
Proof.
  induction da as [|[k v] r IH]; simpl.
  - split; [intros _ k v [] | reflexivity].
  - destruct (dict_get k db) as [w|] eqn:Eg.
    + destruct (py_eq v w) as [[|]| |] eqn:Ee; simpl.
      * rewrite IH. split.
        -- intros H k' v' [[= <- <-]|Hin]; eauto.
        -- intros H k' v' Hin. apply H. now right.
      * split; [discriminate|]. intros H.
        destruct (H k v (or_introl eq_refl)) as (w' & Hw & Hq). congruence.
      * split; [discriminate|]. intros H.
        destruct (H k v (or_introl eq_refl)) as (w' & Hw & Hq). congruence.
      * split; [discriminate|]. intros H.
        destruct (H k v (or_introl eq_refl)) as (w' & Hw & Hq). congruence.
    + split; [discriminate|]. intros H.
      destruct (H k v (or_introl eq_refl)) as (w' & Hw & Hq). congruence.
Qed.

Lemma list_items_eq_true (la lb : list value) :
  list_items_eq py_eq la lb = Ok true <->
  Forall2 (fun x y => py_eq x y = Ok true) la lb.
Proof.
  revert lb. induction la as [|x xs IH]; intros [|y ys]; simpl.
  - split; [constructor | reflexivity].
  - split; [discriminate | intros H; inversion H].
  - split; [discriminate | intros H; inversion H].
  - destruct (py_eq x y) as [[|]| |] eqn:E; simpl.
    + rewrite IH. split.
      * intros H. now constructor.
      * intros H. now inversion H.
    + split; [discriminate|]. intros H. inversion H. congruence.
    + split; [discriminate|]. intros H. inversion H. congruence.
    + split; [discriminate|]. intros H. inversion H. congruence.
Qed.

(** Two dictionaries with as many entries, each entry of the first found
    in the second with a related value, denote related mappings, and
    conversely. *)
Lemma mapping_pointwise (R : value -> value -> Prop) (da db : dict) :
  NoDup (keys da) -> NoDup (keys db) ->
  (List.length da = List.length db /\
   (forall k v, In (k, v) da -> exists w, dict_get k db = Some w /\ R v w)) <->
  (forall k, match dict_get k da, dict_get k db with
             | None, None => True
             | Some v, Some w => R v w
             | _, _ => False
             end).
Proof.
  intros Hna Hnb. split.
  - intros [El H] k.
    assert (Hincl : incl (keys da) (keys db)).
    { intros k' Hin. apply dict_get_In_keys in Hin.
      destruct (dict_get k' da) as [v'|] eqn:E; [|congruence].
      apply dict_get_Some_In in E. destruct (H _ _ E) as (w & Hw & _).
      apply dict_get_In_keys. congruence. }
    destruct (dict_get k da) as [v|] eqn:Ea.
    + apply dict_get_Some_In in Ea. destruct (H _ _ Ea) as (w & -> & Hq).
      exact Hq.
    + destruct (dict_get k db) as [w|] eqn:Eb; simpl; [|exact I].
      apply dict_get_None_keys in Ea. apply Ea.
      apply (@NoDup_length_incl _ (keys da) (keys db) Hna); [|exact Hincl|].
      * unfold keys. rewrite !length_map. lia.
      * apply dict_get_In_keys. congruence.
  - intros H.
    assert (Hab : incl (keys da) (keys db)).
    { intros k Hin. apply dict_get_In_keys in Hin. specialize (H k).
      apply dict_get_In_keys. destruct (dict_get k da); [|congruence].
      destruct (dict_get k db); [congruence | contradiction]. }
    assert (Hba : incl (keys db) (keys da)).
    { intros k Hin. apply dict_get_In_keys in Hin. specialize (H k).
      apply dict_get_In_keys. destruct (dict_get k db); [|congruence].
      destruct (dict_get k da); [congruence | contradiction]. }
    split.
    + pose proof (NoDup_incl_length Hna Hab) as H1.
      pose proof (NoDup_incl_length Hnb Hba) as H2.
      unfold keys in H1, H2. rewrite !length_map in H1, H2. lia.
    + intros k v Hin. apply (NoDup_keys_get _ _ _ Hna) in Hin.
      specialize (H k). rewrite Hin in H.
      destruct (dict_get k db) as [w|]; [eauto | contradiction].
Qed.

Lemma same_type_is_User (c1 c2 : descriptor) :
  same_type c1 c2 = true -> is_User c1 = is_User c2.
Proof.
  unfold same_type, is_User. intros H. apply String.eqb_eq in H. now rewrite H.
Qed.

Lemma dict_get_compared_items (d : dict) (c : descriptor) (k : string) :
  NoDup (keys d) ->
  dict_get k (compared_items c d) = compared_attribute (Instance c d) k.
Proof.
  intros Hnd. unfold compared_items, compared_attribute, public_attribute, compares.
  rewrite dict_get_filter by exact Hnd. simpl.
  destruct (dict_get k d) as [v|];
    destruct (is_User c && String.eqb "password" k); simpl; auto.
  - now rewrite andb_false_r.
  - now rewrite andb_true_r.
Qed.

(** Induction on values, through the lists and dictionaries they hold. *)
Lemma value_nested_ind (P : value -> Prop) :
  P VNone -> (forall b, P (VBool b)) -> (forall n, P (VInt n)) ->
  (forall s, P (VStr s)) ->
  (forall l, Forall P l -> P (VList l)) ->
  (forall d, Forall (fun kv => P (snd kv)) d -> P (VDict d)) ->
  (forall c d, Forall (fun kv => P (snd kv)) d -> P (VObj c d)) ->
  (forall m gl args, P gl -> P (VManager m gl args)) ->
  P VGitlab -> (forall tag, P (VOpaque tag)) ->
  forall v, P v.
Proof.
  intros Hnone Hbool Hint Hstr Hlist Hdict Hobj Hmgr Hgl Hop.
  exact (fix go (v : value) : P v :=
           match v with
           | VNone => Hnone
           | VBool b => Hbool b
           | VInt n => Hint n
           | VStr s => Hstr s
           | VList l =>
               Hlist l ((fix items (l : list value) : Forall P l :=
                           match l with
                           | [] => Forall_nil _
                           | x :: r => Forall_cons x (go x) (items r)
                           end) l)
           | VDict d =>
               Hdict d ((fix items (d : list (string * value))
                           : Forall (fun kv => P (snd kv)) d :=
                           match d with
                           | [] => Forall_nil _
                           | (k, x) :: r =>
                               Forall_cons (k, x) (go x) (items r)
                           end) d)
           | VObj c d =>
               Hobj c d ((fix items (d : list (string * value))
                            : Forall (fun kv => P (snd kv)) d :=
                            match d with
                            | [] => Forall_nil _
                            | (k, x) :: r =>
                                Forall_cons (k, x) (go x) (items r)
                            end) d)
           | VManager m gl args => Hmgr m gl args (go gl)
           | VGitlab => Hgl
           | VOpaque tag => Hop tag
           end).
Qed.

Lemma Forall2_length_eq {A B} (R : A -> B -> Prop) (la : list A) (lb : list B) :
  Forall2 R la lb -> List.length la = List.length lb.
Proof. induction 1; simpl; congruence. Qed.

Lemma Forall2_impl_left {A B} (R S : A -> B -> Prop) (la : list A) (lb : list B) :
  Forall (fun x => forall y, R x y -> S x y) la ->
  Forall2 R la lb -> Forall2 S la lb.
Proof.
  intros Hall H. induction H as [|x y xs ys Hxy _ IH]; [constructor|].
  inversion Hall; subst. constructor; auto.
Qed.

Lemma Forall_snd_In (P : value -> Prop) (d : dict) (k : string) (v : value) :
  Forall (fun kv => P (snd kv)) d -> In (k, v) d -> P v.
Proof.
  intros H Hin. rewrite Forall_forall in H. exact (H (k, v) Hin).
Qed.

(** [==] answers true exactly on equal values. *)
Lemma py_eq_equal_values (a : value) :
  forall b, py_eq a b = Ok true <-> equal_values a b.
Proof.
  induction a as [| x | n | s | la IH | da IH | ca da IH | m gl args _ | | tag]
    using value_nested_ind; intros b.
  - destruct b; simpl; split; intros H; try discriminate; try constructor;
      inversion H.
  - destruct b as [| y | n | | | | | | |]; simpl; split; intros H;
      try discriminate; try (now inversion H).
    + injection H as H. apply Bool.eqb_prop in H. subst. constructor.
    + inversion H; subst. now rewrite Bool.eqb_reflx.
    + injection H as H. apply Z.eqb_eq in H. subst. constructor.
    + inversion H; subst. now rewrite Z.eqb_refl.
  - destruct b as [| y | m | | | | | | |]; simpl; split; intros H;
      try discriminate; try (now inversion H).
    + injection H as H. apply Z.eqb_eq in H. subst. constructor.
    + inversion H; subst. now rewrite Z.eqb_refl.
    + injection H as H. apply Z.eqb_eq in H. subst. constructor.
    + inversion H; subst. now rewrite Z.eqb_refl.
  - destruct b as [| | | t | | | | | |]; simpl; split; intros H;
      try discriminate; try (now inversion H).
    + injection H as H. apply String.eqb_eq in H. subst. constructor.
    + inversion H; subst. now rewrite String.eqb_refl.
  - destruct b as [| | | | lb | | | | |];
      try (simpl; split; intros H; [discriminate | now inversion H]).
    simpl py_eq. split.
    + destruct (Nat.eqb (List.length la) (List.length lb)); [|discriminate].
      intros H. apply list_items_eq_true in H. constructor.
      apply (@Forall2_impl_left _ _ (fun x y => py_eq x y = Ok true)
               equal_values la lb); [|exact H].
      eapply Forall_impl; [|exact IH]. intros x Hx y. apply Hx.
    + intros H. inversion H as [| | | | | | ? ? Hall | | | |]; subst.
      rewrite (Forall2_length_eq Hall), Nat.eqb_refl.
      apply list_items_eq_true.
      apply (@Forall2_impl_left _ _ equal_values
               (fun x y => py_eq x y = Ok true) la lb); [|exact Hall].
      eapply Forall_impl; [|exact IH]. intros x Hx y. apply Hx.
  - destruct b as [| | | | | db | | | |];
      try (simpl; split; intros H; [discriminate | now inversion H]).
    simpl py_eq. split.
    + destruct (Nat.eqb (List.length da) (List.length db)) eqn:El;
        [|discriminate].
      apply Nat.eqb_eq in El. intros H. rewrite dict_items_eq_true in H.
      constructor; [exact El|]. intros k v Hin.
      destruct (H k v Hin) as (w & Hw & Hq). exists w. split; [exact Hw|].
      now apply (@Forall_snd_In (fun x => forall b, py_eq x b = Ok true <-> equal_values x b)
                   _ _ _ IH Hin).
    + intros H. inversion H as [| | | | | | | ? ? El Hall | | |]; subst.
      rewrite El, Nat.eqb_refl. apply dict_items_eq_true. intros k v Hin.
      destruct (Hall k v Hin) as (w & Hw & Hq). exists w. split; [exact Hw|].
      now apply (@Forall_snd_In (fun x => forall b, py_eq x b = Ok true <-> equal_values x b)
                   _ _ _ IH Hin).
  - destruct b as [| | | | | | cb db | | |];
      try (simpl; split; intros H; [discriminate | now inversion H]).
    simpl py_eq.
    assert (Hsub : forall k v, In (k, v) (compared_items ca da) -> In (k, v) da).
    { intros k v Hin. unfold compared_items in Hin.
      now apply filter_In in Hin. }
    split.
    + destruct (same_type cb ca) eqn:Ety; [|discriminate].
      destruct (through_instance da "as_dict" (as_dict_items da))
        as [fa| |] eqn:Ea; simpl; try discriminate.
      destruct (through_instance db "as_dict" (as_dict_items db))
        as [fb| |] eqn:Eb; simpl; try discriminate.
      apply answers_as_dict_of_Ok in Ea, Eb.
      destruct Ea as (Haa & Eia & ->), Eb as (Hab & Eib & ->).
      rewrite !eq_drop_compared.
      destruct (Nat.eqb (List.length (compared_items ca da))
                        (List.length (compared_items ca db))) eqn:El;
        [|discriminate].
      apply Nat.eqb_eq in El. rewrite dict_items_eq_filter.
      rewrite (as_dict_items_eq_keeps ca da Eia), eq_drop_compared.
      rewrite dict_items_eq_true. intros H.
      constructor; auto. intros k v Hin.
      destruct (H k v Hin) as (w & Hw & Hq). exists w. split; [exact Hw|].
      now apply (@Forall_snd_In (fun x => forall b, py_eq x b = Ok true <-> equal_values x b)
                   _ _ _ IH (Hsub _ _ Hin)).
    + intros H.
      inversion H as [| | | | | | | | ? ? ? ? Ety Haa Hab El Hall | |]; subst.
      rewrite Ety, (answers_as_dict_Ok Haa), (answers_as_dict_Ok Hab).
      simpl bind. rewrite !eq_drop_compared, El, Nat.eqb_refl.
      rewrite dict_items_eq_filter.
      assert (Eia : as_dict_items da
                    = Ok (filter (fun kv => is_public (fst kv) (snd kv)) da)).
      { pose proof (answers_as_dict_Ok Haa) as E.
        apply through_instance_Ok in E. tauto. }
      rewrite (as_dict_items_eq_keeps ca da Eia), eq_drop_compared.
      apply dict_items_eq_true. intros k v Hin.
      destruct (Hall k v Hin) as (w & Hw & Hq). exists w. split; [exact Hw|].
      now apply (@Forall_snd_In (fun x => forall b, py_eq x b = Ok true <-> equal_values x b)
                   _ _ _ IH (Hsub _ _ Hin)).
  - simpl. split; intros H; [discriminate | inversion H].
  - destruct b; simpl; split; intros H; try discriminate; try constructor;
      inversion H.
  - destruct b as [| | | | | | | | | t]; simpl; split; intros H;
      try discriminate; try (now inversion H).
    + injection H as H. apply String.eqb_eq in H. subst. constructor.
    + inversion H; subst. now rewrite String.eqb_refl.
Qed.

Ltac solve_NoDup :=
  repeat (constructor; [simpl; intuition discriminate|]); constructor.



(** The two users of the example are equal although one has a password. *)
Example user_eq_ignores_password :
  __eq__ user_fetched (VInst user_local) = Ok true /\
  __ne__ user_fetched (VInst user_local) = Ok false.
Proof. split; reflexivity. Qed.


(** ** Managers and the class-level operations *)

Example local_issue_constructed :
  __init__ offline 1 ProjectIssue VGitlab local_issue_data [] empty_world
  = (Ok local_issue, empty_world).
Proof. reflexivity. Qed.

Lemma set_parent_args_world (self : manager) (kwargs : dict) (w : world) :
  snd (_set_parent_args self kwargs w) = w.
Proof.
  unfold _set_parent_args. destruct (mgr_parent self) as [p|]; [|reflexivity].
  unfold bindM, deref. destruct (nth_error (heap w) p); reflexivity.
Qed.

Lemma class_list_not_implemented (net : connection) (c : descriptor) (gl : value)
    (kwargs : dict) (w : world) :
  canList c = false \/ url_defined c = false ->
  GitlabObject_list net c gl kwargs w = (Raise NotImplementedError, w).
Proof.
  unfold GitlabObject_list. intros [H|H]; rewrite H; simpl.
  - reflexivity.
  - now destruct (canList c).
Qed.

(** C7 (amended).  For a resource type whose [canList] is false or whose
    URL template is undefined, the class-level [list] raises
    [NotImplementedError] and leaves the world, hence the trace of network
    calls, as it was.  Through a manager the world is left as it was too,
    and [NotImplementedError] is what is raised whenever the arguments
    derived from the parent have been resolved. *)
Theorem list_disallowed (net : connection) (c : descriptor) :
  canList c = false \/ url_defined c = false ->
  (forall gl kwargs w,
     GitlabObject_list net c gl kwargs w = (Raise NotImplementedError, w)) /\
  (forall self kwargs w,
     obj_cls (mgr_class self) = Some c ->
     snd (BaseManager_list net self kwargs w) = w /\
     (forall args, fst (_set_parent_args self kwargs w) = Ok args ->
        fst (BaseManager_list net self kwargs w) = Raise NotImplementedError)).
Proof.
  intros Hc. split.
  - intros gl kwargs w. now apply class_list_not_implemented.
  - intros self kwargs w Hobj. unfold BaseManager_list, bindM.
    pose proof (set_parent_args_world self kwargs w) as Hw.
    destruct (_set_parent_args self kwargs w) as [[args|e|l] w']; simpl in Hw;
      subst w'; simpl.
    + unfold manager_obj_cls. rewrite Hobj. simpl.
      pose proof (@class_list_not_implemented net c (mgr_gitlab self) args w Hc) as Hl.
      destruct (canList c); simpl.
      * rewrite Hl. split; reflexivity.
      * split; reflexivity.
    + split; [reflexivity | discriminate].
    + split; [reflexivity | discriminate].
Qed.

Lemma list_disallowed_witness :
  (forall gl kwargs w,
     GitlabObject_list offline ProjectFile gl kwargs w
     = (Raise NotImplementedError, w)) /\
  (forall self kwargs w,
     obj_cls (mgr_class self) = Some ProjectFile ->
     snd (BaseManager_list offline self kwargs w) = w /\
     (forall args, fst (_set_parent_args self kwargs w) = Ok args ->
        fst (BaseManager_list offline self kwargs w) = Raise NotImplementedError)).
Proof.
  apply (list_disallowed offline ProjectFile). left. reflexivity.
Defined.

(** C7 as stated fails through a manager: listing is disallowed for
    [ProjectFile], yet a manager whose parent has no [project_id] raises
    [AttributeError], the parent arguments being resolved first. *)
Lemma list_through_manager_counterexample :
  canList ProjectFile = false /\
  BaseManager_list offline files_of_issue [] (World [local_issue] [])
  = (Raise AttributeError, World [local_issue] []).
Proof. split; reflexivity. Qed.

Example local_note_constructed :
  __init__ offline 1 ProjectNote VGitlab (VDict [("body", VStr "hi")]) []
    empty_world
  = (Ok local_note, empty_world).
Proof. reflexivity. Qed.

(** C6 (amended).  For an instance whose origin flag marks it as local,
    the instance-level [delete] raises before any network call and leaves
    the world, the instance included, as it was: [GitlabDeleteError] when
    the resource type permits deletion, [NotImplementedError] when it does
    not, this permission being checked first. *)
Theorem delete_local (net : connection) (self : nat) (kwargs : dict) (w : world)
    (o : instance) (from_api : value) :
  nth_error (heap w) self = Some o ->
  getattr o "_from_api" = Some from_api ->
  truthy from_api = false ->
  GitlabObject_delete net self kwargs w =
  (Raise (if flag o "canDelete" (canDelete (inst_cls o))
          then GitlabError GitlabDeleteError "Object not yet created"
          else NotImplementedError), w).
Proof.
  intros Ho Hf Ht. unfold GitlabObject_delete, bindM, deref. rewrite Ho.
  destruct (flag o "canDelete" (canDelete (inst_cls o))); simpl; [|reflexivity].
  unfold attr. rewrite Hf. simpl. rewrite Ht. reflexivity.
Qed.

Lemma delete_local_witness :
  GitlabObject_delete offline 0 [] (World [local_issue] []) =
  (Raise (GitlabError GitlabDeleteError "Object not yet created"),
   World [local_issue] []).
Proof.
  exact (@delete_local offline 0 [] (World [local_issue] []) local_issue
           (VBool false) eq_refl eq_refl eq_refl).
Defined.

(** C6 as stated fails for a resource type that forbids deletion: the
    local note raises [NotImplementedError], not a delete error. *)
Lemma delete_local_counterexample :
  getattr local_note "_from_api" = Some (VBool false) /\
  GitlabObject_delete offline 0 [] (World [local_note] []) =
  (Raise NotImplementedError, World [local_note] []).
Proof. split; reflexivity. Qed.

Lemma id_matches_listed (py_repr : value -> string) (c : descriptor)
    (id : value) (obj : instance) :
  listed_as c obj ->
  id_matches py_repr id obj =
  match getattr obj (idAttr c) with
  | Some v => Ok (String.eqb (py_str py_repr v) (py_str py_repr id))
  | None => Raise AttributeError
  end.
Proof.
  intros [Hc Hn]. unfold id_matches, id_attr_of. rewrite Hn, Hc. reflexivity.
Qed.

Lemma scan_passes (py_repr : value -> string) (c : descriptor) (id : value)
    (before rest : list instance) :
  Forall (listed_as c) before ->
  Forall (identifier_differs py_repr c id) before ->
  scan py_repr id (before ++ rest) = scan py_repr id rest.
Proof.
  induction before as [|o r IH]; simpl; intros Hl Hd; [reflexivity|].
  inversion Hl as [|? ? Hlo Hlr]; inversion Hd as [|? ? (v & Hv & Hne) Hdr]; subst.
  rewrite (id_matches_listed py_repr id Hlo), Hv. simpl.
  apply String.eqb_neq in Hne. rewrite Hne. now apply IH.
Qed.

(** What the scan has gone through when it ends. *)
Lemma scan_outcome (py_repr : value -> string) (c : descriptor) (id : value)
    (objs : list instance) :
  Forall (listed_as c) objs ->
  match scan py_repr id objs with
  | Ok obj =>
      exists before after,
        objs = before ++ obj :: after /\
        identifier_is py_repr c id obj /\
        Forall (identifier_differs py_repr c id) before
  | Raise e =>
      (e = GitlabError GitlabGetError "Object not found" /\
       Forall (identifier_differs py_repr c id) objs) \/
      (e = AttributeError /\
       exists before obj after,
         objs = before ++ obj :: after /\
         getattr obj (idAttr c) = None /\
         Forall (identifier_differs py_repr c id) before)
  | Stop _ => False
  end.
Proof.
  induction 1 as [|o rest Hlo _ IH]; simpl; [left; split; [reflexivity|constructor]|].
  rewrite (id_matches_listed py_repr id Hlo).
  destruct (getattr o (idAttr c)) as [v|] eqn:Ev; simpl.
  - destruct (String.eqb (py_str py_repr v) (py_str py_repr id)) eqn:Es.
    + apply String.eqb_eq in Es. exists [], rest.
      split; [reflexivity|]. split; [now exists v | constructor].
    + apply String.eqb_neq in Es.
      assert (Hd : identifier_differs py_repr c id o) by now exists v.
      destruct (scan py_repr id rest) as [obj|e|l]; [| |exact IH].
      * destruct IH as (before & after & -> & Hm & Hb).
        exists (o :: before), after. repeat split; auto.
      * destruct IH as [[-> Hall]|(-> & before & obj & after & -> & Hn & Hb)].
        -- left. split; [reflexivity|]. now constructor.
        -- right. split; [reflexivity|].
           exists (o :: before), obj, after. repeat split; auto.
  - right. split; [reflexivity|]. exists [], o, rest.
    repeat split; auto.
Qed.

(** C1 (amended).  For a resource type whose [canGet] is ['from_list'],
    the class-level [get] fetches the whole list and, when that call
    succeeds, goes through the listed objects in order, comparing the
    string of the attribute the type declares as identifier with the
    string of the requested id.  It returns the first listed object for
    which the two strings are equal, provided the objects listed before it
    have their identifier attribute; it raises the get error "Object not
    found" when every listed object has its identifier attribute and none
    equals the id; and it raises [AttributeError] on reaching a listed
    object that has no identifier attribute. *)
Theorem get_from_list (net : connection) (py_repr : value -> string)
    (fuel : nat) (c : descriptor) (gl id : value) (kwargs : dict)
    (w w' : world) (objs : list instance) :
  canGet c = CanGetFromList ->
  GitlabObject_list net c gl kwargs w = (Ok objs, w') ->
  Forall (listed_as c) objs ->
  (forall before obj after,
     objs = before ++ obj :: after ->
     Forall (identifier_differs py_repr c id) before ->
     (identifier_is py_repr c id obj ->
      GitlabObject_get net py_repr fuel c gl id kwargs w = (Ok obj, w')) /\
     (getattr obj (idAttr c) = None ->
      GitlabObject_get net py_repr fuel c gl id kwargs w
      = (Raise AttributeError, w'))) /\
  (Forall (identifier_differs py_repr c id) objs ->
   GitlabObject_get net py_repr fuel c gl id kwargs w
   = (Raise (GitlabError GitlabGetError "Object not found"), w')).
Proof.
  intros Hc Hl Hall.
  assert (Hget : GitlabObject_get net py_repr fuel c gl id kwargs w
                 = (scan py_repr id objs, w')).
  { unfold GitlabObject_get. rewrite Hc. unfold bindM. rewrite Hl. reflexivity. }
  rewrite Hget. split.
  - intros before obj after -> Hb.
    apply Forall_app in Hall. destruct Hall as [Hlb Hla].
    inversion Hla as [|? ? Hlo _]; subst.
    rewrite (@scan_passes py_repr c id before (obj :: after) Hlb Hb). simpl.
    rewrite (id_matches_listed py_repr id Hlo). split.
    + intros (v & Hv & Hs). rewrite Hv. simpl.
      apply String.eqb_eq in Hs. now rewrite Hs.
    + intros Hn. now rewrite Hn.
  - intros Hd. rewrite <- (app_nil_r objs).
    now rewrite (@scan_passes py_repr c id objs [] Hall Hd).
Qed.

Lemma get_from_list_witness :
  GitlabObject_get labels_server example_repr 0 ProjectLabel VGitlab
    (VStr "doc") [("project_id", VInt 1)] empty_world =
  (Ok label_doc, World [] [Req_list ProjectLabel [("project_id", VInt 1)]])
  /\
  GitlabObject_get labels_server example_repr 0 ProjectLabel VGitlab
    (VStr "wontfix") [("project_id", VInt 1)] empty_world =
  (Raise (GitlabError GitlabGetError "Object not found"),
   World [] [Req_list ProjectLabel [("project_id", VInt 1)]])
  /\
  GitlabObject_get user_keys_server example_repr 0 UserKey VGitlab
    (VStr "7") [("user_id", VInt 1)] empty_world =
  (Ok key_seven, World [] [Req_list UserKey [("user_id", VInt 1)]])
  /\
  GitlabObject_get unnamed_server example_repr 0 ProjectLabel VGitlab
    (VStr "doc") [("project_id", VInt 1)] empty_world =
  (Raise AttributeError,
   World [] [Req_list ProjectLabel [("project_id", VInt 1)]]).
Proof.
  assert (Hlabels : Forall (listed_as ProjectLabel) [label_bug; label_doc])
    by (repeat constructor).
  assert (Hkeys : Forall (listed_as UserKey) [key_eight; key_seven])
    by (repeat constructor).
  assert (Hunnamed : Forall (listed_as ProjectLabel) [label_unnamed; label_doc])
    by (repeat constructor).
  assert (Hbug : forall id, VStr "bug" <> id -> py_str example_repr id <> "bug" ->
            identifier_differs example_repr ProjectLabel id label_bug).
  { intros id _ Hne. exists (VStr "bug"). split; [reflexivity|].
    simpl. congruence. }
  split; [|split; [|split]].
  - apply (proj1 (@get_from_list labels_server example_repr 0 ProjectLabel
                    VGitlab (VStr "doc") [("project_id", VInt 1)] empty_world
                    _ _ eq_refl eq_refl Hlabels) [label_bug] label_doc []
             eq_refl).
    + constructor; [|constructor]. apply Hbug; discriminate.
    + exists (VStr "doc"). split; reflexivity.
  - apply (proj2 (@get_from_list labels_server example_repr 0 ProjectLabel
                    VGitlab (VStr "wontfix") [("project_id", VInt 1)]
                    empty_world _ _ eq_refl eq_refl Hlabels)).
    constructor; [apply Hbug; discriminate|]. constructor; [|constructor].
    exists (VStr "doc"). split; [reflexivity | discriminate].
  - apply (proj1 (@get_from_list user_keys_server example_repr 0 UserKey
                    VGitlab (VStr "7") [("user_id", VInt 1)] empty_world
                    _ _ eq_refl eq_refl Hkeys) [key_eight] key_seven []
             eq_refl).
    + constructor; [|constructor].
      exists (VInt 8). split; [reflexivity | discriminate].
    + exists (VInt 7). split; reflexivity.
  - apply (proj1 (@get_from_list unnamed_server example_repr 0 ProjectLabel
                    VGitlab (VStr "doc") [("project_id", VInt 1)] empty_world
                    _ _ eq_refl eq_refl Hunnamed) [] label_unnamed [label_doc]
             eq_refl); [constructor | reflexivity].
Defined.

(** C1 as stated fails when a listed object came without its identifier
    attribute: a label without [name] is listed before the label [doc];
    [doc] is the first, and only, listed object whose identifier has the
    string asked for, yet [get] raises [AttributeError]; and for an id
    that no listed object has, it raises [AttributeError] too, not the
    get error. *)
Lemma unnamed_label_counterexample :
  canGet ProjectLabel = CanGetFromList /\
  GitlabObject_list unnamed_server ProjectLabel VGitlab
    [("project_id", VInt 1)] empty_world
  = (Ok [label_unnamed; label_doc],
     World [] [Req_list ProjectLabel [("project_id", VInt 1)]]) /\
  hasattr label_unnamed (idAttr ProjectLabel) = false /\
  getattr label_doc (idAttr ProjectLabel) = Some (VStr "doc") /\
  GitlabObject_get unnamed_server example_repr 0 ProjectLabel VGitlab
    (VStr "doc") [("project_id", VInt 1)] empty_world
  = (Raise AttributeError,
     World [] [Req_list ProjectLabel [("project_id", VInt 1)]]) /\
  GitlabObject_get unnamed_server example_repr 0 ProjectLabel VGitlab
    (VStr "wontfix") [("project_id", VInt 1)] empty_world
  = (Raise AttributeError,
     World [] [Req_list ProjectLabel [("project_id", VInt 1)]]).
Proof. repeat split. Qed.

Lemma parent_args_loop_spec (parent : instance) (links : list (string * string)) :
  forall args,
    (forall attr parent_attr, In (attr, parent_attr) links ->
                              getattr parent parent_attr <> None) ->
    exists args',
      parent_args_loop parent links args = Ok args' /\
      forall k, dict_get k args' =
                match dict_get k args with
                | Some v => Some v
                | None => match dict_get k links with
                          | Some parent_attr => getattr parent parent_attr
                          | None => None
                          end
                end.
Proof.
  induction links as [|[attr parent_attr] rest IH]; simpl; intros args Hall.
  - exists args. split; [reflexivity|]. intros k. now destruct (dict_get k args).
  - destruct (getattr parent parent_attr) as [v|] eqn:Eg.
    2:{ exfalso. apply (Hall attr parent_attr); auto. }
    destruct (IH (dict_setdefault attr v args)) as (args' & Hloop & Hget).
    { intros a pa Hin. apply (Hall a pa). now right. }
    exists args'. split; [exact Hloop|]. intros k. rewrite Hget.
    destruct (String.eqb k attr) eqn:E.
    + apply String.eqb_eq in E. subst k.
      destruct (dict_get attr args) as [x|] eqn:Ea.
      * now rewrite (dict_get_setdefault_old _ _ v _ Ea).
      * now rewrite dict_get_setdefault_new.
    + apply String.eqb_neq in E. now rewrite dict_get_setdefault_ne.
Qed.

(** C5.  A manager with a parent resolves the parent-derived parameters
    when a call is made, from the attribute values the parent holds in the
    world of the call: a parameter supplied by the caller is kept, any
    other linked parameter is the current value of the parent attribute it
    is linked to; and each of [get], [list], [create] and [delete] passes
    the parameters so resolved to the operation it forwards to. *)
Theorem parent_args_resolved_at_call (net : connection)
    (py_repr : value -> string) (self : manager) (p : nat) (parent : instance)
    (kwargs : dict) (w : world) :
  mgr_parent self = Some p ->
  nth_error (heap w) p = Some parent ->
  (forall attr parent_attr, In (attr, parent_attr) (mgr_args self) ->
                            getattr parent parent_attr <> None) ->
  exists args,
    _set_parent_args self kwargs w = (Ok args, w) /\
    (forall k v, dict_get k kwargs = Some v -> dict_get k args = Some v) /\
    (forall k, dict_get k kwargs = None ->
               dict_get k args =
               match dict_get k (mgr_args self) with
               | Some parent_attr => getattr parent parent_attr
               | None => None
               end) /\
    (forall c, obj_cls (mgr_class self) = Some c ->
       (forall fuel id,
          BaseManager_get net py_repr fuel self id kwargs w =
          match canGet c with
          | CanGetFalse => (Raise NotImplementedError, w)
          | _ => GitlabObject_get net py_repr fuel c (mgr_gitlab self) id args w
          end) /\
       BaseManager_list net self kwargs w =
       (if canList c then GitlabObject_list net c (mgr_gitlab self) args w
        else (Raise NotImplementedError, w)) /\
       (forall fuel data,
          BaseManager_create net fuel self data kwargs w =
          if canCreate c
          then GitlabObject_create net fuel c (mgr_gitlab self) data args w
          else (Raise NotImplementedError, w)) /\
       (forall id,
          BaseManager_delete net self id kwargs w =
          if canDelete c
          then bindM (on_connection (mgr_gitlab self)
                        (send (reply_data net)
                           (Req_delete (DeleteClass c) (Some id) args)))
                     (fun _ => ret tt) w
          else (Raise NotImplementedError, w))).
Proof.
  intros Hp Hparent Hall.
  destruct (@parent_args_loop_spec parent (mgr_args self) kwargs Hall)
    as (args & Hloop & Hget).
  assert (Hset : _set_parent_args self kwargs w = (Ok args, w)).
  { unfold _set_parent_args, bindM, deref, lift. now rewrite Hp, Hparent, Hloop. }
  exists args. split; [exact Hset|]. split; [|split].
  - intros k v Hk. now rewrite Hget, Hk.
  - intros k Hk. now rewrite Hget, Hk.
  - intros c Hc.
    assert (Hcls : manager_obj_cls self w = (Ok c, w)).
    { unfold manager_obj_cls. now rewrite Hc. }
    repeat split.
    + intros fuel id. unfold BaseManager_get, bindM. rewrite Hset, Hcls.
      now destruct (canGet c).
    + unfold BaseManager_list, bindM. rewrite Hset, Hcls. now destruct (canList c).
    + intros fuel data. unfold BaseManager_create, bindM. rewrite Hset, Hcls.
      now destruct (canCreate c).
    + intros id. unfold BaseManager_delete, bindM. rewrite Hset, Hcls.
      now destruct (canDelete c).
Qed.

Lemma parent_args_resolved_at_call_witness :
  exists args,
    _set_parent_args branches_of_project [("per_page", VInt 5)] renumbered_world
    = (Ok args, renumbered_world) /\
    dict_get "per_page" args = Some (VInt 5) /\
    dict_get "project_id" args = Some (VInt 2) /\
    BaseManager_list no_branches branches_of_project [("per_page", VInt 5)]
      renumbered_world
    = GitlabObject_list no_branches ProjectBranch VGitlab args renumbered_world.
Proof.
  destruct (@parent_args_resolved_at_call no_branches example_repr
              branches_of_project 0 (setattr project_one "id" (VInt 2))
              [("per_page", VInt 5)] renumbered_world eq_refl eq_refl)
    as (args & Hset & Hkept & Hparent & Hcalls).
  - intros attr parent_attr [[= <- <-]|[]]. discriminate.
  - exists args. split; [exact Hset|]. split; [|split].
    + now apply Hkept.
    + now rewrite Hparent.
    + destruct (Hcalls ProjectBranch eq_refl) as (_ & Hlist & _). exact Hlist.
Defined.

(** The manager of the example is the one found under [branches] on the
    project at address 0. *)
Example branches_manager_of_project :
  manager_of 0 "branches" (World [project_one] [])
  = (Ok branches_of_project, World [project_one] []).
Proof. reflexivity. Qed.

(** The value injected follows the parent: the same manager lists with
    [project_id = 1] before the parent is renumbered and with
    [project_id = 2] after, while a [project_id] given by the caller is
    passed as given. *)
Example parent_mutation_is_seen :
  snd (BaseManager_list no_branches branches_of_project [] (World [project_one] []))
  = World [project_one] [Req_list ProjectBranch [("project_id", VInt 1)]] /\
  snd (BaseManager_list no_branches branches_of_project [] renumbered_world)
  = World [setattr project_one "id" (VInt 2)]
          [Req_list ProjectBranch [("project_id", VInt 2)]] /\
  snd (BaseManager_list no_branches branches_of_project
         [("project_id", VInt 9)] renumbered_world)
  = World [setattr project_one "id" (VInt 2)]
          [Req_list ProjectBranch [("project_id", VInt 9)]].
Proof. repeat split. Qed.

(** ** The constructor *)

Lemma bindM_Ok {A B} (m : M A) (f : A -> M B) (w w' : world) (b : B) :
  bindM m f w = (Ok b, w') ->
  exists a w1, m w = (Ok a, w1) /\ f a w1 = (Ok b, w').
Proof.
  unfold bindM. destruct (m w) as [[a|e|l] w1]; intros H; try discriminate.
  eauto.
Qed.

Lemma keeps_heap_ret {A} (a : A) : keeps_heap (ret a).
Proof. intros w. reflexivity. Qed.

Lemma keeps_heap_raise {A} (e : exn) : keeps_heap (@raise A e).
Proof. intros w. reflexivity. Qed.

Lemma keeps_heap_stop {A} (l : limit) : keeps_heap (@stop A l).
Proof. intros w. reflexivity. Qed.

Lemma keeps_heap_lift {A} (o : outcome A) : keeps_heap (lift o).
Proof. intros w. reflexivity. Qed.

Lemma keeps_heap_bindM {A B} (m : M A) (f : A -> M B) :
  keeps_heap m -> (forall a, keeps_heap (f a)) -> keeps_heap (bindM m f).
Proof.
  intros Hm Hf w. unfold bindM. specialize (Hm w).
  destruct (m w) as [[a|e|l] w1]; simpl in *; try exact Hm.
  now rewrite Hf.
Qed.

Lemma keeps_heap_send {A} (answer : list request -> request -> outcome A)
    (req : request) : keeps_heap (send answer req).
Proof. intros w. reflexivity. Qed.

Lemma keeps_heap_on_connection {A} (gl : value) (m : M A) :
  keeps_heap m -> keeps_heap (on_connection gl m).
Proof.
  intros Hm. destruct gl; simpl; auto using keeps_heap_raise, keeps_heap_stop.
Qed.

Lemma keeps_heap_attr (self : instance) (name : string) :
  keeps_heap (attr self name).
Proof.
  unfold attr. destruct (getattr self name);
    auto using keeps_heap_ret, keeps_heap_raise.
Qed.

Create HintDb keeps.

#[local] Hint Resolve keeps_heap_ret keeps_heap_raise keeps_heap_stop
  keeps_heap_lift keeps_heap_send keeps_heap_on_connection keeps_heap_attr
  : keeps.

Section ConstructorFacts.
Variable net : connection.
Variable construct : descriptor -> value -> value -> dict -> M instance.
Hypothesis construct_keeps_heap :
  forall c gl data kwargs, keeps_heap (construct c gl data kwargs).

Lemma keeps_heap_get_object c self k v :
  keeps_heap (_get_object construct c self k v).
Proof.
  unfold _get_object. destruct (dict_mem "_constructorTypes" self); auto with keeps.
  destruct (dict_get k (_constructorTypes c)); auto with keeps.
  destruct (dict_get s module_classes); auto with keeps.
  apply keeps_heap_bindM; auto with keeps. intros gl.
  apply keeps_heap_bindM; auto with keeps.
Qed.

Lemma keeps_heap_append_objects c k v :
  forall self done, keeps_heap (append_objects construct c self k done v).
Proof.
  induction v as [|i rest IH]; intros self done; simpl; auto with keeps.
  apply keeps_heap_bindM; auto using keeps_heap_get_object.
Qed.

Lemma keeps_heap_set_items c items :
  forall self, keeps_heap (set_items construct c self items).
Proof.
  induction items as [|[k v] rest IH]; intros self; simpl; auto with keeps.
  apply keeps_heap_bindM; auto.
  destruct v; auto using keeps_heap_append_objects with keeps;
    apply keeps_heap_bindM; auto using keeps_heap_get_object with keeps.
Qed.

Lemma keeps_heap_set_from_dict c self data :
  keeps_heap (_set_from_dict construct c self data).
Proof.
  destruct data; simpl; auto using keeps_heap_set_items with keeps.
Qed.

Lemma set_managers_loop_spec c l :
  forall self self' w w',
    set_managers_loop c self l w = (Ok self', w') ->
    w' = w /\
    (forall k, ~ In k (map (fun m => fst (fst m)) l) ->
               dict_get k self' = dict_get k self) /\
    (forall k, dict_get k self <> None -> dict_get k self' <> None) /\
    (forall k, In k (map (fun m => fst (fst m)) l) ->
               exists m gl args, dict_get k self' = Some (VManager m gl args)).
Proof.
  induction l as [|[[var cls] attrs] rest IH]; simpl; intros self self' w w' H.
  - injection H as <- <-. repeat split; auto. intros k [].
  - apply bindM_Ok in H. destruct H as (gl & w1 & Hgl & H).
    unfold attr in Hgl. destruct (getattr (Instance c self) "gitlab");
      [|discriminate]. injection Hgl as <- <-.
    destruct (obj_cls cls); [|discriminate].
    apply IH in H. destruct H as (-> & Hout & Hin & Hmgr).
    split; [reflexivity|]. split; [|split].
    + intros k Hk. rewrite Hout by tauto. apply dict_get_set_ne.
      intros ->. tauto.
    + intros k Hk. apply Hin. destruct (String.eqb k var) eqn:E.
      * apply String.eqb_eq in E. subst. rewrite dict_get_set_eq. discriminate.
      * apply String.eqb_neq in E. now rewrite dict_get_set_ne.
    + intros k Hk.
      destruct (in_dec string_dec k (map (fun m => fst (fst m)) rest))
        as [Hr|Hr]; [now apply Hmgr|].
      destruct Hk as [<-|Hk]; [|tauto].
      rewrite Hout by exact Hr. rewrite dict_get_set_eq. eauto.
Qed.

Lemma set_managers_spec c self self' w w' :
  _set_managers c self w = (Ok self', w') ->
  w' = w /\
  (forall k, ~ In k (manager_names c) -> dict_get k self' = dict_get k self) /\
  (forall k, dict_get k self <> None -> dict_get k self' <> None) /\
  (forall k, In k (manager_names c) ->
             exists m gl args, dict_get k self' = Some (VManager m gl args)).
Proof.
  unfold _set_managers. destruct (dict_mem "managers" self); [discriminate|].
  apply set_managers_loop_spec.
Qed.

Lemma keeps_heap_set_managers c self : keeps_heap (_set_managers c self).
Proof.
  intros w. destruct (_set_managers c self w) as [[self'|e|l] w'] eqn:E.
  - apply set_managers_spec in E. now destruct E as (-> & _).
  - revert w w' E. unfold _set_managers.
    destruct (dict_mem "managers" self); [discriminate|].
    generalize (managers c). intros l0. revert self.
    induction l0 as [|[[var cls] attrs] rest IH]; simpl; intros self w w' E;
      [discriminate|].
    unfold bindM, attr in E.
    destruct (getattr (Instance c self) "gitlab"); simpl in E.
    + destruct (obj_cls cls); [eauto|]. now injection E as _ <-.
    + now injection E as _ <-.
  - revert w w' E. unfold _set_managers.
    destruct (dict_mem "managers" self); [now intros w w' [= _ <-]|].
    generalize (managers c). intros l0. revert self.
    induction l0 as [|[[var cls] attrs] rest IH]; simpl; intros self w w' E;
      [discriminate|].
    unfold bindM, attr in E.
    destruct (getattr (Instance c self) "gitlab"); simpl in E.
    + destruct (obj_cls cls); [eauto|]. discriminate.
    + discriminate.
Qed.

Lemma keeps_heap_init_body c gl data kwargs :
  keeps_heap (init_body net construct c gl data kwargs).
Proof.
  unfold init_body. apply keeps_heap_bindM.
  - destruct (is_id data); auto with keeps.
    destruct (canGet c); auto with keeps;
      apply keeps_heap_bindM; auto with keeps.
  - intros [data' self]. apply keeps_heap_bindM;
      auto using keeps_heap_set_from_dict.
    intros self2. apply keeps_heap_bindM; auto using keeps_heap_set_managers with keeps.
Qed.

(** Keys that the hydrating mapping does not mention are left alone. *)
Lemma append_objects_other c k v :
  forall self done self' w w',
    append_objects construct c self k done v w = (Ok self', w') ->
    forall k', k' <> k -> dict_get k' self' = dict_get k' self.
Proof.
  induction v as [|i rest IH]; simpl; intros self done self' w w' H k' Hk.
  - now injection H as <- <-.
  - apply bindM_Ok in H. destruct H as (o & w1 & _ & H).
    rewrite (IH _ _ _ _ _ H k' Hk). now apply dict_get_set_ne.
Qed.

Lemma set_items_other c items :
  forall self self' w w',
    set_items construct c self items w = (Ok self', w') ->
    forall k, ~ In k (keys items) -> dict_get k self' = dict_get k self.
Proof.
  induction items as [|[k0 v0] rest IH]; simpl; intros self self' w w' H k Hk.
  - now injection H as <- <-.
  - apply bindM_Ok in H. destruct H as (self1 & w1 & H1 & H).
    rewrite (IH _ _ _ _ H k) by tauto.
    assert (Hne : k <> k0) by (intros ->; tauto).
    destruct v0;
      try (apply bindM_Ok in H1; destruct H1 as (o & w2 & _ & H1);
           injection H1 as <- _; now apply dict_get_set_ne).
    + injection H1 as <- _. now apply dict_get_set_ne.
    + rewrite (append_objects_other _ _ _ _ _ H1 Hne). now apply dict_get_set_ne.
Qed.

(** The stages of a successful construction. *)
Lemma init_body_Ok c gl data kwargs w inst w' :
  init_body net construct c gl data kwargs w = (Ok inst, w') ->
  exists payload self0 self2 w1 w2,
    hydrated_from net c data kwargs w = Ok payload /\
    (forall k, k <> "_from_api" -> k <> "gitlab" -> dict_get k self0 = None) /\
    _set_from_dict construct c self0 payload w1 = (Ok self2, w2) /\
    let self3 := dict_update self2 kwargs in
    let self4 := if hasattr (Instance c self3) "id" then self3
                 else dict_set "id" VNone self3 in
    _set_managers c self4 w2 = (Ok (inst_dict inst), w') /\
    inst_cls inst = c.
Proof.
  unfold init_body, hydrated_from. intros H.
  apply bindM_Ok in H. destruct H as ([payload self0] & w1 & Hfetch & H).
  apply bindM_Ok in H. destruct H as (self2 & w2 & Hset & H).
  apply bindM_Ok in H. destruct H as (self5 & w3 & Hmgr & H).
  injection H as <- <-.
  exists payload, self0, self2, w1, w2. simpl inst_dict. simpl inst_cls.
  assert (Hinit : forall k, k <> "_from_api" -> k <> "gitlab" ->
            dict_get k [("_from_api", VBool false); ("gitlab", gl)] = None).
  { intros k H1 H2. simpl. apply String.eqb_neq in H1, H2. now rewrite H1, H2. }
  destruct (is_id data).
  - assert (Hcall :
      on_connection gl (send (reply_data net) (Req_get c data kwargs)) w
      = (Ok payload, w1) /\
      self0 = dict_set "_from_api" (VBool true)
                [("_from_api", VBool false); ("gitlab", gl)]).
    { destruct (canGet c); try discriminate;
        apply bindM_Ok in Hfetch; destruct Hfetch as (p & w0 & Hcall & Hret);
        injection Hret as <- <- <-; auto. }
    destruct Hcall as [Hcall ->].
    destruct gl; simpl in Hcall; try discriminate.
    injection Hcall as Hrep _.
    repeat split; auto.
    intros k H1 H2. rewrite dict_get_set_ne by exact H1. now apply Hinit.
  - injection Hfetch as <- <- <-. repeat split; auto.
Qed.
End ConstructorFacts.

Lemma keeps_heap_init (net : connection) (fuel : nat) :
  forall c gl data kwargs, keeps_heap (__init__ net fuel c gl data kwargs).
Proof.
  induction fuel as [|fuel IH]; intros c gl data kwargs; simpl.
  - apply keeps_heap_stop.
  - now apply keeps_heap_init_body.
Qed.

Lemma init_Ok (net : connection) (fuel : nat) c gl data kwargs w inst w' :
  __init__ net fuel c gl data kwargs w = (Ok inst, w') ->
  exists fuel', fuel = S fuel' /\
    init_body net (__init__ net fuel') c gl data kwargs w = (Ok inst, w').
Proof.
  destruct fuel as [|fuel']; simpl; [discriminate|]. eauto.
Qed.

Lemma hasattr_iff (c : descriptor) (d : dict) (k : string) :
  hasattr (Instance c d) k = true <->
  dict_get k d <> None \/ class_getattr c k <> None.
Proof.
  unfold hasattr, getattr. simpl.
  destruct (dict_get k d); [split; [left|]; congruence|].
  destruct (class_getattr c k); split; try (right; congruence); try congruence.
  intros [H|H]; congruence.
Qed.

Lemma hasattr_iff_inst (o : instance) (k : string) :
  hasattr o k = true <->
  dict_get k (inst_dict o) <> None \/ class_getattr (inst_cls o) k <> None.
Proof. destruct o. apply hasattr_iff. Qed.

Lemma keys_rev {A} (e : list (string * A)) : keys (rev e) = rev (keys e).
Proof. unfold keys. apply map_rev. Qed.

Lemma dict_get_rev_None (e : dict) (k : string) :
  ~ In k (keys e) -> dict_get k (rev e) = None.
Proof.
  intros H. apply dict_get_None_keys. rewrite keys_rev, <- in_rev. exact H.
Qed.

Lemma dict_get_rev_NoDup (e : dict) (k : string) :
  NoDup (keys e) -> dict_get k (rev e) = dict_get k e.
Proof.
  intros Hnd. destruct (dict_get k e) as [v|] eqn:E.
  - apply NoDup_keys_get.
    + rewrite keys_rev. now apply NoDup_rev.
    + rewrite <- in_rev. now apply dict_get_Some_In.
  - apply dict_get_rev_None. now apply dict_get_None_keys.
Qed.

(** C3 (amended).  After a successful construction, from a server payload
    or from a local dictionary, the attribute named [id] is present; it is
    [None] when neither the mapping the instance is hydrated from, nor the
    keyword arguments, nor a manager, nor the class supplies it.  The
    declared identifier attribute is therefore present when [idAttr] is
    ['id']; no other attribute is defaulted: a name that nothing supplies
    is absent from the instance. *)
Theorem id_present_after_construction (net : connection) (fuel : nat)
    (c : descriptor) (gl data : value) (kwargs : dict) (w w' : world)
    (inst : instance) :
  __init__ net fuel c gl data kwargs w = (Ok inst, w') ->
  hasattr inst "id" = true /\
  (idAttr c = "id" -> hasattr inst (idAttr c) = true) /\
  (forall items k,
     hydrated_from net c data kwargs w = Ok (VDict items) ->
     ~ In k (keys items) -> ~ In k (keys kwargs) ->
     ~ In k (manager_names c) -> class_getattr c k = None ->
     k <> "_from_api" -> k <> "gitlab" ->
     if String.eqb k "id" then getattr inst k = Some VNone
     else hasattr inst k = false).
Proof.
  intros H. apply init_Ok in H. destruct H as (fuel' & -> & H).
  apply init_body_Ok in H.
  destruct H as (payload & self0 & self2 & w1 & w2 & Hhyd & Hself0 & Hset & Hmgr & Hcls).
  destruct inst as [ci di]. simpl in Hcls, Hmgr. subst ci.
  apply set_managers_spec in Hmgr. destruct Hmgr as (_ & Hout & Hin & _).
  set (self3 := dict_update self2 kwargs) in *.
  assert (Hid : hasattr (Instance c di) "id" = true).
  { apply hasattr_iff.
    destruct (hasattr (Instance c self3) "id") eqn:Eh.
    - apply hasattr_iff in Eh. destruct Eh as [Eh|Eh]; [left; now apply Hin | now right].
    - left. apply Hin. rewrite dict_get_set_eq. discriminate. }
  split; [exact Hid|]. split; [now intros ->|].
  intros items k Hp Hitems Hkw Hnames Hclass Hk1 Hk2.
  rewrite Hp in Hhyd. injection Hhyd as <-. simpl in Hset.
  assert (H3 : dict_get k self3 = None).
  { unfold self3. rewrite dict_get_update, dict_get_rev_None by exact Hkw.
    rewrite (@set_items_other _ _ _ _ _ _ _ Hset k Hitems). now apply Hself0. }
  destruct (String.eqb k "id") eqn:E.
  - apply String.eqb_eq in E. subst k.
    assert (Eh : hasattr (Instance c self3) "id" = false).
    { destruct (hasattr (Instance c self3) "id") eqn:Eh; [|reflexivity].
      apply hasattr_iff in Eh. destruct Eh; congruence. }
    rewrite Eh in Hout. unfold getattr. simpl.
    rewrite Hout by exact Hnames. now rewrite dict_get_set_eq.
  - apply String.eqb_neq in E.
    destruct (hasattr (Instance c di) k) eqn:Eh; [|reflexivity].
    apply hasattr_iff in Eh. destruct Eh as [Eh|Eh]; [|congruence].
    exfalso. apply Eh. rewrite Hout by exact Hnames.
    destruct (hasattr (Instance c self3) "id"); [exact H3|].
    now rewrite dict_get_set_ne.
Qed.

Lemma id_present_after_construction_witness :
  hasattr new_branch "id" = true /\
  (idAttr ProjectBranch = "id" -> hasattr new_branch (idAttr ProjectBranch) = true) /\
  (forall items k,
     hydrated_from offline ProjectBranch new_branch_data
       [("project_id", VInt 1)] empty_world = Ok (VDict items) ->
     ~ In k (keys items) -> ~ In k (keys [("project_id", VInt 1)]) ->
     ~ In k (manager_names ProjectBranch) ->
     class_getattr ProjectBranch k = None ->
     k <> "_from_api" -> k <> "gitlab" ->
     if String.eqb k "id" then getattr new_branch k = Some VNone
     else hasattr new_branch k = false).
Proof.
  exact (@id_present_after_construction offline 1 ProjectBranch VGitlab
           new_branch_data [("project_id", VInt 1)] empty_world empty_world
           new_branch eq_refl).
Defined.

(** C3 as stated fails for a resource type keyed by a natural id: a branch
    built for creation has [id] (set to [None]) but not its identifier
    attribute [name]. *)
Lemma idAttr_absent_counterexample :
  __init__ offline 1 ProjectBranch VGitlab new_branch_data
    [("project_id", VInt 1)] empty_world = (Ok new_branch, empty_world) /\
  idAttr ProjectBranch = "name" /\
  hasattr new_branch (idAttr ProjectBranch) = false /\
  getattr new_branch "id" = Some VNone.
Proof. repeat split. Qed.

(** C9 (amended).  The keyword arguments of the constructor are assigned
    onto the instance after the fields of the mapping it is hydrated from:
    on a successfully constructed instance a keyword argument holds the
    value given by the caller, whatever the server returned under that
    name, unless the name is one under which the resource type declares a
    manager, in which case the instance holds the manager. *)
Theorem kwargs_override_fields (net : connection) (fuel : nat)
    (c : descriptor) (gl data : value) (kwargs : dict) (w w' : world)
    (inst : instance) (k : string) (v : value) :
  __init__ net fuel c gl data kwargs w = (Ok inst, w') ->
  NoDup (keys kwargs) ->
  dict_get k kwargs = Some v ->
  (~ In k (manager_names c) -> getattr inst k = Some v) /\
  (In k (manager_names c) ->
   exists m g args, getattr inst k = Some (VManager m g args)).
Proof.
  intros H Hnd Hk. apply init_Ok in H. destruct H as (fuel' & -> & H).
  apply init_body_Ok in H.
  destruct H as (payload & self0 & self2 & w1 & w2 & _ & _ & _ & Hmgr & Hcls).
  destruct inst as [ci di]. simpl in Hcls, Hmgr. subst ci.
  apply set_managers_spec in Hmgr. destruct Hmgr as (_ & Hout & _ & Hman).
  split.
  - intros Hnames. unfold getattr. simpl. rewrite Hout by exact Hnames.
    assert (H3 : dict_get k (dict_update self2 kwargs) = Some v).
    { now rewrite dict_get_update, dict_get_rev_NoDup, Hk. }
    destruct (hasattr (Instance c (dict_update self2 kwargs)) "id") eqn:Eh.
    + now rewrite H3.
    + rewrite dict_get_set_ne; [now rewrite H3|].
      intros ->. assert (Eh' : hasattr (Instance c (dict_update self2 kwargs)) "id" = true).
      { apply hasattr_iff. left. congruence. }
      congruence.
  - intros Hnames. destruct (Hman k Hnames) as (m & g & args & Hm).
    exists m, g, args. unfold getattr. simpl. now rewrite Hm.
Qed.

Lemma kwargs_override_fields_witness :
  __init__ hook_server 1 ProjectHook VGitlab (VInt 3) [("project_id", VInt 7)]
    empty_world
  = (Ok hook_fetched,
     World [] [Req_get ProjectHook (VInt 3) [("project_id", VInt 7)]]) /\
  (~ In "project_id" (manager_names ProjectHook) ->
   getattr hook_fetched "project_id" = Some (VInt 7)) /\
  (In "project_id" (manager_names ProjectHook) ->
   exists m g args, getattr hook_fetched "project_id" = Some (VManager m g args)).
Proof.
  split; [reflexivity|].
  apply (@kwargs_override_fields hook_server 1 ProjectHook VGitlab (VInt 3)
           [("project_id", VInt 7)] empty_world
           (World [] [Req_get ProjectHook (VInt 3) [("project_id", VInt 7)]])
           hook_fetched "project_id" (VInt 7) eq_refl).
  - solve_NoDup.
  - reflexivity.
Defined.

(** C9 as stated fails for a name that is also a manager name: the server
    returns a field [keys], the caller passes [keys='mine'], and the user
    constructed holds neither but its key manager. *)
Lemma kwargs_manager_name_counterexample :
  reply_data keys_server [] (Req_get User (VInt 1) [("keys", VStr "mine")])
  = Ok (VDict [("id", VInt 1); ("keys", VStr "srv")]) /\
  __init__ keys_server 1 User VGitlab (VInt 1) [("keys", VStr "mine")] empty_world
  = (Ok user_with_keys,
     World [] [Req_get User (VInt 1) [("keys", VStr "mine")]]) /\
  getattr user_with_keys "keys" = Some user_keys_manager /\
  getattr user_with_keys "keys" <> Some (VStr "mine").
Proof. repeat split. discriminate. Qed.

(** ** Bespoke methods *)

Lemma nth_error_list_set {A} (l : list A) (n : nat) (x y : A) :
  nth_error l n = Some y -> nth_error (list_set l n x) n = Some x.
Proof.
  revert n. induction l as [|z r IH]; intros [|n]; simpl; try discriminate; auto.
Qed.

(** C8.  [star()] on a project: when the server answers 304 the call
    returns the address of the instance it was called on and the heap is
    as before; when the server answers 201 with a body, the call returns
    the address of a new instance, the one the constructor of [Project]
    builds from that body, the instance it was called on being kept as it
    was. *)
Theorem star_result (net : connection) (py_repr : value -> string)
    (fuel : nat) (self : nat) (w : world) (o : instance) (id : value)
    (r : response) :
  nth_error (heap w) self = Some o ->
  getattr o "id" = Some id ->
  getattr o "gitlab" = Some VGitlab ->
  let url := String.append "/projects/" (String.append (py_str py_repr id) "/star") in
  let req := Req_raw POST url None None [] in
  reply_raw net (trace w) req = Ok r ->
  let w1 := World (heap w) (trace w ++ [req]) in
  (status_code r = 304%Z ->
   Project_star net py_repr fuel self w = (Ok self, w1)) /\
  (status_code r = 201%Z ->
   forall body inst w2,
     json_body r = Some body ->
     __init__ net fuel Project VGitlab body [] w1 = (Ok inst, w2) ->
     let new := List.length (heap w) in
     Project_star net py_repr fuel self w
     = (Ok new, World (heap w ++ [inst]) (trace w2)) /\
     new <> self /\
     nth_error (heap w ++ [inst]) new = Some inst /\
     nth_error (heap w ++ [inst]) self = Some o).
Proof.
  intros Ho Hid Hgl url req Hr w1. split.
  - intros Hs.
    unfold Project_star, bindM, deref, attr, on_connection, send, lift,
      raise_error_from_response, ret.
    rewrite Ho. cbv beta iota. rewrite Hid. cbv beta iota.
    rewrite Hgl. cbv beta iota. fold url. fold req. rewrite Hr, Hs.
    reflexivity.
  - intros Hs body inst w2 Hb Hinit new.
    pose proof (keeps_heap_init net fuel Project VGitlab body [] w1) as Hheap.
    rewrite Hinit in Hheap. simpl in Hheap.
    assert (Hlt : self < List.length (heap w)).
    { apply nth_error_Some. congruence. }
    split; [|split; [|split]].
    + unfold Project_star, bindM, deref, attr, on_connection, send, lift,
        raise_error_from_response, response_json, ret.
      rewrite Ho. cbv beta iota. rewrite Hid. cbv beta iota.
      rewrite Hgl. cbv beta iota. fold url. fold req. rewrite Hr, Hs, Hb.
      change (existsb (Z.eqb 201) [201%Z; 304%Z]) with true.
      change (Z.eqb 201 201) with true. cbv beta iota.
      fold w1. rewrite Hinit. unfold alloc. now rewrite Hheap.
    + unfold new. lia.
    + unfold new. rewrite nth_error_app2 by lia. now rewrite Nat.sub_diag.
    + rewrite nth_error_app1 by exact Hlt. exact Ho.
Qed.

Lemma star_result_witness :
  Project_star already_starred example_repr 1 0 (World [project_one] [])
  = (Ok 0, World [project_one] [star_request]) /\
  exists inst,
    __init__ not_yet_starred 1 Project VGitlab starred_body []
      (World [project_one] [star_request])
    = (Ok inst, World [project_one] [star_request]) /\
    Project_star not_yet_starred example_repr 1 0 (World [project_one] [])
    = (Ok 1, World [project_one; inst] [star_request]) /\
    getattr inst "star_count" = Some (VInt 1).
Proof.
  split.
  - exact (proj1 (@star_result already_starred example_repr 1 0
                    (World [project_one] []) project_one (VInt 1)
                    (Response 304 None EmptyString) eq_refl eq_refl eq_refl eq_refl)
             eq_refl).
  - eexists. split; [reflexivity|]. split; [|reflexivity].
    exact (proj1 (proj2 (@star_result not_yet_starred example_repr 1 0
                    (World [project_one] []) project_one (VInt 1)
                    (Response 201 (Some starred_body) EmptyString)
                    eq_refl eq_refl eq_refl eq_refl)
             eq_refl starred_body _ _ eq_refl eq_refl)).
Defined.

Lemma branch_url (py_repr : value -> string) (project_id : value) :
  format_mapping py_repr "/projects/%(project_id)s/repository/branches"
    [("project_id", project_id)]
  = Ok (String.append "/projects/"
          (String.append (py_str py_repr project_id) "/repository/branches")).
Proof. reflexivity. Qed.

(** C10.  On a project branch, a [protect(True)] that succeeds leaves the
    attribute [protected] equal to [True]; a [protect(False)] that
    succeeds, which is what [unprotect()] runs, deletes the attribute,
    which the instance had, so that the instance has no attribute
    [protected] afterwards. *)
Theorem protect_outcome (net : connection) (py_repr : value -> string)
    (self : nat) (kwargs : dict) (w : world) (o : instance) :
  nth_error (heap w) self = Some o ->
  inst_cls o = ProjectBranch ->
  (forall w',
     ProjectBranch_protect net py_repr self (VBool true) kwargs w = (Ok tt, w') ->
     exists o', nth_error (heap w') self = Some o' /\
                o' = setattr o "protected" (VBool true) /\
                getattr o' "protected" = Some (VBool true)) /\
  (forall w',
     ProjectBranch_protect net py_repr self (VBool false) kwargs w = (Ok tt, w') ->
     exists o', nth_error (heap w') self = Some o' /\
                o' = delattr o "protected" /\
                hasattr o "protected" = true /\
                hasattr o' "protected" = false) /\
  ProjectBranch_unprotect net py_repr self kwargs w
  = ProjectBranch_protect net py_repr self (VBool false) kwargs w.
Proof.
  intros Ho Hc. split; [|split; [|reflexivity]].
  - intros w' H. unfold ProjectBranch_protect in H.
    apply bindM_Ok in H. destruct H as (o0 & w0 & Hd & H).
    unfold deref in Hd. rewrite Ho in Hd. injection Hd as <- <-.
    destruct (dict_mem "_url" (inst_dict o)); [discriminate|].
    apply bindM_Ok in H. destruct H as (pid & w1 & Hpid & H).
    apply bindM_Ok in H. destruct H as (url & w2 & Hurl & H).
    apply bindM_Ok in H. destruct H as (name & w3 & Hname & H).
    apply bindM_Ok in H. destruct H as (gl & w4 & Hgl & H).
    apply bindM_Ok in H. destruct H as (r & w5 & Hr & H).
    apply bindM_Ok in H. destruct H as (u & w6 & Hraise & H).
    simpl truthy in H. cbv iota in H. unfold store in H. injection H as <-.
    assert (Hh : heap w6 = heap w).
    { unfold attr in Hpid, Hname, Hgl.
      destruct (getattr o "project_id"); [|discriminate]. injection Hpid as _ <-.
      unfold lift in Hurl. injection Hurl as _ <-.
      destruct (getattr o "name"); [|discriminate]. injection Hname as _ <-.
      destruct (getattr o "gitlab") as [g|]; [|discriminate]. injection Hgl as <- <-.
      unfold lift in Hraise. injection Hraise as _ <-.
      destruct g; simpl in Hr; try discriminate. now injection Hr as _ <-. }
    exists (setattr o "protected" (VBool true)). simpl heap. rewrite Hh.
    split; [now apply (nth_error_list_set _ _ _ Ho)|]. split; [reflexivity|].
    unfold getattr, setattr. simpl. now rewrite dict_get_set_eq.
  - intros w' H. unfold ProjectBranch_protect in H.
    apply bindM_Ok in H. destruct H as (o0 & w0 & Hd & H).
    unfold deref in Hd. rewrite Ho in Hd. injection Hd as <- <-.
    destruct (dict_mem "_url" (inst_dict o)); [discriminate|].
    apply bindM_Ok in H. destruct H as (pid & w1 & Hpid & H).
    apply bindM_Ok in H. destruct H as (url & w2 & Hurl & H).
    apply bindM_Ok in H. destruct H as (name & w3 & Hname & H).
    apply bindM_Ok in H. destruct H as (gl & w4 & Hgl & H).
    apply bindM_Ok in H. destruct H as (r & w5 & Hr & H).
    apply bindM_Ok in H. destruct H as (u & w6 & Hraise & H).
    simpl truthy in H. cbv iota in H.
    destruct (dict_mem "protected" (inst_dict o)) eqn:Em; [|discriminate].
    unfold store in H. injection H as <-.
    assert (Hh : heap w6 = heap w).
    { unfold attr in Hpid, Hname, Hgl.
      destruct (getattr o "project_id"); [|discriminate]. injection Hpid as _ <-.
      unfold lift in Hurl. injection Hurl as _ <-.
      destruct (getattr o "name"); [|discriminate]. injection Hname as _ <-.
      destruct (getattr o "gitlab") as [g|]; [|discriminate]. injection Hgl as <- <-.
      unfold lift in Hraise. injection Hraise as _ <-.
      destruct g; simpl in Hr; try discriminate. now injection Hr as _ <-. }
    exists (delattr o "protected"). simpl heap. rewrite Hh.
    split; [now apply (nth_error_list_set _ _ _ Ho)|]. split; [reflexivity|].
    split.
    + apply hasattr_iff_inst. left. apply dict_get_In_keys.
      now apply dict_mem_In_keys.
    + unfold hasattr, getattr, delattr. simpl. rewrite dict_get_del_eq, Hc.
      reflexivity.
Qed.

(** A [protect] call succeeds when the branch has its [project_id], [name]
    and connection, the server answers 200 and, for [protect(False)], the
    attribute [protected] is there to be deleted. *)
Lemma protect_succeeds (net : connection) (py_repr : value -> string)
    (self : nat) (protect : value) (kwargs : dict) (w : world) (o : instance)
    (project_id name : value) (r : response) :
  nth_error (heap w) self = Some o ->
  inst_cls o = ProjectBranch ->
  dict_mem "_url" (inst_dict o) = false ->
  getattr o "project_id" = Some project_id ->
  getattr o "name" = Some name ->
  getattr o "gitlab" = Some VGitlab ->
  let url :=
    String.concat "/"
      [String.append "/projects/"
         (String.append (py_str py_repr project_id) "/repository/branches");
       py_str py_repr name;
       if truthy protect then "protect" else "unprotect"] in
  reply_raw net (trace w) (Req_raw PUT url (Some VNone) (Some VNone) kwargs)
  = Ok r ->
  status_code r = 200%Z ->
  truthy protect = true \/ dict_mem "protected" (inst_dict o) = true ->
  exists w', ProjectBranch_protect net py_repr self protect kwargs w = (Ok tt, w').
Proof.
  intros Ho Hc Hu Hpid Hname Hgl url Hr Hs Hp.
  unfold ProjectBranch_protect, bindM, deref, attr, on_connection, send, lift,
    raise_error_from_response, ret, store.
  rewrite Ho. cbv beta iota. rewrite Hu, Hpid. cbv beta iota.
  rewrite Hc. change (_url ProjectBranch)
    with (Some "/projects/%(project_id)s/repository/branches").
  cbv beta iota. rewrite branch_url. cbv beta iota. rewrite Hname.
  cbv beta iota. rewrite Hgl. cbv beta iota. fold url. rewrite Hr, Hs.
  change (existsb (Z.eqb 200) [200%Z]) with true. cbv beta iota.
  destruct (truthy protect); [eauto|].
  destruct Hp as [Hp|Hp]; [discriminate|]. rewrite Hp. eauto.
Qed.

Lemma protect_outcome_witness :
  (exists o',
     nth_error [setattr branch_master "protected" (VBool true)] 0 = Some o' /\
     o' = setattr branch_master "protected" (VBool true) /\
     getattr o' "protected" = Some (VBool true)) /\
  (exists o',
     nth_error [delattr branch_master "protected"] 0 = Some o' /\
     o' = delattr branch_master "protected" /\
     hasattr branch_master "protected" = true /\
     hasattr o' "protected" = false).
Proof.
  destruct (@protect_outcome accepting example_repr 0 []
              (World [branch_master] []) branch_master eq_refl eq_refl)
    as (Hprotect & Hunprotect & _).
  split.
  - exact (Hprotect
             (World [setattr branch_master "protected" (VBool true)]
                    [protect_request "protect"]) eq_refl).
  - exact (Hunprotect
             (World [delattr branch_master "protected"]
                    [protect_request "unprotect"]) eq_refl).
Defined.

(** The two calls of the example succeed, and a second [unprotect()] fails
    on the attribute that is no longer there, after the request was
    sent. *)
Example protect_then_unprotect :
  ProjectBranch_protect accepting example_repr 0 (VBool true) []
    (World [branch_master] [])
  = (Ok tt, World [setattr branch_master "protected" (VBool true)]
                  [protect_request "protect"]) /\
  ProjectBranch_unprotect accepting example_repr 0 [] (World [branch_master] [])
  = (Ok tt, World [delattr branch_master "protected"]
                  [protect_request "unprotect"]) /\
  ProjectBranch_unprotect accepting example_repr 0 []
    (World [delattr branch_master "protected"] [])
  = (Raise AttributeError,
     World [delattr branch_master "protected"] [protect_request "unprotect"]).
Proof. repeat split. Qed.

(** * Further properties *)

(** ** What the constructor does to the world *)

Lemma only_gets_ret {A} (a : A) : only_gets (ret a).
Proof. intros w. exists []. simpl. now rewrite app_nil_r. Qed.

Lemma only_gets_raise {A} (e : exn) : only_gets (@raise A e).
Proof. intros w. exists []. simpl. now rewrite app_nil_r. Qed.

Lemma only_gets_stop {A} (l : limit) : only_gets (@stop A l).
Proof. intros w. exists []. simpl. now rewrite app_nil_r. Qed.

Lemma only_gets_bindM {A B} (m : M A) (f : A -> M B) :
  only_gets m -> (forall a, only_gets (f a)) -> only_gets (bindM m f).
Proof.
  intros Hm Hf w. unfold bindM. destruct (Hm w) as (a1 & Hh & Ht & Hg).
  destruct (m w) as [[a|e|l] w1]; simpl in *; try (exists a1; now auto).
  destruct (Hf a w1) as (a2 & Hh2 & Ht2 & Hg2).
  exists (a1 ++ a2). rewrite Hh2, Ht2, Hh, Ht, app_assoc, forallb_app, Hg, Hg2.
  auto.
Qed.

Lemma only_gets_send_get {A} (answer : list request -> request -> outcome A)
    (c : descriptor) (id : value) (kwargs : dict) :
  only_gets (send answer (Req_get c id kwargs)).
Proof. intros w. exists [Req_get c id kwargs]. simpl. auto. Qed.

Lemma only_gets_on_connection {A} (gl : value) (m : M A) :
  only_gets m -> only_gets (on_connection gl m).
Proof.
  intros Hm. destruct gl; simpl; auto using only_gets_raise, only_gets_stop.
Qed.

Lemma only_gets_attr (self : instance) (name : string) :
  only_gets (attr self name).
Proof.
  unfold attr. destruct (getattr self name);
    auto using only_gets_ret, only_gets_raise.
Qed.

Create HintDb gets.

#[local] Hint Resolve only_gets_ret only_gets_raise only_gets_stop
  only_gets_send_get only_gets_on_connection only_gets_attr : gets.

Section ConstructorCalls.
Variable net : connection.
Variable construct : descriptor -> value -> value -> dict -> M instance.
Hypothesis construct_only_gets :
  forall c gl data kwargs, only_gets (construct c gl data kwargs).

Lemma only_gets_get_object c self k v :
  only_gets (_get_object construct c self k v).
Proof.
  unfold _get_object.
  destruct (dict_mem "_constructorTypes" self); auto with gets.
  destruct (dict_get k (_constructorTypes c)); auto with gets.
  destruct (dict_get s module_classes); auto with gets.
  apply only_gets_bindM; auto with gets. intros gl.
  apply only_gets_bindM; auto with gets.
Qed.

Lemma only_gets_append_objects c k v :
  forall self done, only_gets (append_objects construct c self k done v).
Proof.
  induction v as [|i rest IH]; intros self done; simpl; auto with gets.
  apply only_gets_bindM; auto using only_gets_get_object.
Qed.

Lemma only_gets_set_items c items :
  forall self, only_gets (set_items construct c self items).
Proof.
  induction items as [|[k v] rest IH]; intros self; simpl; auto with gets.
  apply only_gets_bindM; auto.
  destruct v; auto using only_gets_append_objects with gets;
    apply only_gets_bindM; auto using only_gets_get_object with gets.
Qed.

Lemma only_gets_set_from_dict c self data :
  only_gets (_set_from_dict construct c self data).
Proof.
  destruct data; simpl; auto using only_gets_set_items with gets.
Qed.

Lemma only_gets_set_managers_loop c l :
  forall self, only_gets (set_managers_loop c self l).
Proof.
  induction l as [|[[var cls] attrs] rest IH]; intros self; simpl;
    auto with gets.
  apply only_gets_bindM; auto with gets. intros gl.
  destruct (obj_cls cls); auto with gets.
Qed.

Lemma only_gets_set_managers c self : only_gets (_set_managers c self).
Proof.
  unfold _set_managers. destruct (dict_mem "managers" self);
    auto using only_gets_set_managers_loop with gets.
Qed.

Lemma only_gets_init_body c gl data kwargs :
  only_gets (init_body net construct c gl data kwargs).
Proof.
  unfold init_body. apply only_gets_bindM.
  - destruct (is_id data); auto with gets.
    destruct (canGet c); auto with gets;
      apply only_gets_bindM; auto with gets.
  - intros [data' self]. apply only_gets_bindM;
      auto using only_gets_set_from_dict.
    intros self2. apply only_gets_bindM;
      auto using only_gets_set_managers with gets.
Qed.
End ConstructorCalls.

Lemma only_gets_init (net : connection) (fuel : nat) :
  forall c gl data kwargs, only_gets (__init__ net fuel c gl data kwargs).
Proof.
  induction fuel as [|fuel IH]; intros c gl data kwargs; simpl.
  - apply only_gets_stop.
  - now apply only_gets_init_body.
Qed.

(** X1.  Whatever it is given and however it ends, the constructor leaves
    the heap as it was, and the calls it makes on the connection are [get]
    calls appended to the trace: building or hydrating an instance never
    creates, updates, deletes or lists anything. *)
Theorem constructor_only_gets (net : connection) (fuel : nat) (c : descriptor)
    (gl data : value) (kwargs : dict) (w : world) :
  exists added,
    heap (snd (__init__ net fuel c gl data kwargs w)) = heap w /\
    trace (snd (__init__ net fuel c gl data kwargs w)) = trace w ++ added /\
    forallb is_get added = true.
Proof. apply only_gets_init. Qed.

(** ** Hydration of the fields *)

Section HydrationFacts.
Variable construct : descriptor -> value -> value -> dict -> M instance.
Hypothesis construct_class :
  forall c gl data kwargs w o w',
    construct c gl data kwargs w = (Ok o, w') -> inst_cls o = c.

Lemma get_object_hydrates c self k v w o w' :
  _get_object construct c self k v w = (Ok o, w') -> hydrates_to c k v o.
Proof.
  unfold _get_object, hydrates_to.
  destruct (dict_mem "_constructorTypes" self); [discriminate|].
  destruct (dict_get k (_constructorTypes c)) as [name|].
  - destruct (dict_get name module_classes) as [c'|]; [|discriminate].
    intros H. apply bindM_Ok in H. destruct H as (gl & w1 & _ & H).
    apply bindM_Ok in H. destruct H as (i & w2 & Hc & H).
    injection H as <- _. apply construct_class in Hc.
    exists c', (inst_dict i). split; [reflexivity|].
    unfold VInst. now rewrite Hc.
  - now intros [= <- _].
Qed.

Lemma append_objects_hydrates c k l :
  forall self done w self' w',
    append_objects construct c self k done l w = (Ok self', w') ->
    dict_get k self = Some (VList done) ->
    exists objs, dict_get k self' = Some (VList (done ++ objs)) /\
                 Forall2 (hydrates_to c k) l objs.
Proof.
  induction l as [|i rest IH]; simpl; intros self done w self' w' H Hk.
  - injection H as <- _. exists []. rewrite app_nil_r. auto.
  - apply bindM_Ok in H. destruct H as (o & w1 & Ho & H).
    apply get_object_hydrates in Ho.
    apply IH in H; [|apply dict_get_set_eq].
    destruct H as (objs & Hget & Hall). exists (o :: objs).
    rewrite <- app_assoc in Hget. auto.
Qed.

Lemma set_items_field c items :
  forall self w self' w' k v,
    set_items construct c self items w = (Ok self', w') ->
    NoDup (keys items) -> In (k, v) items ->
    exists o, dict_get k self' = Some o /\ field_hydrates_to c k v o.
Proof.
  induction items as [|[k0 v0] rest IH]; simpl;
    intros self w self' w' k v H Hnd Hin; [contradiction|].
  inversion Hnd as [|? ? Hnot Hnd']; subst.
  apply bindM_Ok in H. destruct H as (self1 & w1 & H1 & H).
  destruct Hin as [[= -> ->]|Hin]; [|now apply (IH _ _ _ _ _ _ H Hnd' Hin)].
  rewrite (@set_items_other construct c rest self1 self' w1 w' H k Hnot).
  unfold field_hydrates_to.
  destruct v;
    try (apply bindM_Ok in H1; destruct H1 as (o & w2 & Ho & H1);
         injection H1 as <- _; exists o; rewrite dict_get_set_eq;
         split; [reflexivity | now apply get_object_hydrates in Ho]).
  - injection H1 as <- _. exists VNone. now rewrite dict_get_set_eq.
  - apply append_objects_hydrates in H1; [|apply dict_get_set_eq].
    destruct H1 as (objs & Hget & Hall). exists (VList objs). eauto.
Qed.
End HydrationFacts.

Lemma init_class (net : connection) (fuel : nat) c gl data kwargs w o w' :
  __init__ net fuel c gl data kwargs w = (Ok o, w') -> inst_cls o = c.
Proof.
  intros H. apply init_Ok in H. destruct H as (fuel' & _ & H).
  apply init_body_Ok in H.
  now destruct H as (? & ? & ? & ? & ? & _ & _ & _ & _ & Hc).
Qed.

(** X2.  On an instance that has been constructed, every top-level field
    of the mapping it was hydrated from is an attribute, unless a keyword
    argument or a manager of the same name has replaced it: a field whose
    name has no declared nested type holds the value of the mapping as it
    is; a field with a declared nested type holds an instance of the class
    declared (a list holds one instance per item); and a field that is
    [None] stays [None] in either case. *)
Theorem fields_become_attributes (net : connection) (fuel : nat)
    (c : descriptor) (gl data : value) (kwargs : dict) (w w' : world)
    (inst : instance) (items : dict) (k : string) (v : value) :
  __init__ net fuel c gl data kwargs w = (Ok inst, w') ->
  hydrated_from net c data kwargs w = Ok (VDict items) ->
  NoDup (keys items) ->
  In (k, v) items ->
  ~ In k (keys kwargs) ->
  ~ In k (manager_names c) ->
  exists o, getattr inst k = Some o /\ field_hydrates_to c k v o.
Proof.
  intros H Hp Hnd Hin Hkw Hnames.
  apply init_Ok in H. destruct H as (fuel' & -> & H).
  apply init_body_Ok in H.
  destruct H as (payload & self0 & self2 & w1 & w2 & Hhyd & _ & Hset & Hmgr & Hcls).
  rewrite Hp in Hhyd. injection Hhyd as <-. simpl in Hset.
  destruct inst as [ci di]. simpl in Hcls, Hmgr. subst ci.
  apply set_managers_spec in Hmgr. destruct Hmgr as (_ & Hout & _ & _).
  destruct (@set_items_field (__init__ net fuel') (@init_class net fuel')
              c items self0 w1 self2 w2 k v Hset Hnd Hin) as (o & Hget & Hf).
  exists o. split; [|exact Hf].
  unfold getattr. simpl. rewrite Hout by exact Hnames.
  assert (H3 : dict_get k (dict_update self2 kwargs) = Some o).
  { now rewrite dict_get_update, dict_get_rev_None. }
  destruct (hasattr (Instance c (dict_update self2 kwargs)) "id") eqn:Eh.
  - now rewrite H3.
  - rewrite dict_get_set_ne; [now rewrite H3|].
    intros ->. assert (hasattr (Instance c (dict_update self2 kwargs)) "id" = true).
    { apply hasattr_iff. left. congruence. }
    congruence.
Qed.

Lemma fields_become_attributes_witness :
  exists o, getattr demo_project "owner" = Some o /\
            field_hydrates_to Project "owner"
              (VDict [("id", VInt 9); ("username", VStr "bob")]) o.
Proof.
  apply (@fields_become_attributes offline 2 Project VGitlab
           (VDict project_payload) [] empty_world empty_world demo_project
           project_payload "owner"
           (VDict [("id", VInt 9); ("username", VStr "bob")])).
  - reflexivity.
  - reflexivity.
  - unfold project_payload. simpl. solve_NoDup.
  - simpl. auto.
  - simpl. tauto.
  - vm_compute. intuition discriminate.
Defined.

(** The owner of the example is a [User] instance, itself without any
    fetch; the archived flag, absent from the payload, stays [None]. *)
Example demo_project_fields :
  (exists d, getattr demo_project "owner" = Some (VObj User d)) /\
  getattr demo_project "archived" = Some VNone /\
  getattr demo_project "name" = Some (VStr "demo").
Proof. split; [eexists; reflexivity | split; reflexivity]. Qed.

(** ** Construction from local data *)

Lemma dict_set_set {A} (d : list (string * A)) (k : string) (x y : A) :
  dict_set k x (dict_set k y d) = dict_set k x d.
Proof.
  induction d as [|[k0 v0] r IH]; simpl.
  - now rewrite String.eqb_refl.
  - destruct (String.eqb k k0) eqn:E; simpl; rewrite E; [reflexivity|].
    now rewrite IH.
Qed.

Lemma dict_mem_set_ne {A} (d : list (string * A)) (k k' : string) (x : A) :
  k' <> k -> dict_mem k' (dict_set k x d) = dict_mem k' d.
Proof. intros H. unfold dict_mem. now rewrite dict_get_set_ne. Qed.

Lemma dict_mem_false_keys {A} (d : list (string * A)) (k : string) :
  dict_mem k d = false <-> ~ In k (keys d).
Proof.
  rewrite <- dict_get_None_keys. unfold dict_mem.
  destruct (dict_get k d); split; congruence.
Qed.

Section PlainHydration.
Variable construct : descriptor -> value -> value -> dict -> M instance.
Variable c : descriptor.

Lemma get_object_plain self k v w :
  dict_mem "_constructorTypes" self = false ->
  dict_get k (_constructorTypes c) = None ->
  _get_object construct c self k v w = (Ok v, w).
Proof. intros Hs Hk. unfold _get_object. now rewrite Hs, Hk. Qed.

Lemma append_objects_plain k l :
  k <> "_constructorTypes" ->
  dict_get k (_constructorTypes c) = None ->
  forall d done w,
    dict_mem "_constructorTypes" d = false ->
    append_objects construct c (dict_set k (VList done) d) k done l w
    = (Ok (dict_set k (VList (done ++ l)) d), w).
Proof.
  intros Hne Hk. induction l as [|i rest IH]; simpl; intros d done w Hd.
  - now rewrite app_nil_r.
  - unfold bindM. rewrite get_object_plain; auto.
    + rewrite dict_set_set, IH by exact Hd. now rewrite <- app_assoc.
    + rewrite dict_mem_set_ne; auto.
Qed.

Lemma set_items_plain items :
  (forall k, In k (keys items) -> dict_get k (_constructorTypes c) = None) ->
  ~ In "_constructorTypes" (keys items) ->
  forall self w,
    dict_mem "_constructorTypes" self = false ->
    set_items construct c self items w = (Ok (dict_update self items), w).
Proof.
  induction items as [|[k v] rest IH]; simpl; intros Hun Hct self w Hs;
    [reflexivity|].
  assert (Hk : dict_get k (_constructorTypes c) = None) by auto.
  assert (Hne : k <> "_constructorTypes") by (intros ->; tauto).
  assert (Hs' : forall x, dict_mem "_constructorTypes" (dict_set k x self) = false).
  { intros x. rewrite dict_mem_set_ne; auto. }
  assert (H1 :
    match v with
    | VList l => append_objects construct c (dict_set k (VList []) self) k [] l
    | VNone => ret (dict_set k VNone self)
    | _ => o <~ _get_object construct c self k v ;; ret (dict_set k o self)
    end w = (Ok (dict_set k v self), w)).
  { destruct v; try reflexivity;
      try (unfold bindM; now rewrite get_object_plain).
    now rewrite append_objects_plain. }
  unfold bindM at 1. rewrite H1. unfold dict_update. simpl.
  apply IH; auto.
Qed.
End PlainHydration.

Lemma set_managers_loop_succeeds (c : descriptor)
    (l : list (string * manager_class * list (string * string))) :
  forallb (fun m => match obj_cls (snd (fst m)) with Some _ => true | None => false end) l
  = true ->
  forall self w,
    dict_get "gitlab" self <> None ->
    exists self', set_managers_loop c self l w = (Ok self', w).
Proof.
  induction l as [|[[var cls] attrs] rest IH]; simpl; intros Hall self w Hg;
    [now exists self|].
  apply andb_true_iff in Hall. destruct Hall as [Hc Hall].
  unfold bindM, attr, getattr. simpl.
  destruct (dict_get "gitlab" self) as [gl|] eqn:Eg; [|congruence]. simpl.
  destruct (obj_cls cls); [|discriminate].
  apply IH; auto.
  destruct (String.eqb "gitlab" var) eqn:E.
  - apply String.eqb_eq in E. subst. rewrite dict_get_set_eq. discriminate.
  - apply String.eqb_neq in E. rewrite dict_get_set_ne; congruence.
Qed.

(** X3.  Building an instance from a dictionary none of whose keys has a
    declared nested type (and which does not use the names [managers],
    [_constructorTypes], [_get_object] and [_set_managers], which the
    constructor reads through the instance) succeeds without any call on
    the connection: the world is left as it was, whatever the connection
    would answer, and the instance is marked local when nothing else sets
    the flag. *)
Theorem local_construction_is_offline (net : connection) (fuel : nat)
    (c : descriptor) (gl : value) (items kwargs : dict) (w : world) :
  (forall k, In k (keys items) -> dict_get k (_constructorTypes c) = None) ->
  ~ In "_constructorTypes" (keys items) ->
  ~ In "managers" (keys items) ->
  ~ In "managers" (keys kwargs) ->
  ~ In "_get_object" (keys items) ->
  ~ In "_set_managers" (keys items) ->
  ~ In "_set_managers" (keys kwargs) ->
  managers_wrap_classes c = true ->
  exists inst,
    __init__ net (S fuel) c gl (VDict items) kwargs w = (Ok inst, w) /\
    inst_cls inst = c /\
    (~ In "_from_api" (keys items) -> ~ In "_from_api" (keys kwargs) ->
     ~ In "_from_api" (manager_names c) ->
     getattr inst "_from_api" = Some (VBool false)).
Proof.
  intros Hun Hct Hmi Hmk _ _ _ Hwrap.
  set (self0 := [("_from_api", VBool false); ("gitlab", gl)]).
  set (self3 := dict_update (dict_update self0 items) kwargs).
  set (self4 := if hasattr (Instance c self3) "id" then self3
                else dict_set "id" VNone self3).
  assert (Hget3 : forall k, ~ In k (keys items) -> ~ In k (keys kwargs) ->
                            dict_get k self3 = dict_get k self0).
  { intros k H1 H2. unfold self3.
    now rewrite !dict_get_update, !dict_get_rev_None. }
  assert (Hget4 : forall k, k <> "id" -> dict_get k self4 = dict_get k self3).
  { intros k Hk. unfold self4. destruct (hasattr (Instance c self3) "id");
      [reflexivity | now apply dict_get_set_ne]. }
  assert (Hgl : dict_get "gitlab" self4 <> None).
  { rewrite Hget4 by discriminate. unfold self3.
    rewrite dict_get_update.
    destruct (dict_get "gitlab" (rev kwargs)); [discriminate|].
    rewrite dict_get_update.
    destruct (dict_get "gitlab" (rev items)); discriminate. }
  assert (Hm : dict_mem "managers" self4 = false).
  { unfold dict_mem. rewrite Hget4, Hget3 by (auto; discriminate). reflexivity. }
  destruct (@set_managers_loop_succeeds c (managers c) Hwrap self4 w Hgl)
    as (self5 & Hloop).
  exists (Instance c self5). split; [|split; [reflexivity|]].
  - simpl. unfold init_body. simpl is_id. cbv iota.
    unfold bindM at 1. unfold ret at 1. unfold bindM at 1.
    simpl _set_from_dict. rewrite set_items_plain by auto.
    fold self0. fold self3. fold self4.
    unfold bindM, _set_managers. rewrite Hm, Hloop. reflexivity.
  - intros H1 H2 H3.
    destruct (@set_managers_loop_spec c (managers c) self4 self5 w w Hloop)
      as (_ & Hout & _ & _).
    unfold getattr. simpl. rewrite (Hout "_from_api" H3).
    rewrite Hget4, Hget3 by (auto; discriminate). reflexivity.
Qed.

Lemma local_construction_is_offline_witness :
  exists inst,
    __init__ hook_server 1 ProjectHook VGitlab (VDict hook_data)
      [("project_id", VInt 1)] empty_world = (Ok inst, empty_world) /\
    inst_cls inst = ProjectHook /\
    (~ In "_from_api" (keys hook_data) ->
     ~ In "_from_api" (keys [("project_id", VInt 1)]) ->
     ~ In "_from_api" (manager_names ProjectHook) ->
     getattr inst "_from_api" = Some (VBool false)).
Proof.
  apply (@local_construction_is_offline hook_server 0 ProjectHook VGitlab
           hook_data [("project_id", VInt 1)] empty_world).
  - intros k _. reflexivity.
  - simpl. intuition discriminate.
  - simpl. intuition discriminate.
  - simpl. intuition discriminate.
  - simpl. intuition discriminate.
  - simpl. intuition discriminate.
  - simpl. intuition discriminate.
  - reflexivity.
Defined.

(** ** Permissions and the transport *)

(** X4.  An operation that the resource type does not permit never reaches
    the transport.  With [canGet] false the class method [get] and the
    constructor given an id raise [NotImplementedError]; with [canCreate]
    false so does the class method [create]; an instance whose [canUpdate]
    is false raises it on [save] once it is marked as coming from the
    server (the [_update] called being the one of [GitlabObject]); and
    through a manager a denied [get], [create] or [delete] leaves the
    world as it was.  In each case no call is recorded. *)
Theorem denied_operations_make_no_call (net : connection)
    (py_repr : value -> string) (fuel : nat) (c : descriptor) :
  (canGet c = CanGetFalse ->
   forall gl id kwargs w,
     GitlabObject_get net py_repr fuel c gl id kwargs w
     = (Raise NotImplementedError, w) /\
     (is_id id = true ->
      __init__ net (S fuel) c gl id kwargs w = (Raise NotImplementedError, w))) /\
  (canCreate c = false ->
   forall gl data kwargs w,
     GitlabObject_create net fuel c gl data kwargs w
     = (Raise NotImplementedError, w)) /\
  (forall self kwargs w from_api,
     inst_cls self = c ->
     uses_base_methods self = true ->
     flag self "canUpdate" (canUpdate c) = false ->
     getattr self "_from_api" = Some from_api -> truthy from_api = true ->
     save net fuel self kwargs w = (Raise NotImplementedError, w)) /\
  (forall self id data kwargs w,
     obj_cls (mgr_class self) = Some c ->
     (canGet c = CanGetFalse ->
      snd (BaseManager_get net py_repr fuel self id kwargs w) = w) /\
     (canCreate c = false ->
      snd (BaseManager_create net fuel self data kwargs w) = w) /\
     (canDelete c = false ->
      snd (BaseManager_delete net self id kwargs w) = w)).
Proof.
  split; [|split; [|split]].
  - intros Hg gl id kwargs w. split.
    + unfold GitlabObject_get. now rewrite Hg.
    + intros Hid. simpl. unfold init_body, bindM. now rewrite Hid, Hg.
  - intros Hc gl data kwargs w. unfold GitlabObject_create. now rewrite Hc.
  - intros self kwargs w from_api Hcls _ Hf Hfa Ht.
    unfold save, bindM, attr. rewrite Hfa. simpl. rewrite Ht.
    unfold _update. rewrite Hcls, Hf. reflexivity.
  - intros self id data kwargs w Hobj.
    pose proof (set_parent_args_world self kwargs w) as Hw.
    assert (Hcls : forall w0, manager_obj_cls self w0 = (Ok c, w0)).
    { intros w0. unfold manager_obj_cls. now rewrite Hobj. }
    repeat split; intros Hflag.
    + unfold BaseManager_get, bindM.
      destruct (_set_parent_args self kwargs w) as [[args|e|l] w1];
        simpl in Hw; subst w1; try reflexivity.
      rewrite Hcls, Hflag. reflexivity.
    + unfold BaseManager_create, bindM.
      destruct (_set_parent_args self kwargs w) as [[args|e|l] w1];
        simpl in Hw; subst w1; try reflexivity.
      rewrite Hcls, Hflag. reflexivity.
    + unfold BaseManager_delete, bindM.
      destruct (_set_parent_args self kwargs w) as [[args|e|l] w1];
        simpl in Hw; subst w1; try reflexivity.
      rewrite Hcls, Hflag. reflexivity.
Qed.

Lemma denied_operations_make_no_call_witness :
  (forall gl id kwargs w,
     GitlabObject_get offline example_repr 0 ProjectFork gl id kwargs w
     = (Raise NotImplementedError, w) /\
     (is_id id = true ->
      __init__ offline 1 ProjectFork gl id kwargs w
      = (Raise NotImplementedError, w))) /\
  (forall gl data kwargs w,
     GitlabObject_create offline 0 CurrentUser gl data kwargs w
     = (Raise NotImplementedError, w)) /\
  save offline 0 system_hook [] empty_world
  = (Raise NotImplementedError, empty_world).
Proof.
  destruct (@denied_operations_make_no_call offline example_repr 0 ProjectFork)
    as (Hget & _).
  destruct (@denied_operations_make_no_call offline example_repr 0 CurrentUser)
    as (_ & Hcreate & _).
  destruct (@denied_operations_make_no_call offline example_repr 0 Hook)
    as (_ & _ & Hsave & _).
  split; [exact (Hget eq_refl)|]. split; [exact (Hcreate eq_refl)|].
  exact (Hsave system_hook [] empty_world (VBool true)
           eq_refl eq_refl eq_refl eq_refl eq_refl).
Defined.

Lemma on_connection_Ok {A} (gl : value) (answer : list request -> request -> outcome A)
    (req : request) (w w' : world) (a : A) :
  on_connection gl (send answer req) w = (Ok a, w') ->
  gl = VGitlab /\ answer (trace w) req = Ok a /\
  w' = World (heap w) (trace w ++ [req]).
Proof.
  destruct gl; simpl; try discriminate. unfold send. intros [= H <-]. auto.
Qed.

(** X5.  A failure of the transport is the failure of the call: when the
    connection raises on the [get] that the constructor makes for an id,
    or on the [list] behind the class methods [list] and [get] of a
    ['from_list'] type, that exception is raised unchanged, the call
    having been recorded once. *)
Theorem transport_errors_propagate (net : connection)
    (py_repr : value -> string) (fuel : nat) (c : descriptor) (kwargs : dict)
    (w : world) (e : exn) :
  (forall id,
     is_id id = true -> canGet c <> CanGetFalse ->
     reply_data net (trace w) (Req_get c id kwargs) = Raise e ->
     __init__ net (S fuel) c VGitlab id kwargs w
     = (Raise e, World (heap w) (trace w ++ [Req_get c id kwargs]))) /\
  (canList c = true -> url_defined c = true ->
   reply_list net (trace w) (Req_list c kwargs) = Raise e ->
   GitlabObject_list net c VGitlab kwargs w
   = (Raise e, World (heap w) (trace w ++ [Req_list c kwargs])) /\
   (canGet c = CanGetFromList ->
    forall id,
      GitlabObject_get net py_repr fuel c VGitlab id kwargs w
      = (Raise e, World (heap w) (trace w ++ [Req_list c kwargs])))).
Proof.
  split.
  - intros id Hid Hg Hr. simpl. unfold init_body, bindM. rewrite Hid.
    destruct (canGet c); try congruence; simpl; unfold send; now rewrite Hr.
  - intros Hl Hu Hr.
    assert (H : GitlabObject_list net c VGitlab kwargs w
                = (Raise e, World (heap w) (trace w ++ [Req_list c kwargs]))).
    { unfold GitlabObject_list. rewrite Hl, Hu. simpl. unfold send.
      now rewrite Hr. }
    split; [exact H|]. intros Hg id. unfold GitlabObject_get, bindM.
    now rewrite Hg, H.
Qed.

Lemma transport_errors_propagate_witness :
  __init__ (refusing forbidden) 1 User VGitlab (VInt 7) [] empty_world
  = (Raise forbidden, World [] [Req_get User (VInt 7) []]) /\
  GitlabObject_get (refusing forbidden) example_repr 0 ProjectLabel VGitlab
    (VStr "bug") [("project_id", VInt 1)] empty_world
  = (Raise forbidden, World [] [Req_list ProjectLabel [("project_id", VInt 1)]]).
Proof.
  split.
  - exact (proj1 (@transport_errors_propagate (refusing forbidden) example_repr
                    0 User [] empty_world forbidden)
             (VInt 7) eq_refl ltac:(discriminate) eq_refl).
  - exact (proj2 (proj2 (@transport_errors_propagate (refusing forbidden)
                    example_repr 0 ProjectLabel [("project_id", VInt 1)]
                    empty_world forbidden)
             eq_refl eq_refl eq_refl) eq_refl (VStr "bug")).
Defined.

(** X6.  [delete] on an instance that comes from the server and whose type
    permits deletion makes exactly one call on the connection and returns
    or raises what that call does; it changes nothing on the instance,
    which stays marked as coming from the server, so that a second
    [delete] reaches the connection again. *)
Theorem delete_hydrated (net : connection) (self : nat) (kwargs : dict)
    (w : world) (o : instance) (from_api : value) :
  nth_error (heap w) self = Some o ->
  flag o "canDelete" (canDelete (inst_cls o)) = true ->
  getattr o "_from_api" = Some from_api -> truthy from_api = true ->
  getattr o "gitlab" = Some VGitlab ->
  let req := Req_delete (DeleteObject o) None kwargs in
  let w1 := World (heap w) (trace w ++ [req]) in
  GitlabObject_delete net self kwargs w = (reply_data net (trace w) req, w1) /\
  GitlabObject_delete net self kwargs w1
  = (reply_data net (trace w1) req, World (heap w) (trace w ++ [req; req])).
Proof.
  intros Ho Hf Hfa Ht Hgl req w1.
  assert (H : forall w0, heap w0 = heap w ->
            GitlabObject_delete net self kwargs w0
            = (reply_data net (trace w0) req, World (heap w0) (trace w0 ++ [req]))).
  { intros w0 Hh. unfold GitlabObject_delete, bindM, deref, attr.
    rewrite Hh, Ho, Hf. simpl. rewrite Hfa. simpl. rewrite Ht. simpl.
    rewrite Hgl. simpl. unfold send. fold req.
    destruct (reply_data net (trace w0) req); now rewrite Hh. }
  split.
  - now rewrite H.
  - rewrite H by reflexivity. simpl. now rewrite <- app_assoc.
Qed.

Lemma delete_hydrated_witness :
  GitlabObject_delete deleting 0 [] fetched_world
  = (Ok VNone, World [user_fetched] [Req_delete (DeleteObject user_fetched) None []])
  /\
  GitlabObject_delete deleting 0 []
    (World [user_fetched] [Req_delete (DeleteObject user_fetched) None []])
  = (Ok VNone,
     World [user_fetched]
       [Req_delete (DeleteObject user_fetched) None [];
        Req_delete (DeleteObject user_fetched) None []]).
Proof.
  exact (@delete_hydrated deleting 0 [] fetched_world user_fetched (VBool true)
           eq_refl eq_refl eq_refl eq_refl eq_refl).
Defined.

(** ** [save], [_create] and [_update] *)

Lemma only_gets_set_from_dict_init (net : connection) (fuel : nat) c self data :
  only_gets (_set_from_dict (__init__ net fuel) c self data).
Proof. apply only_gets_set_from_dict. apply only_gets_init. Qed.

Lemma create_Ok (net : connection) (fuel : nat) (self : instance) (kwargs : dict)
    (w w' : world) (obj : instance) :
  _create net fuel self kwargs w = (Ok obj, w') ->
  exists json d,
    reply_data net (trace w) (Req_create self kwargs) = Ok json /\
    _set_from_dict (__init__ net fuel) (inst_cls self) (inst_dict self) json
      (World (heap w) (trace w ++ [Req_create self kwargs])) = (Ok d, w') /\
    obj = Instance (inst_cls self) (dict_set "_from_api" (VBool true) d).
Proof.
  unfold _create.
  destruct (flag self "canCreate" (canCreate (inst_cls self))); [|discriminate].
  simpl negb. cbv iota. intros H.
  apply bindM_Ok in H. destruct H as (gl & w0 & Hgl & H).
  unfold attr in Hgl. destruct (getattr self "gitlab"); [|discriminate].
  injection Hgl as <- <-.
  apply bindM_Ok in H. destruct H as (json & w1 & Hsend & H).
  apply on_connection_Ok in Hsend. destruct Hsend as (_ & Hr & ->).
  apply bindM_Ok in H. destruct H as (d & w2 & Hset & H).
  injection H as <- <-. eauto.
Qed.

Lemma update_Ok (net : connection) (fuel : nat) (self : instance) (kwargs : dict)
    (w w' : world) (obj : instance) :
  _update net fuel self kwargs w = (Ok obj, w') ->
  exists json d,
    reply_data net (trace w) (Req_update self kwargs) = Ok json /\
    _set_from_dict (__init__ net fuel) (inst_cls self) (inst_dict self) json
      (World (heap w) (trace w ++ [Req_update self kwargs])) = (Ok d, w') /\
    obj = Instance (inst_cls self) d.
Proof.
  unfold _update.
  destruct (flag self "canUpdate" (canUpdate (inst_cls self))); [|discriminate].
  simpl negb. cbv iota. intros H.
  apply bindM_Ok in H. destruct H as (gl & w0 & Hgl & H).
  unfold attr in Hgl. destruct (getattr self "gitlab"); [|discriminate].
  injection Hgl as <- <-.
  apply bindM_Ok in H. destruct H as (json & w1 & Hsend & H).
  apply on_connection_Ok in Hsend. destruct Hsend as (_ & Hr & ->).
  apply bindM_Ok in H. destruct H as (d & w2 & Hset & H).
  injection H as <- <-. eauto.
Qed.

Lemma set_from_dict_adds (net : connection) (fuel : nat) c self data
    (w w' : world) (d : dict) (req : request) :
  _set_from_dict (__init__ net fuel) c self data
    (World (heap w) (trace w ++ [req])) = (Ok d, w') ->
  exists added,
    heap w' = heap w /\ trace w' = trace w ++ req :: added /\
    forallb is_get added = true.
Proof.
  intros H.
  destruct (@only_gets_set_from_dict_init net fuel c self data
              (World (heap w) (trace w ++ [req]))) as (added & Hh & Ht & Hg).
  rewrite H in Hh, Ht. simpl in Hh, Ht. exists added.
  rewrite <- app_assoc in Ht. auto.
Qed.

(** X7.  A successful [save], on an instance whose [_create] and [_update]
    are the ones of [GitlabObject], has made one call that writes, chosen
    by the origin flag alone: an [update] of the instance when the flag is
    true, a [create] when it is not, never both; the calls that follow
    it, if any, are the [get] calls of the hydration.  After a [create]
    the instance is marked as coming from the server. *)
Theorem save_routes_by_origin (net : connection) (fuel : nat) (self : instance)
    (kwargs : dict) (w w' : world) (obj : instance) (from_api : value) :
  uses_base_methods self = true ->
  getattr self "_from_api" = Some from_api ->
  save net fuel self kwargs w = (Ok obj, w') ->
  exists added,
    heap w' = heap w /\ forallb is_get added = true /\
    inst_cls obj = inst_cls self /\
    if truthy from_api
    then trace w' = trace w ++ Req_update self kwargs :: added
    else trace w' = trace w ++ Req_create self kwargs :: added /\
         getattr obj "_from_api" = Some (VBool true).
Proof.
  intros _ Hfa H. unfold save, bindM, attr in H. rewrite Hfa in H. simpl in H.
  destruct (truthy from_api).
  - apply update_Ok in H. destruct H as (json & d & _ & Hset & ->).
    apply set_from_dict_adds in Hset. destruct Hset as (added & Hh & Ht & Hg).
    exists added. auto.
  - apply create_Ok in H. destruct H as (json & d & _ & Hset & ->).
    apply set_from_dict_adds in Hset. destruct Hset as (added & Hh & Ht & Hg).
    exists added. repeat split; auto.
    unfold getattr. simpl. now rewrite dict_get_set_eq.
Qed.

Lemma save_routes_by_origin_witness :
  exists obj added,
    save create_server 1 demo_local [] empty_world
    = (Ok obj, World [] (Req_create demo_local [] :: added)) /\
    forallb is_get added = true /\
    getattr obj "_from_api" = Some (VBool true) /\
    getattr obj "id" = Some (VInt 42).
Proof.
  destruct (@save_routes_by_origin create_server 1 demo_local [] empty_world
              (snd (save create_server 1 demo_local [] empty_world))
              (Instance Abc
                 [("_from_api", VBool true); ("gitlab", VGitlab);
                  ("name", VStr "demo"); ("id", VInt 42); ("path", VStr "demo")])
              (VBool false) eq_refl eq_refl eq_refl)
    as (added & _ & Hg & _ & Ht & Hfa).
  eexists. exists added. split; [|split; [exact Hg|split; [exact Hfa|reflexivity]]].
  simpl in Ht. injection Ht as <-. reflexivity.
Defined.

(** X8.  After a successful [save], on an instance whose [_create] and
    [_update] are the ones of [GitlabObject], every field of the mapping
    that the server returned is on the instance, hydrated as at
    construction: the fields of the response overwrite what the instance
    held under the same names. *)
Theorem save_rehydrates (net : connection) (fuel : nat) (self : instance)
    (kwargs : dict) (w w' : world) (obj : instance) (from_api : value)
    (items : dict) (k : string) (v : value) :
  uses_base_methods self = true ->
  getattr self "_from_api" = Some from_api ->
  save net fuel self kwargs w = (Ok obj, w') ->
  reply_data net (trace w)
    (if truthy from_api then Req_update self kwargs else Req_create self kwargs)
  = Ok (VDict items) ->
  NoDup (keys items) -> In (k, v) items -> k <> "_from_api" ->
  exists o, getattr obj k = Some o /\ field_hydrates_to (inst_cls self) k v o.
Proof.
  intros _ Hfa H Hr Hnd Hin Hk. unfold save, bindM, attr in H.
  rewrite Hfa in H. simpl in H.
  destruct (truthy from_api).
  - apply update_Ok in H. destruct H as (json & d & Hr' & Hset & ->).
    rewrite Hr in Hr'. injection Hr' as <-. simpl in Hset.
    destruct (@set_items_field (__init__ net fuel) (@init_class net fuel)
                _ _ _ _ _ _ k v Hset Hnd Hin) as (o & Hget & Hf).
    exists o. split; [|exact Hf]. unfold getattr. simpl. now rewrite Hget.
  - apply create_Ok in H. destruct H as (json & d & Hr' & Hset & ->).
    rewrite Hr in Hr'. injection Hr' as <-. simpl in Hset.
    destruct (@set_items_field (__init__ net fuel) (@init_class net fuel)
                _ _ _ _ _ _ k v Hset Hnd Hin) as (o & Hget & Hf).
    exists o. split; [|exact Hf]. unfold getattr. simpl.
    rewrite dict_get_set_ne by exact Hk. now rewrite Hget.
Qed.

Lemma save_rehydrates_witness :
  exists o,
    getattr (Instance Abc
               [("_from_api", VBool true); ("gitlab", VGitlab);
                ("name", VStr "demo"); ("id", VInt 42); ("path", VStr "demo")])
      "id" = Some o /\
    field_hydrates_to Abc "id" (VInt 42) o.
Proof.
  apply (@save_rehydrates create_server 1 demo_local [] empty_world
           (World [] [Req_create demo_local []]) _ (VBool false)
           [("id", VInt 42); ("name", VStr "demo"); ("path", VStr "demo")]
           "id" (VInt 42) eq_refl eq_refl eq_refl eq_refl).
  - solve_NoDup.
  - simpl. auto.
  - discriminate.
Defined.

(** ** The ['from_list'] scan *)

(** X9.  What [get] returns for a ['from_list'] type is one of the
    objects listed; the attribute the type declares as identifier has, on
    that object, the same string as the id asked for, and on every object
    listed before it another string.  When [get] raises a Gitlab error,
    it is the get error "Object not found", and every listed object has
    an identifier whose string is not that of the id.  An object is never
    returned for an id that is not its own. *)
Theorem from_list_scan_sound (net : connection) (py_repr : value -> string)
    (fuel : nat) (c : descriptor) (gl id : value) (kwargs : dict)
    (w w' : world) (objs : list instance) :
  canGet c = CanGetFromList ->
  GitlabObject_list net c gl kwargs w = (Ok objs, w') ->
  Forall (listed_as c) objs ->
  (forall obj,
     fst (GitlabObject_get net py_repr fuel c gl id kwargs w) = Ok obj ->
     exists before after v,
       objs = before ++ obj :: after /\
       getattr obj (idAttr c) = Some v /\
       py_str py_repr v = py_str py_repr id /\
       Forall (identifier_differs py_repr c id) before) /\
  (forall kind msg,
     fst (GitlabObject_get net py_repr fuel c gl id kwargs w)
     = Raise (GitlabError kind msg) ->
     kind = GitlabGetError /\ msg = "Object not found" /\
     Forall (identifier_differs py_repr c id) objs).
Proof.
  intros Hc Hl Hall.
  assert (H : fst (GitlabObject_get net py_repr fuel c gl id kwargs w)
              = scan py_repr id objs).
  { unfold GitlabObject_get, bindM. now rewrite Hc, Hl. }
  rewrite H. pose proof (@scan_outcome py_repr c id objs Hall) as Hs. split.
  - intros obj E. rewrite E in Hs.
    destruct Hs as (before & after & -> & (v & Hv & Hs) & Hb).
    exists before, after, v. auto.
  - intros kind msg E. rewrite E in Hs.
    destruct Hs as [[[= -> ->] Hd]|[Hd _]]; [auto | discriminate].
Qed.

Lemma from_list_scan_sound_witness :
  (forall obj,
     fst (GitlabObject_get user_keys_server example_repr 0 UserKey VGitlab
            (VStr "7") [] empty_world) = Ok obj ->
     exists before after v,
       [key_eight; key_seven] = before ++ obj :: after /\
       getattr obj (idAttr UserKey) = Some v /\
       py_str example_repr v = py_str example_repr (VStr "7") /\
       Forall (identifier_differs example_repr UserKey (VStr "7")) before) /\
  (forall kind msg,
     fst (GitlabObject_get user_keys_server example_repr 0 UserKey VGitlab
            (VStr "7") [] empty_world) = Raise (GitlabError kind msg) ->
     kind = GitlabGetError /\ msg = "Object not found" /\
     Forall (identifier_differs example_repr UserKey (VStr "7"))
       [key_eight; key_seven]).
Proof.
  apply (@from_list_scan_sound user_keys_server example_repr 0 UserKey VGitlab
           (VStr "7") [] empty_world _ _ eq_refl eq_refl).
  repeat constructor.
Defined.

(** With the keys of the example, the key returned for 7 is the one whose
    [id] is 7, not the one whose [name] is "7". *)
Example key_found_by_id :
  fst (GitlabObject_get user_keys_server example_repr 0 UserKey VGitlab
         (VInt 7) [] empty_world) = Ok key_seven /\
  getattr key_seven "id" = Some (VInt 7) /\
  getattr key_eight "name" = Some (VStr "7").
Proof. repeat split. Qed.

Lemma scan_str (py_repr : value -> string) (id1 id2 : value)
    (objs : list instance) :
  py_str py_repr id1 = py_str py_repr id2 ->
  scan py_repr id1 objs = scan py_repr id2 objs.
Proof.
  intros H. induction objs as [|o rest IH]; simpl; [reflexivity|].
  unfold id_matches. rewrite H, IH. reflexivity.
Qed.

(** X10.  For a ['from_list'] type the id asked for counts only through
    its string: two ids with the same [str], such as the number 7 and the
    text "7", lead to the same call and the same result. *)
Theorem from_list_id_by_string (net : connection) (py_repr : value -> string)
    (fuel : nat) (c : descriptor) (gl id1 id2 : value) (kwargs : dict)
    (w : world) :
  canGet c = CanGetFromList ->
  py_str py_repr id1 = py_str py_repr id2 ->
  GitlabObject_get net py_repr fuel c gl id1 kwargs w
  = GitlabObject_get net py_repr fuel c gl id2 kwargs w.
Proof.
  intros Hc Hs. unfold GitlabObject_get, bindM. rewrite Hc.
  destruct (GitlabObject_list net c gl kwargs w) as [[objs|e|l] w1]; auto.
  unfold lift. now rewrite (scan_str py_repr id1 id2 objs Hs).
Qed.

Lemma from_list_id_by_string_witness :
  GitlabObject_get labels_server example_repr 0 ProjectLabel VGitlab
    (VInt 7) [] empty_world
  = GitlabObject_get labels_server example_repr 0 ProjectLabel VGitlab
      (VStr "7") [] empty_world.
Proof.
  exact (@from_list_id_by_string labels_server example_repr 0 ProjectLabel
           VGitlab (VInt 7) (VStr "7") [] empty_world eq_refl eq_refl).
Defined.

(** ** Equality and private attributes *)

Lemma as_dict_keeps_private (k : string) (v : value) :
  underscore k = true -> as_dict_keeps k v = Ok false.
Proof.
  intros H. unfold as_dict_keeps. destruct (is_manager v); [reflexivity|].
  destruct k as [|ch k]; [discriminate|]. simpl in *. now rewrite H.
Qed.

Lemma as_dict_items_set_private (d : dict) (k : string) (v : value) :
  underscore k = true -> as_dict_items (dict_set k v d) = as_dict_items d.
Proof.
  intros H. induction d as [|[k0 v0] r IH]; simpl.
  - now rewrite as_dict_keeps_private.
  - destruct (String.eqb k k0) eqn:E; simpl.
    + apply String.eqb_eq in E. subst k0.
      now rewrite !as_dict_keeps_private.
    + now rewrite IH.
Qed.

(** X11.  Attributes whose name starts with an underscore, the origin flag
    [_from_api] among them, play no part in equality: setting one on
    either side leaves the answer of [__eq__], exception included, as it
    was. *)
Theorem eq_ignores_private_attributes (a : instance) (k : string) (v : value) :
  underscore k = true ->
  as_dict (setattr a k v) = as_dict a /\
  (forall other, __eq__ (setattr a k v) other = __eq__ a other) /\
  (forall b, __eq__ b (VInst (setattr a k v)) = __eq__ b (VInst a)).
Proof.
  intros H.
  assert (Ha : as_dict (setattr a k v) = as_dict a).
  { unfold as_dict, setattr. simpl. now apply as_dict_items_set_private. }
  assert (Hk : "as_dict" <> k) by (intros <-; discriminate H).
  assert (Ht : forall m : outcome dict,
             through_instance (dict_set k v (inst_dict a)) "as_dict" m
             = through_instance (inst_dict a) "as_dict" m).
  { intros m. unfold through_instance. now rewrite dict_get_set_ne. }
  split; [exact Ha|]. split.
  - intros other. unfold __eq__, User___eq__, GitlabObject___eq__.
    simpl inst_cls. rewrite Ha.
    change (inst_dict (setattr a k v)) with (dict_set k v (inst_dict a)).
    now rewrite Ht.
  - intros b. unfold __eq__, User___eq__, GitlabObject___eq__, VInst, as_dict.
    simpl inst_cls. simpl inst_dict.
    now rewrite Ht, as_dict_items_set_private.
Qed.

Lemma eq_ignores_private_attributes_witness :
  as_dict (setattr user_fetched "_from_api" (VBool false)) = as_dict user_fetched /\
  (forall other,
     __eq__ (setattr user_fetched "_from_api" (VBool false)) other
     = __eq__ user_fetched other) /\
  (forall b,
     __eq__ b (VInst (setattr user_fetched "_from_api" (VBool false)))
     = __eq__ b (VInst user_fetched)).
Proof.
  exact (@eq_ignores_private_attributes user_fetched "_from_api" (VBool false)
           eq_refl).
Defined.

(** X12.  [as_dict] raises [IndexError] exactly when the instance has an
    attribute with the empty name that is not a manager, and returns a
    dictionary otherwise; with such an attribute, comparing the instance
    with one of its own type raises [IndexError] too, while comparing it
    with anything else still answers false; and when an attribute of the
    instance is itself called [as_dict] and holds data, comparing the
    instance with one of its own type raises [TypeError]. *)
Theorem as_dict_empty_name (o : instance) :
  (as_dict o = Raise IndexError <->
   exists v, In (EmptyString, v) (inst_dict o) /\ is_manager v = false) /\
  ((exists d, as_dict o = Ok d) \/ as_dict o = Raise IndexError) /\
  (as_dict o = Raise IndexError ->
   dict_get "as_dict" (inst_dict o) = None ->
   forall c d,
     __eq__ o (VObj c d)
     = if same_type c (inst_cls o) then Raise IndexError else Ok false) /\
  (forall v,
     dict_get "as_dict" (inst_dict o) = Some v ->
     v <> VGitlab -> (forall tag, v <> VOpaque tag) ->
     forall c d,
       __eq__ o (VObj c d)
       = if same_type c (inst_cls o) then Raise TypeError else Ok false).
Proof.
  unfold as_dict. pose proof (as_dict_items_outcome (inst_dict o)) as H.
  split; [|split; [|split]].
  - destruct (as_dict_items (inst_dict o)) as [d|e|l]; [| |contradiction].
    + split; [discriminate|]. intros (v & Hin & Hm).
      rewrite (H v Hin) in Hm. discriminate.
    + destruct H as (-> & Hex). tauto.
  - destruct (as_dict_items (inst_dict o)) as [d|e|l]; [eauto| |contradiction].
    destruct H as (-> & _). auto.
  - intros E Hn c d.
    unfold __eq__, User___eq__, GitlabObject___eq__, as_dict, through_instance.
    rewrite Hn, E.
    destruct (is_User (inst_cls o)); now destruct (same_type c (inst_cls o)).
  - intros v Hv Hg Ht c d.
    unfold __eq__, User___eq__, GitlabObject___eq__, through_instance.
    rewrite Hv.
    destruct (is_User (inst_cls o)); destruct (same_type c (inst_cls o));
      try reflexivity; destruct v; try reflexivity; try congruence;
      now elim (Ht tag).
Qed.

Lemma as_dict_empty_name_witness :
  as_dict nameless_field = Raise IndexError /\
  __eq__ nameless_field (VInst nameless_field) = Raise IndexError /\
  __eq__ nameless_field (VInst user_fetched) = Ok false.
Proof.
  destruct (as_dict_empty_name nameless_field) as (Hiff & _ & Heq & _).
  assert (H : as_dict nameless_field = Raise IndexError).
  { apply Hiff. exists (VInt 0). split; [simpl; auto | reflexivity]. }
  split; [exact H|]. split.
  - exact (Heq H eq_refl (inst_cls nameless_field) (inst_dict nameless_field)).
  - exact (Heq H eq_refl (inst_cls user_fetched) (inst_dict user_fetched)).
Defined.

(** ** More on the request body *)

(** X13.  The extra parameters given to [_data_for_gitlab] go into the
    body as they are: each is written under its name with the value
    given, a list being written as a list and not joined, and it replaces
    what an attribute of the same name would have contributed. *)
Theorem extra_parameters_override (self : instance) (extra_parameters : dict)
    (update : bool) (j : json) (k : string) (v : value) :
  _data_for_gitlab self extra_parameters update = Ok j ->
  NoDup (keys extra_parameters) ->
  In (k, v) extra_parameters ->
  exists payload jv,
    j = JObject payload /\ dumps v = Ok jv /\ dict_get k payload = Some jv.
Proof.
  intros H Hnd Hin. unfold _data_for_gitlab in H.
  destruct (shadows_attribute_lists self update); [discriminate|].
  destruct (data_loop self (data_attributes (inst_cls self) update) [])
    as [data| |]; cbn [bind] in H; try discriminate.
  rewrite dumps_VDict in H.
  destruct (dumps_members (dict_update data extra_parameters)) as [m| |] eqn:Em;
    simpl in H; try discriminate.
  injection H as <-. apply dumps_members_spec in Em. destruct Em as [_ Hv].
  destruct (Hv k v) as (jv & Hj & Hm).
  { rewrite dict_get_update, dict_get_rev_NoDup by exact Hnd.
    now rewrite (NoDup_keys_get _ _ _ Hnd Hin). }
  eauto.
Qed.

Lemma extra_parameters_override_witness :
  exists payload jv,
    JObject [("a", JNumber 1); ("b", JArray [JString "p"; JString "q"]);
             ("c", JString "z"); ("page", JNumber 2)] = JObject payload /\
    dumps (VList [VStr "p"; VStr "q"]) = Ok jv /\
    dict_get "b" payload = Some jv.
Proof.
  apply (@extra_parameters_override abc_instance
           [("b", VList [VStr "p"; VStr "q"])] false _ "b"
           (VList [VStr "p"; VStr "q"]) eq_refl).
  - solve_NoDup.
  - simpl. auto.
Defined.

Lemma str_items_not_str (l : list value) (x : value) :
  In x l -> (forall s, x <> VStr s) -> str_items l = Raise TypeError.
Proof.
  induction l as [|y r IH]; simpl; [tauto|]. intros [->|Hin] Hx.
  - destruct x; try reflexivity. now elim (Hx s).
  - destruct y; try reflexivity. now rewrite IH.
Qed.

Lemma flatten_outcome (v : value) :
  match flatten v with
  | Ok _ => True
  | Raise e => e = TypeError
  | Stop _ => False
  end.
Proof.
  destruct v; simpl; auto. unfold join.
  assert (H : match str_items l with
              | Ok _ => True | Raise e => e = TypeError | Stop _ => False end).
  { induction l as [|y r IH]; simpl; auto.
    destruct y; auto. destruct (str_items r); simpl; auto. }
  destruct (str_items l); simpl; auto.
Qed.

Lemma data_loop_type_error (self : instance) (attributes : list string)
    (k : string) (l : list value) :
  In k attributes -> getattr self k = Some (VList l) ->
  str_items l = Raise TypeError ->
  forall data, data_loop self attributes data = Raise TypeError.
Proof.
  intros Hin Hget Hl.
  induction attributes as [|a rest IH]; simpl; intros data; [contradiction|].
  destruct (in_dec string_dec k rest) as [Hr|Hr].
  - destruct (getattr self a) as [v|]; [|now apply IH].
    pose proof (flatten_outcome v) as Hf.
    destruct (flatten v); simpl; [now apply IH | now subst | contradiction].
  - destruct Hin as [->|Hin]; [|contradiction].
    rewrite Hget. simpl. unfold join. now rewrite Hl.
Qed.

(** X14.  A list that holds something other than strings cannot be
    joined: when one of the attributes considered holds such a list,
    [_data_for_gitlab] raises [TypeError] and no body is produced. *)
Theorem list_of_non_strings_raises (self : instance) (extra_parameters : dict)
    (update : bool) (k : string) (l : list value) (x : value) :
  shadows_attribute_lists self update = false ->
  In k (data_attributes (inst_cls self) update) ->
  getattr self k = Some (VList l) ->
  In x l -> (forall s, x <> VStr s) ->
  _data_for_gitlab self extra_parameters update = Raise TypeError.
Proof.
  intros Hs Hk Hget Hx Hns. unfold _data_for_gitlab. rewrite Hs.
  rewrite (@data_loop_type_error self _ k l Hk Hget
             (@str_items_not_str l x Hx Hns)).
  reflexivity.
Qed.

Lemma list_of_non_strings_raises_witness :
  _data_for_gitlab abc_numbers [] false = Raise TypeError.
Proof.
  apply (@list_of_non_strings_raises abc_numbers [] false "b"
           [VInt 10; VInt 20] (VInt 10) eq_refl).
  - simpl. auto.
  - reflexivity.
  - simpl. auto.
  - discriminate.
Defined.

Lemma data_for_gitlab_object (self : instance) (extra_parameters : dict)
    (update : bool) (j : json) :
  _data_for_gitlab self extra_parameters update = Ok j ->
  exists data payload,
    data_loop self (data_attributes (inst_cls self) update) [] = Ok data /\
    dumps_members (dict_update data extra_parameters) = Ok payload /\
    j = JObject payload.
Proof.
  intros H. unfold _data_for_gitlab in H.
  destruct (shadows_attribute_lists self update); [discriminate|].
  destruct (data_loop self (data_attributes (inst_cls self) update) [])
    as [data| |]; cbn [bind] in H; try discriminate.
  rewrite dumps_VDict in H.
  destruct (dumps_members (dict_update data extra_parameters)) as [m| |] eqn:Em;
    simpl in H; try discriminate.
  injection H as <-. now exists data, m.
Qed.

(** X15.  The body a merge request sends on update is the body it sends
    on creation without the member [source_branch]: that member is
    absent, whether it came from the attribute or from the extra
    parameters, and every other member is as in the creation body. *)
Theorem merge_request_update_body (self : instance) (extra_parameters : dict)
    (j : json) :
  ProjectMergeRequest__data_for_gitlab self extra_parameters true = Ok j ->
  exists created payload,
    ProjectMergeRequest__data_for_gitlab self extra_parameters false
    = Ok (JObject created) /\
    j = JObject payload /\
    dict_get "source_branch" payload = None /\
    (forall k, k <> "source_branch" ->
               dict_get k payload = dict_get k created).
Proof.
  unfold ProjectMergeRequest__data_for_gitlab. intros H.
  destruct (_data_for_gitlab self extra_parameters false) as [data| |] eqn:E;
    cbn [bind] in H |- *; try discriminate.
  destruct (data_for_gitlab_object _ _ _ E) as (d & created & _ & _ & ->).
  injection H as <-. exists created, (dict_del "source_branch" created).
  repeat split.
  - apply dict_get_del_eq.
  - intros k Hk. now apply dict_get_del_ne.
Qed.

Lemma merge_request_update_body_witness :
  exists created payload,
    ProjectMergeRequest__data_for_gitlab merge_request [] false
    = Ok (JObject created) /\
    JObject [("target_branch", JString "master"); ("title", JString "t")]
    = JObject payload /\
    dict_get "source_branch" payload = None /\
    (forall k, k <> "source_branch" ->
               dict_get k payload = dict_get k created).
Proof.
  exact (@merge_request_update_body merge_request [] _ eq_refl).
Defined.

Lemma str_items_map_VStr (ls : list string) : str_items (map VStr ls) = Ok ls.
Proof.
  induction ls as [|s r IH]; simpl; [reflexivity|]. now rewrite IH.
Qed.

(** X16.  An issue whose [labels] is a list of strings sends them as one
    string, joined with a comma and a space, and the call leaves that
    string in the dictionary it was given as [extra_parameters].  As the
    default dictionary is shared, the next call that leaves the argument
    out, on an issue that has no [labels], or has [None] or a string
    there, sends the labels of the first issue. *)
Theorem issue_labels_leak (first second : instance) (ls : list string)
    (j1 j2 : json) (d1 d2 : dict) :
  getattr first "labels" = Some (VList (map VStr ls)) ->
  (getattr second "labels" = None \/
   getattr second "labels" = Some VNone \/
   exists s, getattr second "labels" = Some (VStr s)) ->
  ProjectIssue__data_for_gitlab first [] false = (Ok j1, d1) ->
  ProjectIssue__data_for_gitlab second d1 false = (Ok j2, d2) ->
  let labels := String.concat ", " ls in
  d1 = [("labels", VStr labels)] /\ d2 = d1 /\
  exists p1 p2,
    j1 = JObject p1 /\ dict_get "labels" p1 = Some (JString labels) /\
    j2 = JObject p2 /\ dict_get "labels" p2 = Some (JString labels).
Proof.
  intros Hf Hs H1 H2 labels.
  unfold ProjectIssue__data_for_gitlab, hasattr in H1. rewrite Hf in H1.
  unfold joined_labels, join in H1. rewrite str_items_map_VStr in H1.
  cbn [bind] in H1. fold labels in H1. simpl dict_set in H1.
  injection H1 as H1 <-.
  assert (H2' : _data_for_gitlab second [("labels", VStr labels)] false = Ok j2
                /\ d2 = [("labels", VStr labels)]).
  { unfold ProjectIssue__data_for_gitlab, hasattr in H2.
    destruct Hs as [Hs|[Hs|[s Hs]]]; rewrite Hs in H2; simpl in H2;
      injection H2 as H2 <-; auto. }
  destruct H2' as [H2' ->]. split; [reflexivity|]. split; [reflexivity|].
  assert (Hin : In ("labels", VStr labels) [("labels", VStr labels)])
    by (simpl; auto).
  assert (Hnd : NoDup (keys [("labels", VStr labels)])) by solve_NoDup.
  destruct (data_for_gitlab_object _ _ _ H1) as (da & p1 & _ & Hp1 & ->).
  destruct (data_for_gitlab_object _ _ _ H2') as (db & p2 & _ & Hp2 & ->).
  exists p1, p2.
  apply dumps_members_spec in Hp1, Hp2.
  destruct Hp1 as [_ Hp1], Hp2 as [_ Hp2].
  destruct (Hp1 "labels" (VStr labels)) as (x1 & Hx1 & Hg1);
    [rewrite dict_get_update; reflexivity|].
  destruct (Hp2 "labels" (VStr labels)) as (x2 & Hx2 & Hg2);
    [rewrite dict_get_update; reflexivity|].
  simpl in Hx1, Hx2. injection Hx1 as <-. injection Hx2 as <-. auto.
Qed.

Lemma issue_labels_leak_witness :
  [("labels", VStr "bug, doc")] = [("labels", VStr "bug, doc")] /\
  [("labels", VStr "bug, doc")] = [("labels", VStr "bug, doc")] /\
  exists p1 p2,
    JObject [("title", JString "first"); ("labels", JString "bug, doc")]
    = JObject p1 /\
    dict_get "labels" p1 = Some (JString "bug, doc") /\
    JObject [("title", JString "second"); ("labels", JString "bug, doc")]
    = JObject p2 /\
    dict_get "labels" p2 = Some (JString "bug, doc").
Proof.
  exact (@issue_labels_leak labelled_issue unlabelled_issue ["bug"; "doc"]
           _ _ _ _ eq_refl (or_introl eq_refl) eq_refl eq_refl).
Defined.

(** ** Branch protection and stars *)

Lemma dict_mem_del_eq (d : dict) (k : string) : dict_mem k (dict_del k d) = false.
Proof.
  destruct (dict_mem k (dict_del k d)) eqn:E; [|reflexivity].
  apply dict_mem_In_keys, keys_dict_del in E. now destruct E.
Qed.

Lemma dict_mem_del_ne (d : dict) (k k' : string) :
  k' <> k -> dict_mem k' (dict_del k d) = dict_mem k' d.
Proof.
  intros Hk. destruct (dict_mem k' d) eqn:E.
  - apply dict_mem_In_keys, keys_dict_del. split; [exact Hk|].
    now apply dict_mem_In_keys.
  - destruct (dict_mem k' (dict_del k d)) eqn:E'; [|reflexivity].
    apply dict_mem_In_keys, keys_dict_del in E'. destruct E' as [_ E'].
    apply dict_mem_In_keys in E'. congruence.
Qed.

Lemma getattr_delattr_ne (o : instance) (k k' : string) :
  k' <> k -> getattr (delattr o k) k' = getattr o k'.
Proof.
  intros Hk. unfold getattr, delattr. simpl. now rewrite dict_get_del_ne.
Qed.

(** What a [protect] call that returns has gone through. *)
Lemma protect_Ok_inv (net : connection) (py_repr : value -> string)
    (self : nat) (protect : value) (kwargs : dict) (w w' : world) :
  ProjectBranch_protect net py_repr self protect kwargs w = (Ok tt, w') ->
  exists o project_id template url name r,
    nth_error (heap w) self = Some o /\
    dict_mem "_url" (inst_dict o) = false /\
    getattr o "project_id" = Some project_id /\
    _url (inst_cls o) = Some template /\
    format_mapping py_repr template [("project_id", project_id)] = Ok url /\
    getattr o "name" = Some name /\
    getattr o "gitlab" = Some VGitlab /\
    let req :=
      Req_raw PUT
        (String.concat "/"
           [url; py_str py_repr name;
            if truthy protect then "protect" else "unprotect"])
        (Some VNone) (Some VNone) kwargs in
    reply_raw net (trace w) req = Ok r /\
    (truthy protect = false -> dict_mem "protected" (inst_dict o) = true) /\
    w' = World (list_set (heap w) self
                  (if truthy protect then setattr o "protected" protect
                   else delattr o "protected"))
               (trace w ++ [req]).
Proof.
  intros H. unfold ProjectBranch_protect in H.
  apply bindM_Ok in H. destruct H as (o & w0 & Hd & H).
  unfold deref in Hd.
  destruct (nth_error (heap w) self) as [o0|] eqn:Ho; [|discriminate].
  injection Hd as -> <-.
  destruct (dict_mem "_url" (inst_dict o)) eqn:Eu; [discriminate|].
  apply bindM_Ok in H. destruct H as (pid & w1 & Hpid & H).
  apply bindM_Ok in H. destruct H as (url & w2 & Hurl & H).
  apply bindM_Ok in H. destruct H as (name & w3 & Hname & H).
  apply bindM_Ok in H. destruct H as (gl & w4 & Hgl & H).
  apply bindM_Ok in H. destruct H as (r & w5 & Hr & H).
  apply bindM_Ok in H. destruct H as (u & w6 & Hraise & H).
  unfold attr in Hpid, Hname, Hgl.
  destruct (getattr o "project_id") as [pid'|] eqn:Epid; [|discriminate].
  injection Hpid as -> <-.
  destruct (_url (inst_cls o)) as [template|] eqn:Et; [|discriminate].
  unfold lift in Hurl.
  destruct (format_mapping py_repr template [("project_id", pid)])
    as [url'| |] eqn:Ef; try discriminate.
  injection Hurl as -> <-.
  destruct (getattr o "name") as [name'|] eqn:En; [|discriminate].
  injection Hname as -> <-.
  destruct (getattr o "gitlab") as [g|] eqn:Eg; [|discriminate].
  injection Hgl as -> <-.
  destruct gl; simpl in Hr; try discriminate.
  unfold send in Hr.
  match type of Hr with (?a, _) = _ => destruct a as [r'| |] eqn:Er end;
    try discriminate.
  injection Hr as -> <-.
  unfold lift in Hraise.
  destruct (raise_error_from_response r GitlabProtectError [200%Z]);
    try discriminate.
  injection Hraise as _ <-.
  exists o, pid, template, url, name, r.
  repeat (split; [first [reflexivity | assumption]|]).
  destruct (truthy protect).
  - unfold store in H. injection H as <-. split; [discriminate|reflexivity].
  - destruct (dict_mem "protected" (inst_dict o)); [|discriminate].
    unfold store in H. injection H as <-. split; reflexivity.
Qed.

(** X17.  [unprotect()] cannot be repeated: it deletes the attribute
    [protected], and a call on a branch without that attribute never
    returns.  After one successful [unprotect()], no further
    [unprotect()] succeeds, whatever the server answers; when the server
    accepts the repeated request, the request has been made and the call
    ends in [AttributeError], the branch being left as it was. *)
Theorem unprotect_not_repeatable (net : connection) (py_repr : value -> string)
    (self : nat) (kwargs : dict) (w w1 : world) :
  ProjectBranch_unprotect net py_repr self kwargs w = (Ok tt, w1) ->
  (forall net' kwargs',
     fst (ProjectBranch_unprotect net' py_repr self kwargs' w1) <> Ok tt) /\
  exists req,
    trace w1 = trace w ++ [req] /\
    forall net' r,
      reply_raw net' (trace w1) req = Ok r ->
      status_code r = 200%Z ->
      ProjectBranch_unprotect net' py_repr self kwargs w1
      = (Raise AttributeError, World (heap w1) (trace w1 ++ [req])).
Proof.
  unfold ProjectBranch_unprotect. intros H.
  apply protect_Ok_inv in H.
  destruct H as (o & pid & template & url & name & r & Ho & Hu & Hpid & Ht &
                 Hf & Hname & Hgl & Hr & Hp & ->).
  simpl truthy in *. cbv iota in *. specialize (Hp eq_refl).
  assert (Ho' : nth_error (list_set (heap w) self (delattr o "protected")) self
                = Some (delattr o "protected"))
    by exact (nth_error_list_set _ _ _ Ho).
  split.
  - intros net' kwargs' Hok.
    destruct (ProjectBranch_protect net' py_repr self (VBool false) kwargs' _)
      as [[[]| |] w2] eqn:E; try discriminate.
    apply protect_Ok_inv in E.
    destruct E as (o2 & pid2 & template2 & url2 & name2 & r2 & Ho2 & _ & _ &
                   _ & _ & _ & _ & _ & Hp2 & _).
    simpl heap in Ho2. rewrite Ho' in Ho2. injection Ho2 as <-.
    specialize (Hp2 eq_refl). simpl in Hp2.
    rewrite dict_mem_del_eq in Hp2. discriminate.
  - eexists. split; [reflexivity|]. intros net' r' Hr' Hs.
    unfold ProjectBranch_protect, bindM, deref, attr, on_connection, send, lift,
      raise_error_from_response, ret, store.
    cbn [heap trace]. rewrite Ho'. cbv beta iota.
    change (inst_dict (delattr o "protected"))
      with (dict_del "protected" (inst_dict o)).
    rewrite dict_mem_del_ne, Hu by discriminate.
    rewrite getattr_delattr_ne, Hpid by discriminate. cbv beta iota.
    change (inst_cls (delattr o "protected")) with (inst_cls o).
    rewrite Ht. cbv beta iota. rewrite Hf. cbv beta iota.
    rewrite getattr_delattr_ne, Hname by discriminate. cbv beta iota.
    rewrite getattr_delattr_ne, Hgl by discriminate. cbv beta iota.
    change (truthy (VBool false)) with false. cbv iota.
    rewrite Hr', Hs.
    change (existsb (Z.eqb 200) [200%Z]) with true. cbv beta iota.
    now rewrite dict_mem_del_eq.
Qed.

Lemma unprotect_not_repeatable_witness :
  (forall net' kwargs',
     fst (ProjectBranch_unprotect net' example_repr 0 kwargs'
            (World [delattr branch_master "protected"]
                   [protect_request "unprotect"])) <> Ok tt) /\
  exists req,
    [protect_request "unprotect"] = [] ++ [req] /\
    forall net' r,
      reply_raw net' [protect_request "unprotect"] req = Ok r ->
      status_code r = 200%Z ->
      ProjectBranch_unprotect net' example_repr 0 []
        (World [delattr branch_master "protected"] [protect_request "unprotect"])
      = (Raise AttributeError,
         World [delattr branch_master "protected"]
               ([protect_request "unprotect"] ++ [req])).
Proof.
  exact (@unprotect_not_repeatable accepting example_repr 0 []
           (World [branch_master] []) _ eq_refl).
Defined.

(** X18.  [unstar()] on a project sends one DELETE to the star address of
    the project.  When the server answers 304 the call returns the
    instance it was called on; when it answers 200 with a body, the call
    returns a new instance built from that body, the old one being kept;
    on any other answer, 201 included, it returns nothing: the call ends
    in the condition that [raise_error_from_response] makes of that
    answer and of the deletion error it is given. *)
Theorem unstar_outcome (net : connection) (py_repr : value -> string)
    (fuel : nat) (self : nat) (w : world) (o : instance) (id : value)
    (r : response) :
  nth_error (heap w) self = Some o ->
  getattr o "id" = Some id ->
  getattr o "gitlab" = Some VGitlab ->
  let url := String.append "/projects/" (String.append (py_str py_repr id) "/star") in
  let req := Req_raw DELETE url None None [] in
  reply_raw net (trace w) req = Ok r ->
  let w1 := World (heap w) (trace w ++ [req]) in
  (status_code r = 304%Z ->
   Project_unstar net py_repr fuel self w = (Ok self, w1)) /\
  (status_code r = 200%Z ->
   forall body inst w2,
     json_body r = Some body ->
     __init__ net fuel Project VGitlab body [] w1 = (Ok inst, w2) ->
     let new := List.length (heap w) in
     Project_unstar net py_repr fuel self w
     = (Ok new, World (heap w ++ [inst]) (trace w2)) /\
     new <> self /\
     nth_error (heap w ++ [inst]) new = Some inst /\
     nth_error (heap w ++ [inst]) self = Some o) /\
  (status_code r <> 200%Z -> status_code r <> 304%Z ->
   Project_unstar net py_repr fuel self w
   = (Raise (ResponseError GitlabDeleteError (status_code r) (json_body r)
              (content r)), w1)).
Proof.
  intros Ho Hid Hgl url req Hr w1. split; [|split].
  - intros Hs.
    unfold Project_unstar, bindM, deref, attr, on_connection, send, lift,
      raise_error_from_response, ret.
    rewrite Ho. cbv beta iota. rewrite Hid. cbv beta iota.
    rewrite Hgl. cbv beta iota. fold url. fold req. rewrite Hr, Hs.
    reflexivity.
  - intros Hs body inst w2 Hb Hinit new.
    pose proof (keeps_heap_init net fuel Project VGitlab body [] w1) as Hheap.
    rewrite Hinit in Hheap. simpl in Hheap.
    assert (Hlt : self < List.length (heap w)).
    { apply nth_error_Some. congruence. }
    split; [|split; [|split]].
    + unfold Project_unstar, bindM, deref, attr, on_connection, send, lift,
        raise_error_from_response, response_json, ret.
      rewrite Ho. cbv beta iota. rewrite Hid. cbv beta iota.
      rewrite Hgl. cbv beta iota. fold url. fold req. rewrite Hr, Hs, Hb.
      change (existsb (Z.eqb 200) [200%Z; 304%Z]) with true.
      change (Z.eqb 200 200) with true. cbv beta iota.
      fold w1. rewrite Hinit. unfold alloc. now rewrite Hheap.
    + unfold new. lia.
    + unfold new. rewrite nth_error_app2 by lia. now rewrite Nat.sub_diag.
    + rewrite nth_error_app1 by exact Hlt. exact Ho.
  - intros H200 H304.
    unfold Project_unstar, bindM, deref, attr, on_connection, send, lift,
      raise_error_from_response, ret.
    rewrite Ho. cbv beta iota. rewrite Hid. cbv beta iota.
    rewrite Hgl. cbv beta iota. fold url. fold req. rewrite Hr.
    cbv beta iota.
    assert (E : existsb (Z.eqb (status_code r)) [200%Z; 304%Z] = false).
    { simpl. apply Z.eqb_neq in H200, H304. now rewrite H200, H304. }
    rewrite E. reflexivity.
Qed.

Lemma unstar_outcome_witness :
  Project_unstar already_starred example_repr 1 0 (World [project_one] [])
  = (Ok 0, World [project_one] [unstar_request]) /\
  (exists inst,
    __init__ unstarring 1 Project VGitlab unstarred_body []
      (World [project_one] [unstar_request])
    = (Ok inst, World [project_one] [unstar_request]) /\
    Project_unstar unstarring example_repr 1 0 (World [project_one] [])
    = (Ok 1, World [project_one; inst] [unstar_request]) /\
    getattr inst "star_count" = Some (VInt 0)) /\
  Project_unstar not_yet_starred example_repr 1 0 (World [project_one] [])
  = (Raise (ResponseError GitlabDeleteError 201 (Some starred_body) EmptyString),
     World [project_one] [unstar_request]).
Proof.
  split; [|split].
  - exact (proj1 (@unstar_outcome already_starred example_repr 1 0
                    (World [project_one] []) project_one (VInt 1)
                    (Response 304 None EmptyString) eq_refl eq_refl eq_refl eq_refl)
             eq_refl).
  - eexists. split; [reflexivity|]. split; [|reflexivity].
    exact (proj1 (proj1 (proj2 (@unstar_outcome unstarring example_repr 1 0
                    (World [project_one] []) project_one (VInt 1)
                    (Response 200 (Some unstarred_body) EmptyString)
                    eq_refl eq_refl eq_refl eq_refl))
             eq_refl unstarred_body _ _ eq_refl eq_refl)).
  - apply (proj2 (proj2 (@unstar_outcome not_yet_starred example_repr 1 0
                    (World [project_one] []) project_one (VInt 1)
                    (Response 201 (Some starred_body) EmptyString)
                    eq_refl eq_refl eq_refl eq_refl))); discriminate.
Defined.

(** ** Objects listed by [builds] and [issues] *)

Lemma init_keeps_gitlab (net : connection) (fuel : nat) (c : descriptor)
    (gl : value) (fields : dict) (w w' : world) (inst : instance) :
  __init__ net fuel c gl (VDict fields) [] w = (Ok inst, w') ->
  ~ In "gitlab" (keys fields) -> ~ In "gitlab" (manager_names c) ->
  dict_get "gitlab" (inst_dict inst) = Some gl.
Proof.
  intros H Hf Hm. apply init_Ok in H. destruct H as (fuel' & -> & H).
  unfold init_body in H. simpl is_id in H. cbv iota in H.
  apply bindM_Ok in H. destruct H as ([payload self0] & w1 & Hfetch & H).
  injection Hfetch as <- <- <-.
  apply bindM_Ok in H. destruct H as (self2 & w2 & Hset & H).
  apply bindM_Ok in H. destruct H as (self5 & w3 & Hmgr & H).
  injection H as <- <-. simpl inst_dict.
  apply set_managers_spec in Hmgr. destruct Hmgr as (_ & Hout & _).
  rewrite (Hout "gitlab" Hm).
  simpl in Hset.
  pose proof (@set_items_other _ _ _ _ _ _ _ Hset "gitlab" Hf) as Hg.
  simpl dict_update.
  destruct (hasattr (Instance c self2) "id");
    [|rewrite dict_get_set_ne by discriminate]; rewrite Hg; reflexivity.
Qed.

Lemma construct_each_spec (net : connection) (fuel : nat) (c : descriptor)
    (parent : value) (items : list value) :
  ~ In "gitlab" (manager_names c) ->
  forall w l w',
    construct_each net fuel c parent items w = (Ok l, w') ->
    heap w' = heap w /\ Forall2 (built_on c parent) items l.
Proof.
  intros Hm. induction items as [|j rest IH]; simpl; intros w l w' H.
  - injection H as <- <-. auto.
  - apply bindM_Ok in H. destruct H as (o & w1 & Hinit & H).
    apply bindM_Ok in H. destruct H as (l' & w2 & Hrest & H).
    injection H as <- <-. apply IH in Hrest. destruct Hrest as [Hh Hall].
    pose proof (keeps_heap_init net fuel c parent j [] w) as Hk.
    rewrite Hinit in Hk. simpl in Hk. split; [congruence|].
    constructor; [|exact Hall]. split; [|split].
    + simpl. exact (@init_class _ _ _ _ _ _ _ _ _ Hinit).
    + unfold getattr, setattr. simpl. now rewrite dict_get_set_eq.
    + intros fields -> Hf. unfold getattr, setattr. simpl.
      rewrite dict_get_set_ne by discriminate.
      now rewrite (@init_keeps_gitlab _ _ _ _ _ _ _ _ Hinit Hf Hm).
Qed.



(** ** Methods redefined by [User] and [GroupMember] *)

Lemma lower_ascii_idem (ch : ascii) :
  Nat.leb 128 (nat_of_ascii ch) = false ->
  Nat.leb 128 (nat_of_ascii (lower_ascii ch)) = false /\
  lower_ascii (lower_ascii ch) = lower_ascii ch.
Proof.
  destruct ch as [[] [] [] [] [] [] [] []]; intros H; try discriminate H;
    split; reflexivity.
Qed.

Lemma lower_idem (s t : string) : lower s = Ok t -> lower t = Ok t.
Proof.
  revert t. induction s as [|ch rest IH]; intros t H; cbn [lower] in H.
  - now injection H as <-.
  - destruct (Nat.leb 128 (nat_of_ascii ch)) eqn:E; [discriminate|].
    destruct (lower rest) as [r| |]; cbn [bind] in H; try discriminate.
    injection H as <-. destruct (lower_ascii_idem ch E) as [E' Hc].
    cbn [lower]. rewrite E', (IH r eq_refl). cbn [bind]. now rewrite Hc.
Qed.

(** X20.  Serialising a user rewrites its [confirm] attribute as the
    lower-case text of its value, so that [True] and [False] are sent as
    [true] and [false]; the body is the creation body whatever [update]
    says; and the rewriting happens once: on the instance as the call
    leaves it, the same call gives the same body and changes nothing. *)
Theorem user_confirm_normalised (py_repr : value -> string)
    (self self' : instance) (extra_parameters : dict) (update : bool)
    (confirm : value) (j : json) :
  inst_cls self = User ->
  getattr self "confirm" = Some confirm ->
  User__data_for_gitlab py_repr self extra_parameters update = (Ok j, self') ->
  exists s,
    lower (py_str py_repr confirm) = Ok s /\
    self' = setattr self "confirm" (VStr s) /\
    (forall b, confirm = VBool b -> s = if b then "true" else "false") /\
    _data_for_gitlab self' extra_parameters false = Ok j /\
    (~ In "confirm" (keys extra_parameters) ->
     exists payload,
       j = JObject payload /\ dict_get "confirm" payload = Some (JString s)) /\
    forall update',
      User__data_for_gitlab py_repr self' extra_parameters update'
      = (Ok j, self').
Proof.
  intros Hcls Hc H. unfold User__data_for_gitlab in H. rewrite Hc in H.
  destruct (lower (py_str py_repr confirm)) as [s| |] eqn:El; try discriminate.
  injection H as H <-. exists s.
  split; [reflexivity|]. split; [reflexivity|]. split; [|split; [exact H|split]].
  - intros b ->. destruct b; vm_compute in El; now injection El as <-.
  - intros Hex.
    destruct (data_for_gitlab_object _ _ _ H) as (data & payload & Hl & Hd & ->).
    exists payload. split; [reflexivity|].
    apply data_loop_spec in Hl; [|constructor].
    destruct Hl as (_ & _ & Hl & _).
    destruct (Hl "confirm" (VStr s)) as (v' & Hv' & Hg).
    { simpl inst_cls. rewrite Hcls. vm_compute. tauto. }
    { unfold getattr, setattr. simpl. now rewrite dict_get_set_eq. }
    simpl in Hv'. injection Hv' as <-.
    apply dumps_members_spec in Hd. destruct Hd as [_ Hd].
    destruct (Hd "confirm" (VStr s)) as (x & Hx & Hp).
    { rewrite dict_get_update, dict_get_rev_None by exact Hex. exact Hg. }
    simpl in Hx. now injection Hx as <-.
  - intros update'. unfold User__data_for_gitlab.
    assert (Hg : getattr (setattr self "confirm" (VStr s)) "confirm"
                 = Some (VStr s)).
    { unfold getattr, setattr. simpl. now rewrite dict_get_set_eq. }
    rewrite Hg. simpl py_str. rewrite (lower_idem _ El).
    assert (Hs : setattr (setattr self "confirm" (VStr s)) "confirm" (VStr s)
                 = setattr self "confirm" (VStr s)).
    { unfold setattr. simpl. now rewrite dict_set_set. }
    rewrite Hs, H. reflexivity.
Qed.

Lemma user_confirm_normalised_witness :
  exists s,
    lower (py_str example_repr (VBool false)) = Ok s /\
    setattr unconfirmed_user "confirm" (VStr "false")
    = setattr unconfirmed_user "confirm" (VStr s) /\
    (forall b, VBool false = VBool b -> s = if b then "true" else "false") /\
    _data_for_gitlab (setattr unconfirmed_user "confirm" (VStr "false")) [] false
    = Ok (JObject
            [("email", JString "a@b.c"); ("username", JString "ab");
             ("name", JString "A B"); ("password", JString "secret");
             ("confirm", JString "false")]) /\
    (~ In "confirm" (keys (@nil (string * value))) ->
     exists payload,
       JObject
         [("email", JString "a@b.c"); ("username", JString "ab");
          ("name", JString "A B"); ("password", JString "secret");
          ("confirm", JString "false")] = JObject payload /\
       dict_get "confirm" payload = Some (JString s)) /\
    forall update',
      User__data_for_gitlab example_repr
        (setattr unconfirmed_user "confirm" (VStr "false")) [] update'
      = (Ok (JObject
               [("email", JString "a@b.c"); ("username", JString "ab");
                ("name", JString "A B"); ("password", JString "secret");
                ("confirm", JString "false")]),
         setattr unconfirmed_user "confirm" (VStr "false")).
Proof.
  exact (@user_confirm_normalised example_repr unconfirmed_user _ [] true
           (VBool false) _ eq_refl eq_refl eq_refl).
Defined.

(** X21.  Updating a group member first copies its [id] into [user_id]:
    without an [id] the call raises [AttributeError] and nothing is sent;
    otherwise the update that is sent carries the member with [user_id]
    equal to its [id], whatever [user_id] it had, and the member keeps
    that [user_id] unless the answer of the server has one. *)
Theorem group_member_update (net : connection) (fuel : nat) (self : instance)
    (kwargs : dict) (w : world) :
  (getattr self "id" = None ->
   GroupMember__update net fuel self kwargs w = (Raise AttributeError, w)) /\
  (forall obj w',
     GroupMember__update net fuel self kwargs w = (Ok obj, w') ->
     exists id json added,
       getattr self "id" = Some id /\
       let sent := setattr self "user_id" id in
       getattr sent "user_id" = Some id /\
       reply_data net (trace w) (Req_update sent kwargs) = Ok json /\
       heap w' = heap w /\
       trace w' = trace w ++ Req_update sent kwargs :: added /\
       forallb is_get added = true /\
       (forall items, json = VDict items -> ~ In "user_id" (keys items) ->
                      getattr obj "user_id" = Some id)).
Proof.
  split.
  - intros Hid. unfold GroupMember__update, bindM, attr. now rewrite Hid.
  - intros obj w' H. unfold GroupMember__update in H.
    apply bindM_Ok in H. destruct H as (id & w1 & Hid & H).
    unfold attr in Hid. destruct (getattr self "id") as [id'|]; [|discriminate].
    injection Hid as -> <-.
    apply update_Ok in H. destruct H as (json & d & Hr & Hset & ->).
    pose proof Hset as Hadd.
    apply set_from_dict_adds in Hadd. destruct Hadd as (added & Hh & Ht & Hg).
    exists id, json, added. split; [reflexivity|]. cbv zeta.
    assert (Hu : getattr (setattr self "user_id" id) "user_id" = Some id).
    { unfold getattr, setattr. simpl. now rewrite dict_get_set_eq. }
    repeat (split; [assumption|]).
    intros items -> Hni. simpl in Hset.
    pose proof (@set_items_other _ _ _ _ _ _ _ Hset "user_id" Hni) as Ho.
    unfold getattr. simpl. rewrite Ho. simpl. now rewrite dict_get_set_eq.
Qed.

Lemma group_member_update_witness :
  exists obj id json added,
    GroupMember__update member_server 1 group_member [] empty_world
    = (Ok obj, World [] [Req_update (setattr group_member "user_id" (VInt 5)) []])
    /\
    getattr group_member "id" = Some id /\
    getattr (setattr group_member "user_id" id) "user_id" = Some id /\
    reply_data member_server []
      (Req_update (setattr group_member "user_id" id) []) = Ok json /\
    [Req_update (setattr group_member "user_id" (VInt 5)) []]
    = [] ++ Req_update (setattr group_member "user_id" id) [] :: added /\
    getattr obj "user_id" = Some (VInt 5).
Proof.
  eexists.
  destruct (proj2 (@group_member_update member_server 1 group_member []
                     empty_world) _ _ eq_refl)
    as (id & json & added & Hid & Hu & Hr & _ & Ht & _ & _).
  exists id, json, added. split; [reflexivity|]. repeat (split; [assumption|]).
  reflexivity.
Defined.

(** ** The declarations of the module *)

Lemma all_declarations_resolve :
  forallb declarations_resolve module_classes = true.
Proof. vm_compute. reflexivity. Qed.

(** X22.  The declarations of every class of the module are consistent
    with the way they are used: setting up the managers of an instance
    that has its connection never fails, every manager class naming the
    class it wraps; and every nested type declared is the name of a class
    of the module, so that hydrating a field with a declared type always
    reaches the constructor of that class and never fails on the lookup
    of its name. *)
Theorem module_declarations_resolve (name : string) (c : descriptor) :
  In (name, c) module_classes ->
  cls_name c = name /\
  (forall self w,
     dict_mem "managers" self = false -> dict_get "gitlab" self <> None ->
     exists self', _set_managers c self w = (Ok self', w)) /\
  (forall construct self k t v gl w,
     dict_mem "_constructorTypes" self = false ->
     dict_get k (_constructorTypes c) = Some t ->
     dict_get "gitlab" self = Some gl ->
     exists c',
       dict_get t module_classes = Some c' /\ cls_name c' = t /\
       _get_object construct c self k v w
       = (o <~ construct c' gl v [] ;; ret (VInst o)) w).
Proof.
  intros Hin.
  pose proof (proj1 (forallb_forall _ _) all_declarations_resolve _ Hin) as H.
  unfold declarations_resolve in H.
  apply andb_true_iff in H. destruct H as [H Ht].
  apply andb_true_iff in H. destruct H as [Hn Hm].
  split; [now apply String.eqb_eq|]. split.
  - intros self w Hs Hg. unfold _set_managers. rewrite Hs.
    now apply set_managers_loop_succeeds.
  - intros construct self k t v gl w Hs Hk Hg.
    pose proof (@dict_get_Some_In _ _ _ _ Hk) as Hk'.
    pose proof (proj1 (forallb_forall _ _) Ht _ Hk') as Hc.
    cbv beta in Hc. cbn [snd] in Hc.
    destruct (dict_get t module_classes) as [c'|] eqn:Ec; [|discriminate].
    exists c'. split; [reflexivity|]. split; [now apply String.eqb_eq|].
    unfold _get_object. rewrite Hs, Hk, Ec.
    unfold bindM at 1. unfold attr, getattr. cbn [inst_dict]. rewrite Hg.
    reflexivity.
Qed.

Lemma module_declarations_resolve_witness :
  cls_name Project = "Project" /\
  (forall self w,
     dict_mem "managers" self = false -> dict_get "gitlab" self <> None ->
     exists self', _set_managers Project self w = (Ok self', w)) /\
  exists c',
    dict_get "User" module_classes = Some c' /\ cls_name c' = "User".
Proof.
  assert (Hin : In ("Project", Project) module_classes).
  { unfold module_classes. repeat first [left; reflexivity | right]. }
  destruct (@module_declarations_resolve "Project" Project Hin)
    as (Hn & Hm & Ht).
  split; [exact Hn|]. split; [exact Hm|].
  destruct (Ht (fun _ _ _ _ => ret (Instance Project [])) [("gitlab", VGitlab)]
              "owner" "User" VNone VGitlab empty_world eq_refl eq_refl eq_refl)
    as (c' & Hc & Hcn & _).
  exists c'. auto.
Defined.
